(** * DOM structural analysis engine: ElementAnalyzer and ElementInspector

    A shallow embedding of the content scripts of the browser automation
    helper extension: [ElementAnalyzer.js] (structure analysis, similarity
    scoring, container classification, relationship finding with its
    per-element cache, selector generation, the [analyzeElement] facade) and
    the parts of [ElementInspector.js] that own the analyzer (session start
    and stop, the hover and click handlers, the inspector's own CSS selector
    generator).

    Two further scripts are embedded for their own properties: the
    connection management and the tab messages of [background.js], and
    the restriction test and status line of [popup.js].

    Conventions of the embedding:
    - the document is an HTML document and its elements are HTML elements:
      tag names are upper case, [className] is a string, the interface of
      an element ([HTMLInputElement], [HTMLLIElement], ...) follows from
      its tag;
    - JS strings are [string]s; [toLowerCase] acts on the ASCII letters,
      which is what tag names, class keywords and attribute names use;
    - JS numbers that take part in the similarity score are IEEE 754
      binary64 values ([spec_float] at precision 53, exponent bound 1024);
      lengths and counters, which stay small integers, are [nat];
    - an element reference is a position in the document tree (a zipper),
      its identity is the path of child indexes from the document element;
    - methods that may throw, or that touch the analyzer's cache, live in a
      state-and-exception monad over the analyzer object;
    - the browser's selector engine is an interface ([Host]). *)

From Stdlib Require Import ZArith String Ascii List Bool Lia DecimalString.
From Stdlib Require Import Floats.SpecFloat.
From stdpp Require Import base gmap list strings.

Set Warnings "-register-all".

Local Open Scope string_scope.
Local Open Scope list_scope.

(** ** Strings *)

Module JsString.

Definition lowerChar (c : ascii) : ascii :=
  let n := nat_of_ascii c in
  if (65 <=? n)%nat && (n <=? 90)%nat then ascii_of_nat (n + 32) else c.

(** [s.toLowerCase()] *)
Fixpoint toLowerCase (s : string) : string :=
  match s with
  | EmptyString => EmptyString
  | String c s' => String (lowerChar c) (toLowerCase s')
  end.

(** [s.startsWith(p)] *)
Definition startsWith (s p : string) : bool := String.prefix p s.

(** [s.includes(sub)]: some suffix of [s] starts with [sub]. *)
Fixpoint includes (s sub : string) : bool :=
  String.prefix sub s ||
  match s with
  | EmptyString => false
  | String _ s' => includes s' sub
  end.

(** A string is truthy when it is not empty. *)
Definition truthy (s : string) : bool :=
  match s with EmptyString => false | String _ _ => true end.

(** [l.join(sep)] *)
Definition join (sep : string) (l : list string) : string :=
  String.concat sep l.

(** [l.includes(x)] on an array of strings. *)
Definition arrayIncludes (l : list string) (x : string) : bool :=
  existsb (String.eqb x) l.

(** ASCII whitespace, the separators of a DOM token list. *)
Definition isWhitespace (c : ascii) : bool :=
  let n := nat_of_ascii c in
  (n =? 9)%nat || (n =? 10)%nat || (n =? 12)%nat || (n =? 13)%nat
  || (n =? 32)%nat.

(** Splits on runs of whitespace; [cur] is the token being read,
    reversed. *)
Fixpoint tokensFrom (cur : list ascii) (s : string) : list string :=
  let flush (rest : list string) :=
    match cur with
    | [] => rest
    | _ :: _ => string_of_list_ascii (rev cur) :: rest
    end in
  match s with
  | EmptyString => flush []
  | String c s' =>
      if isWhitespace c then flush (tokensFrom [] s')
      else tokensFrom (c :: cur) s'
  end.

Definition tokens (s : string) : list string := tokensFrom [] s.

(** Keeps the first occurrence of every string, in order: the contents of
    an ordered set built from the list. *)
Fixpoint uniqFrom (seen : list string) (l : list string) : list string :=
  match l with
  | [] => []
  | x :: l' =>
      if arrayIncludes seen x then uniqFrom seen l'
      else x :: uniqFrom (x :: seen) l'
  end.

Definition uniq (l : list string) : list string := uniqFrom [] l.

Fixpoint insertSorted (x : string) (l : list string) : list string :=
  match l with
  | [] => [x]
  | y :: l' => if String.leb x y then x :: l else y :: insertSorted x l'
  end.

(** [l.sort()] with the default comparator (code-unit order). *)
Definition sort (l : list string) : list string :=
  fold_right insertSorted [] l.

(** The double quote character, as a one-character string. *)
Definition quote : string := String (ascii_of_nat 34) EmptyString.

(** Decimal rendering of a non-negative integer in a template string. *)
Definition ofNat (n : nat) : string :=
  NilEmpty.string_of_uint (Nat.to_uint n).

End JsString.

(** ** Numbers: IEEE 754 binary64 *)

Module JsNumber.

Definition number : Type := spec_float.

Definition prec : Z := 53.
Definition emax : Z := 1024.

Definition ofNat (n : nat) : number :=
  binary_normalize prec emax (Z.of_nat n) 0 false.

Definition NaN : number := S754_nan.
Definition zero : number := ofNat 0.
Definition one : number := ofNat 1.

Definition add (x y : number) : number := SFadd prec emax x y.
Definition div (x y : number) : number := SFdiv prec emax x y.

(** [x > y]; false as soon as one side is NaN. *)
Definition gt (x y : number) : bool := SFltb y x.

(** [x === y] on numbers; NaN is not equal to itself. *)
Definition eqb (x y : number) : bool := SFeqb x y.

Definition isNaN (x : number) : bool :=
  match x with S754_nan => true | _ => false end.

(** [x++] *)
Definition incr (x : number) : number := add x one.

(** The literals [0.8] and [0.5]: the doubles nearest to 8/10 and 5/10. *)
Definition lit_0_8 : number := div (ofNat 8) (ofNat 10).
Definition lit_0_5 : number := div (ofNat 5) (ofNat 10).

(** [0 <= x <= 1] on numbers. *)
Definition inUnitInterval (x : number) : bool :=
  SFleb zero x && SFleb x one.

End JsNumber.

(** ** The document tree *)

Module Dom.

(** The fields of [window.getComputedStyle(element)] the analyzer reads. *)
Record ComputedStyle : Type := mkStyle {
  display : string;
  flexDirection : string;
  position : string;
  float : string;
  cursor : string
}.

(** What an element carries besides its children.  [onclick] tells
    whether the [onclick] handler property is set. *)
Record ElementData : Type := mkData {
  tagName : string;
  attributes : list (string * string);
  computedStyle : ComputedStyle;
  onclick : bool
}.

Inductive Node : Type :=
| mkNode (data : ElementData) (childNodes : list Node).

Definition data (n : Node) : ElementData :=
  match n with mkNode d _ => d end.

Definition childNodes (n : Node) : list Node :=
  match n with mkNode _ cs => cs end.

(** One step of context: the parent's own data, the siblings before the
    hole (nearest first) and the siblings after it. *)
Record Frame : Type := mkFrame {
  fdata : ElementData;
  lefts : list Node;
  rights : list Node
}.

(** An element reference: a subtree together with the path of frames up
    to the document element. *)
Record Element : Type := mkElement {
  focus : Node;
  ctx : list Frame
}.

(** Identity of an element: child indexes, innermost first. *)
Abbreviation Ref := (list nat).

Definition ref (e : Element) : Ref := map (fun f => length (lefts f)) (ctx e).

(** [a === b] on element references. *)
Definition sameElement (a b : Element) : bool :=
  bool_decide (ref a = ref b).

Definition plug (f : Frame) (n : Node) : Node :=
  mkNode (fdata f) (rev (lefts f) ++ n :: rights f).

(** [element.parentElement] *)
Definition parentElement (e : Element) : option Element :=
  match ctx e with
  | [] => None
  | f :: fs => Some (mkElement (plug f (focus e)) fs)
  end.

(** The chain [parentElement], [parentElement.parentElement], ... *)
Fixpoint ancestorsFrom (n : Node) (fs : list Frame) : list Element :=
  match fs with
  | [] => []
  | f :: fs' =>
      mkElement (plug f n) fs' :: ancestorsFrom (plug f n) fs'
  end.

Definition ancestors (e : Element) : list Element :=
  ancestorsFrom (focus e) (ctx e).

Fixpoint childrenFrom (d : ElementData) (fs : list Frame)
    (before : list Node) (after : list Node) : list Element :=
  match after with
  | [] => []
  | c :: after' =>
      mkElement c (mkFrame d before after' :: fs)
      :: childrenFrom d fs (c :: before) after'
  end.

(** [Array.from(element.children)] *)
Definition children (e : Element) : list Element :=
  childrenFrom (data (focus e)) (ctx e) [] (childNodes (focus e)).

(** The element siblings before [e], nearest first: the chain of
    [previousElementSibling]. *)
Definition previousSiblings (e : Element) : list Node :=
  match ctx e with
  | [] => []
  | f :: _ => lefts f
  end.

Definition elTagName (e : Element) : string := tagName (data (focus e)).
Definition elAttributes (e : Element) : list (string * string) :=
  attributes (data (focus e)).
Definition elStyle (e : Element) : ComputedStyle :=
  computedStyle (data (focus e)).
Definition elOnclick (e : Element) : bool := onclick (data (focus e)).

Fixpoint lookupAttr (name : string) (l : list (string * string))
    : option string :=
  match l with
  | [] => None
  | (k, v) :: l' => if String.eqb k name then Some v else lookupAttr name l'
  end.

(** [element.getAttribute(name)]: [None] is [null]. *)
Definition getAttribute (e : Element) (name : string) : option string :=
  lookupAttr name (elAttributes e).

Definition reflected (e : Element) (name : string) : string :=
  match getAttribute e name with Some v => v | None => "" end.

(** [element.id] and [element.className] reflect the [id] and [class]
    attributes. *)
Definition id (e : Element) : string := reflected e "id".
Definition className (e : Element) : string := reflected e "class".

(** [element.classList]: the distinct class tokens, in order. *)
Definition classList (e : Element) : list string :=
  JsString.uniq (JsString.tokens (className e)).

(** The document element above [n]. *)
Fixpoint rootFrom (n : Node) (fs : list Frame) : Node :=
  match fs with
  | [] => n
  | f :: fs' => rootFrom (plug f n) fs'
  end.

Definition documentElement (e : Element) : Element :=
  mkElement (rootFrom (focus e) (ctx e)) [].

Definition isBodyNode (n : Node) : bool :=
  String.eqb (tagName (data n)) "BODY"
  || String.eqb (tagName (data n)) "FRAMESET".

(** [document.body] of the document [e] lives in: the first [body] or
    [frameset] child of the [html] document element, [None] ([null]) when
    there is none. *)
Definition documentBody (e : Element) : option Element :=
  let root := documentElement e in
  if String.eqb (elTagName root) "HTML"
  then List.find (fun c => isBodyNode (focus c)) (children root)
  else None.

(** [e === document.body] *)
Definition isDocumentBody (e : Element) : bool :=
  match documentBody e with
  | Some b => sameElement e b
  | None => false
  end.

(** [instanceof] tests on HTML elements, decided by the tag. *)
Definition isHTMLInputElement (e : Element) : bool :=
  String.eqb (elTagName e) "INPUT".
Definition isHTMLTableCellElement (e : Element) : bool :=
  String.eqb (elTagName e) "TD" || String.eqb (elTagName e) "TH".
Definition isHTMLLIElement (e : Element) : bool :=
  String.eqb (elTagName e) "LI".
Definition isHTMLTableRowElement (e : Element) : bool :=
  String.eqb (elTagName e) "TR".

(** [a.contains(b)]: [b] is [a] or lies below it. *)
Definition contains (a b : Element) : bool :=
  bool_decide (ref a `suffix_of` ref b).

(** Every element strictly below [cur], in document order. *)
Fixpoint descendantsFrom (cur : Node) (fs : list Frame) {struct cur}
    : list Element :=
  match cur with
  | mkNode d cs =>
      (fix go (before after : list Node) {struct after} : list Element :=
         match after with
         | [] => []
         | c :: after' =>
             let fs' := mkFrame d before after' :: fs in
             mkElement c fs' :: descendantsFrom c fs' ++ go (c :: before) after'
         end) [] cs
  end.

Definition descendants (e : Element) : list Element :=
  descendantsFrom (focus e) (ctx e).

(** The element reached from [e] by following child indexes, outermost
    first. *)
Fixpoint descend (e : Element) (path : list nat) : option Element :=
  match path with
  | [] => Some e
  | i :: path' =>
      match nth_error (children e) i with
      | Some c => descend c path'
      | None => None
      end
  end.

(** The element at [path] in the document whose document element is
    [root]. *)
Definition elementAt (root : Node) (path : list nat) : option Element :=
  descend (mkElement root []) path.

End Dom.

(** ** Exceptions, the analyzer object and its monad *)

Module Js.

Inductive JsError : Type :=
| TypeError (msg : string)
| SyntaxError (msg : string).

(** The outcome of a call: a value, or a thrown exception. *)
Inductive result (A : Type) : Type :=
| Ok (a : A)
| Throw (e : JsError).
Arguments Ok {A} a.
Arguments Throw {A} e.

Definition isOk {A : Type} (r : result A) : bool :=
  match r with Ok _ => true | Throw _ => false end.

End Js.

Import Js Dom.

(** The selector engine of the browser, as the analyzer and the inspector
    use it: [container.querySelector(sel)], [container.querySelectorAll(sel)]
    and [document.querySelectorAll(sel)] (on the document of the given
    element).  Each may throw on a selector it cannot parse. *)
Class Host : Type := mkHost {
  querySelector : Element -> string -> result (option Element);
  querySelectorAll : Element -> string -> result (list Element);
  documentQuerySelectorAll : Element -> string -> result (list Element)
}.

Module Structure.
(** The object built by [analyzeStructure]. *)
Record t : Type := mk {
  depth : nat;
  siblings : nat;
  similarSiblings : nat;
  children : nat;
  isRepeating : bool;
  containerId : option string;
  patternGroup : option string
}.
End Structure.

Module Patterns.
Inductive Relationship : Type := sibling | parent | child | related.

Record RepeatingStructure : Type := mkRepeating {
  element : Ref;
  similarity : JsNumber.number;
  relationship : Relationship
}.

(** The fields [findPatterns] adds next to [repeatingStructures]. *)
Record Details : Type := mkDetails {
  commonAttributes : list string;
  layoutPattern : option string;
  interactionPattern : option string
}.

(** [details] is [None] for the object [{ repeatingStructures: [] }] of
    the empty report. *)
Record t : Type := mk {
  repeatingStructures : list RepeatingStructure;
  details : option Details
}.
End Patterns.

Module Selectors.
Record t : Type := mk { css : string; xpath : string }.
End Selectors.

Module Report.
(** The object returned by [analyzeElement]; [None] is the empty object
    [{}]. *)
Record t : Type := mk {
  structure : option Structure.t;
  patterns : Patterns.t;
  relationships : list Ref;
  selectors : option Selectors.t
}.

(** [{ structure: {}, patterns: { repeatingStructures: [] },
       relationships: [], selectors: {} }] *)
Definition empty : t := mk None (Patterns.mk [] None) [] None.
End Report.

(** What reaches [analyzeElement]: anything the caller passes. *)
Inductive JsValue : Type :=
| JsNull
| JsUndefined
| JsOther (description : string)
| JsHTMLElement (e : Element).

(** Call counts of the Relationship Finder: how often [findRelationships]
    ran the container search, and how many similarity computations it
    asked for. *)
Record Probe : Type := mkProbe {
  containerSearches : nat;
  similarityCalls : nat
}.

(** The [ElementAnalyzer] object: [this.patterns] (never written),
    [this.relationshipCache] keyed by element identity, and the probe. *)
Record Analyzer : Type := mkAnalyzer {
  patterns : gmap string string;
  relationshipCache : gmap Ref (list Ref);
  probe : Probe
}.

(** [new ElementAnalyzer()] *)
Definition newAnalyzer : Analyzer := mkAnalyzer ∅ ∅ (mkProbe 0 0).

Module AnalyzerMonad.

(** Computations over a mutable object of type [S] that return or
    throw. *)
Definition StateExn (S A : Type) : Type := S -> result A * S.

Definition ret {S A : Type} (x : A) : StateExn S A := fun s => (Ok x, s).

Definition bind {S A B : Type} (m : StateExn S A) (k : A -> StateExn S B)
    : StateExn S B :=
  fun s =>
    match m s with
    | (Ok x, s') => k x s'
    | (Throw e, s') => (Throw e, s')
    end.

Definition lift {S A : Type} (r : result A) : StateExn S A :=
  fun s => (r, s).

Definition throw {S A : Type} (e : JsError) : StateExn S A :=
  lift (Throw e).

(** [try { body } catch (error) { handler }] *)
Definition tryCatch {S A : Type} (body : StateExn S A)
    (handler : JsError -> StateExn S A) : StateExn S A :=
  fun s =>
    match body s with
    | (Ok x, s') => (Ok x, s')
    | (Throw e, s') => handler e s'
    end.

Definition update {S : Type} (f : S -> S) : StateExn S unit :=
  fun s => (Ok tt, f s).

Definition read {S A : Type} (f : S -> A) : StateExn S A :=
  fun s => (Ok (f s), s).

(** Methods of the analyzer. *)
Abbreviation M := (StateExn Analyzer).

Definition cacheGet (k : Ref) : M (option (list Ref)) :=
  read (fun a => relationshipCache a !! k).

Definition cacheSet (k : Ref) (v : list Ref) : M unit :=
  update (fun a =>
            mkAnalyzer (patterns a) (<[k := v]> (relationshipCache a))
              (probe a)).

Definition countContainerSearch : M unit :=
  update (fun a =>
            mkAnalyzer (patterns a) (relationshipCache a)
              (mkProbe (S (containerSearches (probe a)))
                       (similarityCalls (probe a)))).

Definition countSimilarityCalls (n : nat) : M unit :=
  update (fun a =>
            mkAnalyzer (patterns a) (relationshipCache a)
              (mkProbe (containerSearches (probe a))
                       (n + similarityCalls (probe a)))).

End AnalyzerMonad.

Import AnalyzerMonad.

Notation "x <- m ;; k" := (bind m (fun x => k))
  (at level 100, m at next level, right associativity).
Notation "m ;;; k" := (bind m (fun _ => k))
  (at level 100, right associativity).

(** ** ElementAnalyzer *)

Module ElementAnalyzer.

Section Methods.

Context `{host : Host}.

(** [generateStructureSignature]:
    [tag[className]{child,tag,names}] *)
Definition generateStructureSignature (element : Element) : string :=
  JsString.toLowerCase (elTagName element)
  +:+ "[" +:+ className element +:+ "]{"
  +:+ JsString.join ","
        (map (fun c => JsString.toLowerCase (elTagName c))
             (children element))
  +:+ "}".

(** The class term of the score:
    [commonClasses.length / Math.max(classes1.size, classes2.size)]. *)
Definition classOverlap (el1 el2 : Element) : JsNumber.number :=
  let classes1 := JsString.uniq (classList el1) in
  let classes2 := JsString.uniq (classList el2) in
  let commonClasses :=
    List.filter (fun c => JsString.arrayIncludes classes2 c) classes1 in
  JsNumber.div (JsNumber.ofNat (length commonClasses))
               (JsNumber.ofNat (Nat.max (length classes1) (length classes2))).

Definition calculateSimilarity (el1 el2 : Element) : JsNumber.number :=
  let score := JsNumber.zero in
  let checks := JsNumber.zero in
  (* Compare tag names *)
  let score :=
    if String.eqb (elTagName el1) (elTagName el2)
    then JsNumber.incr score else score in
  let checks := JsNumber.incr checks in
  (* Compare classes *)
  let score := JsNumber.add score (classOverlap el1 el2) in
  let checks := JsNumber.incr checks in
  (* Compare structure *)
  let struct1 := generateStructureSignature el1 in
  let struct2 := generateStructureSignature el2 in
  let score :=
    if String.eqb struct1 struct2 then JsNumber.incr score else score in
  let checks := JsNumber.incr checks in
  JsNumber.div score checks.

Definition containerTags : list string :=
  ["div"; "section"; "article"; "main"; "aside"; "nav";
   "header"; "footer"; "form"; "ul"; "ol"; "table"].

Definition containerRoles : list string :=
  ["group"; "list"; "grid"; "tablist"].

(** [/container|wrapper|content|layout|grid|flex|list/] *)
Definition containerClassWords : list string :=
  ["container"; "wrapper"; "content"; "layout"; "grid"; "flex"; "list"].

Definition containerDisplays : list string := ["flex"; "grid"; "table"].

(** The last test of [isLikelyContainer]: more than one child, and more
    than one child with the first child's tag and class string. *)
Definition hasSimilarChildren (element : Element) : bool :=
  let children := children element in
  if (1 <? length children)%nat then
    match children with
    | [] => false
    | firstChild :: _ =>
        let similarChildren :=
          List.filter
            (fun child =>
               String.eqb (elTagName child) (elTagName firstChild)
               && String.eqb (className child) (className firstChild))
            children in
        (1 <? length similarChildren)%nat
    end
  else false.

Definition isLikelyContainer (element : Element) : bool :=
  (* Check tag name *)
  if JsString.arrayIncludes containerTags
       (JsString.toLowerCase (elTagName element)) then true
  (* Check role attribute *)
  else if match getAttribute element "role" with
          | Some role =>
              JsString.truthy role
              && JsString.arrayIncludes containerRoles role
          | None => false
          end then true
  (* Check common container class names *)
  else if existsb
            (JsString.includes (JsString.toLowerCase (className element)))
            containerClassWords then true
  (* Check display style *)
  else if JsString.arrayIncludes containerDisplays
            (display (elStyle element)) then true
  (* Check if element has multiple similar children *)
  else hasSimilarChildren element.

(** [/^(js-|is-|has-|active|visible|hidden)/] *)
Definition transientClassPrefixes : list string :=
  ["js-"; "is-"; "has-"; "active"; "visible"; "hidden"].

Definition getContainerSignature (element : Element) : string :=
  let parts := [JsString.toLowerCase (elTagName element)] in
  let parts :=
    if JsString.truthy (id element)
    then parts ++ ["#" +:+ id element] else parts in
  let significantClasses :=
    List.filter
      (fun cls => negb (existsb (JsString.startsWith cls)
                                transientClassPrefixes))
      (classList element) in
  let parts :=
    if (0 <? length significantClasses)%nat
    then parts ++ ["." +:+ JsString.join "." significantClasses]
    else parts in
  let parts :=
    match getAttribute element "role" with
    | Some role =>
        if JsString.truthy role
        then parts ++ ["[role=" +:+ JsString.quote +:+ role +:+ JsString.quote +:+ "]"] else parts
    | None => parts
    end in
  let childTypes :=
    JsString.join ","
      (JsString.sort
         (map (fun child => JsString.toLowerCase (elTagName child))
              (children element))) in
  let parts := parts ++ ["{" +:+ childTypes +:+ "}"] in
  JsString.join "" parts.

(** The siblings of [container.children] that score above 0.8 against
    [element]. *)
Definition similarAmong (element : Element) (siblings : list Element)
    : list Element :=
  List.filter
    (fun sibling =>
       negb (sameElement sibling element)
       && JsNumber.gt (calculateSimilarity element sibling)
                      JsNumber.lit_0_8)
    siblings.

(** The loop of [identifyPatternGroup]; [containers] is the chain of
    ancestors still to visit. *)
Fixpoint identifyPatternGroupLoop (element : Element)
    (containers : list Element) : option string :=
  match containers with
  | [] => None
  | container :: rest =>
      if isDocumentBody container then None
      else if isLikelyContainer container
              && (0 <? length (similarAmong element (children container)))%nat
      then Some (getContainerSignature container)
      else identifyPatternGroupLoop element rest
  end.

Definition identifyPatternGroup (element : Element) : option string :=
  identifyPatternGroupLoop element (ancestors element).

(** The loop of [analyzeStructure]: [current] and the chain of its
    ancestors, the first of which is [parent]. *)
Fixpoint analyzeStructureLoop (current : Element) (parents : list Element)
    (structure : Structure.t) : Structure.t :=
  match parents with
  | [] => structure
  | parent :: rest =>
      if isDocumentBody parent then structure
      else
        let siblings := children parent in
        let structure :=
          Structure.mk
            (S (Structure.depth structure))
            (length siblings)
            (length (similarAmong current siblings))
            (Structure.children structure)
            (Structure.isRepeating structure)
            (if isLikelyContainer parent
             then Some (getContainerSignature parent)
             else Structure.containerId structure)
            (Structure.patternGroup structure) in
        analyzeStructureLoop parent rest structure
  end.

Definition analyzeStructure (element : Element) : Structure.t :=
  let structure :=
    Structure.mk 0 0 0 (length (children element)) false None None in
  let structure :=
    analyzeStructureLoop element (ancestors element) structure in
  let isRepeating := (0 <? Structure.similarSiblings structure)%nat in
  Structure.mk
    (Structure.depth structure)
    (Structure.siblings structure)
    (Structure.similarSiblings structure)
    (Structure.children structure)
    isRepeating
    (Structure.containerId structure)
    (if isRepeating then identifyPatternGroup element
     else Structure.patternGroup structure).

(** The loop of [findClosestStructuralContainer]; [None] when the walk
    ends at the body or runs out of ancestors. *)
Fixpoint findClosestLoop (candidates : list Element) : option Element :=
  match candidates with
  | [] => None
  | current :: rest =>
      if isDocumentBody current then None
      else if isLikelyContainer current then Some current
      else findClosestLoop rest
  end.

(** Falls back to [document.body], which is [None] in a document without
    a body. *)
Definition findClosestStructuralContainer (element : Element)
    : option Element :=
  match findClosestLoop (ancestors element) with
  | Some container => Some container
  | None => documentBody element
  end.

Definition determineRelationship (el1 el2 : Element)
    : Patterns.Relationship :=
  if bool_decide (ref <$> parentElement el1 = ref <$> parentElement el2)
  then Patterns.sibling
  else if contains el1 el2 then Patterns.parent
  else if contains el2 el1 then Patterns.child
  else Patterns.related.

Definition findSimilarStructures (element : Element) (signature : string)
    : M (list Element) :=
  match findClosestStructuralContainer element with
  | None => ret []
  | Some container =>
      candidates <- lift (querySelectorAll container (elTagName element)) ;;
      ret (List.filter
             (fun candidate =>
                negb (sameElement candidate element)
                && String.eqb (generateStructureSignature candidate)
                              signature)
             candidates)
  end.

Definition getContextElements (element : Element) : list Element :=
  match findClosestStructuralContainer element with
  | None => []
  | Some container => children container
  end.

Definition attributeNames (element : Element) : list string :=
  JsString.uniq (map fst (elAttributes element)).

Definition findCommonAttributes (elements : list Element) : list string :=
  match elements with
  | [] => []
  | firstElement :: others =>
      fold_left
        (fun commonAttrs element =>
           List.filter (JsString.arrayIncludes (attributeNames element))
                       commonAttrs)
        others (attributeNames firstElement)
  end.

Definition detectLayoutPattern (element : Element) : option string :=
  let style := elStyle element in
  if String.eqb (display style) "flex"
  then Some ("flex-" +:+ flexDirection style)
  else if String.eqb (display style) "grid" then Some "grid"
  else if String.eqb (position style) "absolute"
          || String.eqb (position style) "fixed" then Some "positioned"
  else if negb (String.eqb (float style) "none") then Some "float"
  else None.

Definition detectInteractionPattern (element : Element) : option string :=
  if String.eqb (elTagName element) "FORM" then Some "form"
  else if String.eqb (elTagName element) "INPUT" then Some "input"
  else if elOnclick element
          || JsString.truthy (reflected element "onclick")
  then Some "clickable"
  else if bool_decide (getAttribute element "role" = Some "button")
  then Some "button"
  else if String.eqb (cursor (elStyle element)) "pointer"
  then Some "clickable"
  else None.

Definition findPatterns (element : Element) : M Patterns.t :=
  let layoutPattern := detectLayoutPattern element in
  let interactionPattern := detectInteractionPattern element in
  let signature := generateStructureSignature element in
  similar <- findSimilarStructures element signature ;;
  let repeatingStructures :=
    map (fun el =>
           Patterns.mkRepeating (ref el)
             (calculateSimilarity element el)
             (determineRelationship element el))
        similar in
  let contextElements := getContextElements element in
  ret (Patterns.mk repeatingStructures
         (Some (Patterns.mkDetails (findCommonAttributes contextElements)
                  layoutPattern interactionPattern))).

(** [row.cells]: the [td] and [th] children of a table row. *)
Definition cells (row : Element) : list Element :=
  List.filter isHTMLTableCellElement (children row).

Definition others (element : Element) (l : list Element) : list Ref :=
  map ref (List.filter (fun x => negb (sameElement x element)) l).

Definition findSemanticRelationships (element : Element)
    (relationships : list Ref) (container : Element) : M (list Ref) :=
  (* Handle form elements *)
  relationships <-
    (if isHTMLInputElement element && JsString.truthy (id element)
     then
       label <- lift (querySelector container
                        ("label[for=" +:+ JsString.quote +:+ id element
                         +:+ JsString.quote +:+ "]")) ;;
       ret (match label with
            | Some label => relationships ++ [ref label]
            | None => relationships
            end)
     else ret relationships) ;;
  (* Handle table cells *)
  relationships <-
    (if isHTMLTableCellElement element
     then
       match parentElement element with
       | Some row =>
           if isHTMLTableRowElement row
           then ret (relationships ++ others element (cells row))
           else throw (TypeError "undefined is not iterable")
       | None => ret relationships
       end
     else ret relationships) ;;
  (* Handle list items *)
  if isHTMLLIElement element
  then
    match parentElement element with
    | Some list => ret (relationships ++ others element (children list))
    | None => ret relationships
    end
  else ret relationships.

(** The children of [container] that [findRelationships] compares with
    [element], and those of them it keeps (score above 0.5). *)
Definition comparedChildren (element container : Element) : list Element :=
  List.filter (fun child => negb (sameElement child element))
              (children container).

Definition similarChildren (element container : Element) : list Ref :=
  map ref
    (List.filter
       (fun child =>
          JsNumber.gt (calculateSimilarity element child) JsNumber.lit_0_5)
       (comparedChildren element container)).

Definition findRelationships (element : Element) : M (list Ref) :=
  cached <- cacheGet (ref element) ;;
  match cached with
  | Some relationships => ret relationships
  | None =>
      countContainerSearch ;;;
      relationships <-
        match findClosestStructuralContainer element with
        | Some container =>
            (* Find siblings with similar structure *)
            countSimilarityCalls
              (length (comparedChildren element container)) ;;;
            (* Find semantically related elements *)
            findSemanticRelationships element
              (similarChildren element container) container
        | None => ret []
        end ;;
      cacheSet (ref element) relationships ;;;
      ret relationships
  end.

Definition cssSegment (current : Element) : string :=
  let selector := JsString.toLowerCase (elTagName current) in
  if JsString.truthy (className current)
  then selector +:+ "." +:+ JsString.join "." (classList current)
  else selector.

(** The loop of [generateCssSelector]: [chain] is [current] followed by
    its ancestors, [path] the segments found so far. *)
Fixpoint generateCssSelectorLoop (chain : list Element)
    (path : list string) : list string :=
  match chain with
  | [] => path
  | current :: rest =>
      if JsString.truthy (id current) then ("#" +:+ id current) :: path
      else generateCssSelectorLoop rest (cssSegment current :: path)
  end.

Definition generateCssSelector (element : Element) : string :=
  JsString.join " > "
    (generateCssSelectorLoop (element :: ancestors element) []).

(** One plus the number of earlier siblings with the tag of [current]. *)
Definition xpathIndex (current : Element) : nat :=
  1 + length (List.filter
                (fun sibling =>
                   String.eqb (tagName (data sibling)) (elTagName current))
                (previousSiblings current)).

Fixpoint generateXPathLoop (chain : list Element) (paths : list string)
    : list string :=
  match chain with
  | [] => paths
  | current :: rest =>
      if JsString.truthy (id current)
      then ("//*[@id=" +:+ JsString.quote +:+ id current
            +:+ JsString.quote +:+ "]") :: paths
      else
        generateXPathLoop rest
          ((JsString.toLowerCase (elTagName current) +:+ "["
            +:+ JsString.ofNat (xpathIndex current) +:+ "]") :: paths)
  end.

Definition generateXPath (element : Element) : string :=
  JsString.join "/" (generateXPathLoop (element :: ancestors element) []).

Definition generateSelectors (element : Element) : Selectors.t :=
  Selectors.mk (generateCssSelector element) (generateXPath element).

(** The four sub-analyses, in the order of the object literal inside the
    [try] block. *)
Definition analysisBody (element : Element) : M Report.t :=
  let structure := analyzeStructure element in
  patterns <- findPatterns element ;;
  relationships <- findRelationships element ;;
  let selectors := generateSelectors element in
  ret (Report.mk (Some structure) patterns relationships (Some selectors)).

Definition analyzeElement (element : JsValue) : M Report.t :=
  match element with
  | JsHTMLElement element =>
      tryCatch (analysisBody element) (fun _ => ret Report.empty)
  | _ => ret Report.empty
  end.

End Methods.

End ElementAnalyzer.

(** ** ElementInspector *)

Module ElementInspector.

(** The selector-related part of the object built by [getElementInfo]. *)
Record ElementInfo : Type := mkInfo {
  infoTagName : string;
  infoId : string;
  infoClassName : string;
  infoXpath : string;
  infoCssSelector : string;
  infoAttributes : list (string * string)
}.

(** The payload of an [elementSelected] message. *)
Record Message : Type := mkMessage {
  elementInfo : ElementInfo;
  analysis : Report.t
}.

(** The inspector object.  [analyzer] is created once, by the
    constructor; [listening] tells whether the four document listeners
    are attached; [sent] collects the messages handed to the runtime. *)
Record Inspector : Type := mkInspector {
  active : bool;
  analyzer : Analyzer;
  hoveredElement : option Element;
  relatedOverlays : list Ref;
  highlightDisplay : string;
  tooltipDisplay : string;
  bodyCursor : string;
  listening : bool;
  sent : list Message
}.

(** [new ElementInspector()] *)
Definition newInspector : Inspector :=
  mkInspector false newAnalyzer None [] "none" "none" "" false [].

Definition setAnalyzer (a : Analyzer) (i : Inspector) : Inspector :=
  mkInspector (active i) a (hoveredElement i) (relatedOverlays i)
    (highlightDisplay i) (tooltipDisplay i) (bodyCursor i) (listening i)
    (sent i).

(** Runs a method of [this.analyzer]. *)
Definition onAnalyzer {A : Type} (m : M A) : StateExn Inspector A :=
  fun i =>
    match m (analyzer i) with
    | (r, a') => (r, setAnalyzer a' i)
    end.

Section Methods.

Context `{host : Host}.

Definition start (i : Inspector) : Inspector :=
  mkInspector true (analyzer i) (hoveredElement i) (relatedOverlays i)
    (highlightDisplay i) (tooltipDisplay i) "crosshair" true (sent i).

Definition clearRelatedOverlays (i : Inspector) : Inspector :=
  mkInspector (active i) (analyzer i) (hoveredElement i) []
    (highlightDisplay i) (tooltipDisplay i) (bodyCursor i) (listening i)
    (sent i).

Definition stop (i : Inspector) : Inspector :=
  let i :=
    mkInspector false (analyzer i) (hoveredElement i) (relatedOverlays i)
      "none" "none" "default" (listening i) (sent i) in
  let i := clearRelatedOverlays i in
  mkInspector (active i) (analyzer i) (hoveredElement i) (relatedOverlays i)
    (highlightDisplay i) (tooltipDisplay i) (bodyCursor i) false (sent i).

Definition getRelevantAttributes (element : Element)
    : list (string * string) :=
  List.filter
    (fun attr =>
       let name := JsString.toLowerCase (fst attr) in
       negb (JsString.arrayIncludes ["id"; "class"; "style"] name)
       && negb (JsString.startsWith name "aria-")
       && negb (JsString.startsWith name "data-v-")
       && negb (JsString.startsWith name "data-react")
       && negb (JsString.startsWith name "ng-"))
    (elAttributes element).

Definition isIdentifyingAttribute (name : string) : bool :=
  JsString.arrayIncludes ["name"; "type"; "role"; "data-testid"; "data-id"]
    name.

Definition attributeSelector (attr : string * string) : string :=
  "[" +:+ fst attr +:+ "=" +:+ JsString.quote +:+ snd attr
  +:+ JsString.quote +:+ "]".

(** One level of the inspector's selector, for an element without id. *)
Definition cssSegment (current : Element) : string :=
  let selector := JsString.toLowerCase (elTagName current) in
  let selector :=
    if JsString.truthy (className current)
    then selector +:+ "." +:+ JsString.join "." (classList current)
    else selector in
  let keyAttrs :=
    List.filter (fun attr => isIdentifyingAttribute (fst attr))
                (getRelevantAttributes current) in
  if (0 <? length keyAttrs)%nat
  then selector +:+ JsString.join "" (map attributeSelector keyAttrs)
  else selector.

(** The loop of the inspector's [generateCssSelector]; [element] names
    the document that [document.querySelectorAll] searches. *)
Fixpoint generateCssSelectorLoop (element : Element) (chain : list Element)
    (paths : list string) : result (list string) :=
  match chain with
  | [] => Ok paths
  | current :: rest =>
      if JsString.truthy (id current)
      then Ok ((JsString.toLowerCase (elTagName current) +:+ "#"
                +:+ id current) :: paths)
      else
        let paths := cssSegment current :: paths in
        match documentQuerySelectorAll element (JsString.join " > " paths)
        with
        | Throw e => Throw e
        | Ok found =>
            if (length found =? 1)%nat then Ok paths
            else generateCssSelectorLoop element rest paths
        end
  end.

Definition generateCssSelector (element : Element) : result string :=
  match generateCssSelectorLoop element (element :: ancestors element) []
  with
  | Ok paths => Ok (JsString.join " > " paths)
  | Throw e => Throw e
  end.

Definition xpathIndex (current : Element) : nat :=
  1 + length (List.filter
                (fun sibling =>
                   String.eqb (tagName (data sibling)) (elTagName current))
                (previousSiblings current)).

Definition generateXPath (element : Element) : string :=
  "/" +:+ JsString.join "/"
            (rev (map (fun current =>
                         JsString.toLowerCase (elTagName current) +:+ "["
                         +:+ JsString.ofNat (xpathIndex current) +:+ "]")
                      (element :: ancestors element))).

Definition getElementInfo (element : Element) : result ElementInfo :=
  let xpath := generateXPath element in
  match generateCssSelector element with
  | Throw e => Throw e
  | Ok cssSelector =>
      Ok (mkInfo (JsString.toLowerCase (elTagName element)) (id element)
            (className element) xpath cssSelector
            (getRelevantAttributes element))
  end.

Definition showTooltip (i : Inspector) : Inspector :=
  mkInspector (active i) (analyzer i) (hoveredElement i) (relatedOverlays i)
    (highlightDisplay i) "block" (bodyCursor i) (listening i) (sent i).

Definition updateTooltip (element : Element) : StateExn Inspector unit :=
  analysis <- onAnalyzer (ElementAnalyzer.analyzeElement
                            (JsHTMLElement element)) ;;
  info <- lift (getElementInfo element) ;;
  update showTooltip.

Definition updateHighlights (element : Element) (analysis : Report.t)
    : StateExn Inspector unit :=
  update (fun i =>
            let i := clearRelatedOverlays i in
            mkInspector (active i) (analyzer i) (hoveredElement i)
              (relatedOverlays i) "block" (tooltipDisplay i) (bodyCursor i)
              (listening i) (sent i)).

Definition setHovered (element : Element) (i : Inspector) : Inspector :=
  mkInspector (active i) (analyzer i) (Some element) (relatedOverlays i)
    (highlightDisplay i) (tooltipDisplay i) (bodyCursor i) (listening i)
    (sent i).

(** The handlers return the inspector after the event; what they catch
    is logged and dropped. *)
Definition handleMouseOver (target : Element) (i : Inspector) : Inspector :=
  if negb (active i) then i
  else
    let i := setHovered target i in
    snd (tryCatch
           (analysis <- onAnalyzer (ElementAnalyzer.analyzeElement
                                      (JsHTMLElement target)) ;;
            updateHighlights target analysis ;;;
            updateTooltip target)
           (fun _ => ret tt) i).

(** [handleMouseMove] has no handler of its own: what [updateTooltip]
    throws leaves the listener. *)
Definition handleMouseMove (target : Element) (i : Inspector)
    : result unit * Inspector :=
  if negb (active i) then (Ok tt, i)
  else
    updateTooltip
      (match hoveredElement i with Some h => h | None => target end) i.

Definition send (m : Message) (i : Inspector) : Inspector :=
  mkInspector (active i) (analyzer i) (hoveredElement i) (relatedOverlays i)
    (highlightDisplay i) (tooltipDisplay i) (bodyCursor i) (listening i)
    (sent i ++ [m]).

Definition handleClick (target : Element) (i : Inspector) : Inspector :=
  if negb (active i) then i
  else
    let i :=
      snd (tryCatch
             (analysis <- onAnalyzer (ElementAnalyzer.analyzeElement
                                        (JsHTMLElement target)) ;;
              info <- lift (getElementInfo target) ;;
              update (send (mkMessage info analysis)))
             (fun _ => ret tt) i) in
    stop i.

Definition handleKeyPress (key : string) (i : Inspector) : Inspector :=
  if negb (active i) then i
  else if String.eqb key "Escape" then stop i
  else i.

End Methods.

End ElementInspector.

(** ** A selector engine for the fixtures, and the fixtures *)

Module Fixtures.

(** Reads the value of an attribute selector after its opening quote, up
    to the closing quote and bracket; a backslash or a missing close
    makes the selector unparsable. *)
Fixpoint quotedValue (s : string) : option string :=
  match s with
  | EmptyString => None
  | String c s' =>
      if Ascii.eqb c (ascii_of_nat 34)
      then (if String.eqb s' "]" then Some EmptyString else None)
      else if Ascii.eqb c (ascii_of_nat 92) then None
      else option_map (String c) (quotedValue s')
  end.

Fixpoint dropPrefix (p s : string) : option string :=
  match p, s with
  | EmptyString, _ => Some s
  | String a p', String b s' =>
      if Ascii.eqb a b then dropPrefix p' s' else None
  | String _ _, EmptyString => None
  end.

Fixpoint isTypeSelector (s : string) : bool :=
  match s with
  | EmptyString => true
  | String c s' =>
      let n := nat_of_ascii c in
      (((65 <=? n)%nat && (n <=? 90)%nat)
       || ((97 <=? n)%nat && (n <=? 122)%nat)
       || ((48 <=? n)%nat && (n <=? 57)%nat))
      && isTypeSelector s'
  end.

Definition byTag (sel : string) (l : list Element) : list Element :=
  List.filter
    (fun e => String.eqb (JsString.toLowerCase (elTagName e))
                         (JsString.toLowerCase sel)) l.

Definition syntaxError {A : Type} (sel : string) : result A :=
  Throw (SyntaxError (sel +:+ " is not a valid selector")).

(** Answers the two shapes of selector the analyzer issues: a type
    selector, and [label[for="value"]]; anything else is refused. *)
Definition typeSelectorAll (scope : list Element) (sel : string)
    : result (list Element) :=
  if JsString.truthy sel && isTypeSelector sel then Ok (byTag sel scope)
  else syntaxError sel.

Definition labelFor (container : Element) (sel : string)
    : result (option Element) :=
  match dropPrefix ("label[for=" +:+ JsString.quote) sel with
  | Some rest =>
      match quotedValue rest with
      | Some value =>
          Ok (List.find
                (fun e => bool_decide (getAttribute e "for" = Some value))
                (byTag "label" (descendants container)))
      | None => syntaxError sel
      end
  | None =>
      match typeSelectorAll (descendants container) sel with
      | Ok l => Ok (head l)
      | Throw e => Throw e
      end
  end.

Definition fixtureHost : Host := {|
  querySelector := labelFor;
  querySelectorAll c sel := typeSelectorAll (descendants c) sel;
  documentQuerySelectorAll e sel :=
    typeSelectorAll (documentElement e :: descendants (documentElement e))
                    sel
|}.

Definition blockStyle : ComputedStyle :=
  mkStyle "block" "row" "static" "none" "auto".

Definition inlineStyle : ComputedStyle :=
  mkStyle "inline" "row" "static" "none" "auto".

Definition el (tag : string) (attrs : list (string * string))
    (kids : list Node) : Node :=
  mkNode (mkData tag attrs blockStyle false) kids.

Definition inl (tag : string) (attrs : list (string * string))
    (kids : list Node) : Node :=
  mkNode (mkData tag attrs inlineStyle false) kids.

Definition page (bodyKids : list Node) : Node :=
  el "HTML" [] [el "HEAD" [] []; el "BODY" [] bodyKids].

Definition item : Node := el "LI" [("class", "item")] [].

(** [<ul>] with five [<li class="item">], directly in the body. *)
Definition listPage : Node := page [el "UL" [] [item; item; item; item; item]].

(** The same list one level down, inside a [<div>]. *)
Definition nestedListPage : Node :=
  page [el "DIV" [] [el "UL" [] [item; item; item; item; item]]].

Definition orElse (o : option Element) (d : Node) : Element :=
  match o with Some e => e | None => mkElement d [] end.

Definition thirdItem : Element := orElse (elementAt listPage [1; 0; 2]) item.
Definition nestedThirdItem : Element :=
  orElse (elementAt nestedListPage [1; 0; 0; 2]) item.

(** Two paragraphs without classes. *)
Definition plainPage : Node := page [el "P" [] []; el "P" [] []].
Definition firstPlain : Element := orElse (elementAt plainPage [1; 0]) item.
Definition secondPlain : Element := orElse (elementAt plainPage [1; 1]) item.

(** [<span><b></b><i></i><i></i></span>]: the two [<i>] match each other,
    not the first child. *)
Definition spanPage : Node :=
  page [inl "SPAN" [] [inl "B" [] []; inl "I" [] []; inl "I" [] []]].
Definition theSpan : Element := orElse (elementAt spanPage [1; 0]) item.

(** [<span><i></i><b></b><i></i></span>]: the last child matches the
    first. *)
Definition spanPage2 : Node :=
  page [inl "SPAN" [] [inl "I" [] []; inl "B" [] []; inl "I" [] []]].
Definition theSpan2 : Element := orElse (elementAt spanPage2 [1; 0]) item.

(** [<div id="main">] *)
Definition mainPage : Node := page [el "DIV" [("id", "main")] []].
Definition mainDiv : Element := orElse (elementAt mainPage [1; 0]) item.

(** A table cell whose parent is not a row. *)
Definition strayCellPage : Node := page [el "DIV" [] [el "TD" [] []]].
Definition strayCell : Element :=
  orElse (elementAt strayCellPage [1; 0; 0]) item.

Definition itemWithId (name : string) : Node :=
  el "LI" [("id", name); ("class", "item")] [].

(** The list as one inspection session sees it, and as a later session
    sees it after the page has dropped its last two items. *)
Definition sessionPage : Node :=
  page [el "UL" []
          [itemWithId "one"; itemWithId "two"; itemWithId "three";
           itemWithId "four"; itemWithId "five"]].
Definition laterPage : Node :=
  page [el "UL" [] [itemWithId "one"; itemWithId "two"; itemWithId "three"]].

Definition sessionThird : Element :=
  orElse (elementAt sessionPage [1; 0; 2]) item.
Definition laterThird : Element :=
  orElse (elementAt laterPage [1; 0; 2]) item.

(** An input whose id breaks the label selector built from it. *)
Definition quotedIdPage : Node :=
  page [el "FORM" [] [el "INPUT" [("id", "a" +:+ JsString.quote +:+ "b")] []]].
Definition quotedIdInput : Element :=
  orElse (elementAt quotedIdPage [1; 0; 0]) item.

(** The relationships of a returned report. *)
Definition reportedRelationships (r : result Report.t * Analyzer)
    : option (list Ref) :=
  match fst r with
  | Ok rep => Some (Report.relationships rep)
  | Throw _ => None
  end.

(** The structure part of a returned report. *)
Definition reportedStructure (r : result Report.t * Analyzer)
    : option Structure.t :=
  match fst r with
  | Ok rep => Report.structure rep
  | Throw _ => None
  end.

(** [<li class="item">] with children of the given tags. *)
Definition isItemNode (kids : list string) (n : Node) : Prop :=
  tagName (data n) = "LI"
  /\ lookupAttr "class" (attributes (data n)) = Some "item"
  /\ map (fun c => tagName (data c)) (childNodes n) = kids.

End Fixtures.

(** ** More documents *)

Module Samples.

Import Fixtures.

(** A table with one row of three cells. *)
Definition tablePage : Node :=
  page [el "TABLE" []
          [el "TBODY" []
             [el "TR" [] [el "TD" [] []; el "TD" [] []; el "TD" [] []]]]].
Definition middleCell : Element :=
  orElse (elementAt tablePage [1; 0; 0; 0; 1]) item.


(** A form with a label bound to its input. *)
Definition formPage : Node :=
  page [el "FORM" []
          [el "LABEL" [("for", "name")] [];
           el "INPUT" [("id", "name"); ("type", "text"); ("name", "n")] []]].
Definition nameInput : Element := orElse (elementAt formPage [1; 0; 1]) item.

(** Two cards that differ by a state class and by the order of their
    children. *)
Definition cardsPage : Node :=
  page [el "DIV" [("class", "card is-active")] [el "A" [] []; el "P" [] []];
        el "DIV" [("class", "js-ready card")] [el "P" [] []; el "A" [] []]].
Definition firstCard : Element := orElse (elementAt cardsPage [1; 0]) item.
Definition secondCard : Element := orElse (elementAt cardsPage [1; 1]) item.

(** A selector engine for the paths the inspector builds: compound
    selectors (a type selector followed by class and attribute
    selectors) joined by the child combinator. *)
Record Compound : Type := mkCompound {
  compoundTag : string;
  compoundClasses : list string;
  compoundAttrs : list (string * string)
}.

Inductive Mode : Type :=
| InTag
| InClass
| InName
| WantQuote (name : string)
| InValue (name : string)
| WantClose (name value : string)
| AfterAttr
| WantCombinator
| WantSpace.

(** The parser: what it is reading, the characters of the token read so
    far, the compound being built, and the compounds that are complete,
    innermost first. *)
Record Parser : Type := mkParser {
  mode : Mode;
  token : string;
  compound : Compound;
  complete : list Compound
}.

Definition isNameChar (c : ascii) : bool :=
  let n := nat_of_ascii c in
  ((65 <=? n)%nat && (n <=? 90)%nat)
  || ((97 <=? n)%nat && (n <=? 122)%nat)
  || ((48 <=? n)%nat && (n <=? 57)%nat)
  || (n =? 45)%nat || (n =? 95)%nat.

(** Ends the tag or class being read; an empty one is a syntax error. *)
Definition endToken (p : Parser) : option Compound :=
  match mode p with
  | InTag =>
      if JsString.truthy (token p) then Some (mkCompound (token p) [] [])
      else None
  | InClass =>
      if JsString.truthy (token p)
      then Some (mkCompound (compoundTag (compound p))
                   (compoundClasses (compound p) ++ [token p])
                   (compoundAttrs (compound p)))
      else None
  | AfterAttr => Some (compound p)
  | _ => None
  end.

Definition feed (p : Parser) (c : ascii) : option Parser :=
  let n := nat_of_ascii c in
  let extend := token p +:+ String c EmptyString in
  match mode p with
  | InTag | InClass | AfterAttr =>
      if (n =? 46)%nat
      then option_map (fun cp => mkParser InClass EmptyString cp (complete p))
                      (endToken p)
      else if (n =? 91)%nat
      then option_map (fun cp => mkParser InName EmptyString cp (complete p))
                      (endToken p)
      else if (n =? 32)%nat
      then option_map
             (fun cp => mkParser WantCombinator EmptyString cp
                          (cp :: complete p))
             (endToken p)
      else
        match mode p with
        | AfterAttr => None
        | m =>
            if isNameChar c
            then Some (mkParser m extend (compound p) (complete p))
            else None
        end
  | InName =>
      if (n =? 61)%nat
      then (if JsString.truthy (token p)
            then Some (mkParser (WantQuote (token p)) EmptyString
                         (compound p) (complete p))
            else None)
      else if isNameChar c
      then Some (mkParser InName extend (compound p) (complete p))
      else None
  | WantQuote name =>
      if (n =? 34)%nat
      then Some (mkParser (InValue name) EmptyString (compound p)
                   (complete p))
      else None
  | InValue name =>
      if (n =? 34)%nat
      then Some (mkParser (WantClose name (token p)) EmptyString
                   (compound p) (complete p))
      else if (n =? 92)%nat then None
      else Some (mkParser (InValue name) extend (compound p) (complete p))
  | WantClose name value =>
      if (n =? 93)%nat
      then Some (mkParser AfterAttr EmptyString
                   (mkCompound (compoundTag (compound p))
                      (compoundClasses (compound p))
                      (compoundAttrs (compound p) ++ [(name, value)]))
                   (complete p))
      else None
  | WantCombinator =>
      if (n =? 62)%nat
      then Some (mkParser WantSpace EmptyString (compound p) (complete p))
      else None
  | WantSpace =>
      if (n =? 32)%nat
      then Some (mkParser InTag EmptyString (compound p) (complete p))
      else None
  end.

Fixpoint parseFrom (p : Parser) (s : string) : option (list Compound) :=
  match s with
  | EmptyString => option_map (fun cp => cp :: complete p) (endToken p)
  | String c s' =>
      match feed p c with
      | Some p' => parseFrom p' s'
      | None => None
      end
  end.

(** The compounds of a selector, innermost first. *)
Definition parseSelector (sel : string) : option (list Compound) :=
  parseFrom (mkParser InTag EmptyString (mkCompound EmptyString [] []) [])
            sel.

Definition matchesCompound (cp : Compound) (e : Element) : bool :=
  String.eqb (JsString.toLowerCase (elTagName e))
             (JsString.toLowerCase (compoundTag cp))
  && forallb (JsString.arrayIncludes (classList e)) (compoundClasses cp)
  && forallb (fun a => bool_decide (getAttribute e (fst a) = Some (snd a)))
             (compoundAttrs cp).

(** The child combinator: each compound is matched one level further
    up. *)
Fixpoint matchesPath (cps : list Compound) (chain : list Element) : bool :=
  match cps, chain with
  | [], _ => true
  | cp :: cps', e :: chain' => matchesCompound cp e && matchesPath cps' chain'
  | _ :: _, [] => false
  end.

Definition pathSelectorAll (scope : list Element) (sel : string)
    : result (list Element) :=
  match parseSelector sel with
  | Some cps =>
      Ok (List.filter (fun e => matchesPath cps (e :: ancestors e)) scope)
  | None => syntaxError sel
  end.

Definition pathHost : Host := {|
  querySelector := labelFor;
  querySelectorAll c sel := pathSelectorAll (descendants c) sel;
  documentQuerySelectorAll e sel :=
    pathSelectorAll (documentElement e :: descendants (documentElement e))
                    sel
|}.

(** A menu of two items and an ordered list of one: the item of the
    ordered list is one of three [li.item], and the only one in an
    [<ol>]. *)
Definition menuPage : Node :=
  page [el "UL" [("class", "menu")] [item; item]; el "OL" [] [item]].
Definition orderedItem : Element := orElse (elementAt menuPage [1; 1; 0]) item.
Definition menuItem : Element := orElse (elementAt menuPage [1; 0; 1]) item.
Definition menuList : Element := orElse (elementAt menuPage [1; 0]) item.
Definition orderedList : Element := orElse (elementAt menuPage [1; 1]) item.
Definition menuBody : Element := orElse (elementAt menuPage [1]) item.
Definition menuHtml : Element := orElse (elementAt menuPage []) item.

End Samples.


(** ** background.js: the connection to the server and the tab messages *)

Module Background.

Definition MAX_RETRY_ATTEMPTS : nat := 5.
Definition RETRY_DELAY : nat := 2000.

Definition isRestrictedUrl (url : string) : bool :=
  JsString.startsWith url "chrome://"
  || JsString.startsWith url "chrome-extension://"
  || JsString.startsWith url "edge://"
  || JsString.startsWith url "about:"
  || JsString.startsWith url "chrome-error://".

(** [WebSocket.readyState] *)
Inductive ReadyState : Type := CONNECTING | OPEN | CLOSING | CLOSED.

(** A frame handed to [websocket.send]: the action and the element
    info. *)
Record Frame : Type := mkFrame {
  frameAction : string;
  frameData : ElementInspector.Message
}.

(** A socket created by [new WebSocket(url)]: the url its handlers were
    created with, its state, and what was sent through it. *)
Record Socket : Type := mkSocket {
  socketUrl : string;
  readyState : ReadyState;
  sentFrames : list Frame
}.

(** A [connectionStatus] message for the popup; [retryCount] is [None]
    when the argument is left out. *)
Record Status : Type := mkStatus {
  connected : bool;
  retryCount : option nat
}.

(** The globals of the script ([websocket] is an index into the sockets
    created so far), the pending [setTimeout] callbacks (each reconnects to
    its url), the status messages sent, and the stored [serverConnected]
    flag. *)
Record State : Type := mkState {
  websocket : option nat;
  connectionAttempts : nat;
  sockets : list Socket;
  timers : list string;
  statusLog : list Status;
  serverConnected : option bool
}.

Definition initial : State := mkState None 0 [] [] [] None.

(** Whether [new WebSocket(url)] accepts the url or throws. *)
Class Network : Type := mkNetwork {
  webSocketAccepts : string -> bool
}.

Section Connection.

Context `{net : Network}.

Definition updateConnectionStatus (c : bool) (retry : option nat)
    (s : State) : State :=
  mkState (websocket s) (connectionAttempts s) (sockets s) (timers s)
    (statusLog s ++ [mkStatus c retry]) (serverConnected s).

Definition setServerConnected (c : bool) (s : State) : State :=
  mkState (websocket s) (connectionAttempts s) (sockets s) (timers s)
    (statusLog s) (Some c).

Definition setAttempts (n : nat) (s : State) : State :=
  mkState (websocket s) n (sockets s) (timers s) (statusLog s)
    (serverConnected s).

Definition setTimeout (url : string) (s : State) : State :=
  mkState (websocket s) (connectionAttempts s) (sockets s)
    (timers s ++ [url]) (statusLog s) (serverConnected s).

Definition setSocketState (id : nat) (r : ReadyState) (s : State) : State :=
  match sockets s !! id with
  | Some sock =>
      mkState (websocket s) (connectionAttempts s)
        (<[id := mkSocket (socketUrl sock) r (sentFrames sock)]> (sockets s))
        (timers s) (statusLog s) (serverConnected s)
  | None => s
  end.

(** [websocket.close()]: an open or connecting socket starts closing. *)
Definition closeSocket (id : nat) (s : State) : State :=
  match sockets s !! id with
  | Some sock =>
      match readyState sock with
      | CONNECTING | OPEN => setSocketState id CLOSING s
      | CLOSING | CLOSED => s
      end
  | None => s
  end.

(** [websocket = new WebSocket(serverUrl)], once the url is accepted. *)
Definition createSocket (url : string) (s : State) : State :=
  mkState (Some (length (sockets s))) (connectionAttempts s)
    (sockets s ++ [mkSocket url CONNECTING []]) (timers s) (statusLog s)
    (serverConnected s).

Definition connectWebSocket (serverUrl : string) (s : State) : State :=
  if (MAX_RETRY_ATTEMPTS <=? connectionAttempts s)%nat
  then updateConnectionStatus false None s
  else
    let s :=
      match websocket s with
      | Some id => closeSocket id s
      | None => s
      end in
    let s := setAttempts (S (connectionAttempts s)) s in
    let s := updateConnectionStatus false (Some (connectionAttempts s)) s in
    if webSocketAccepts serverUrl
    then createSocket serverUrl s
    else
      let s := updateConnectionStatus false None s in
      if (connectionAttempts s <? MAX_RETRY_ATTEMPTS)%nat
      then setTimeout serverUrl s
      else s.

(** [websocket.onopen] of socket [id] *)
Definition onopen (id : nat) (s : State) : State :=
  let s := setSocketState id OPEN s in
  let s := setAttempts 0 s in
  let s := updateConnectionStatus true None s in
  setServerConnected true s.

(** [websocket.onclose] of socket [id], created for [serverUrl] *)
Definition onclose (id : nat) (serverUrl : string) (code : nat) (s : State)
    : State :=
  let s := setSocketState id CLOSED s in
  let s := updateConnectionStatus false None s in
  let s := setServerConnected false s in
  if negb (code =? 1000)%nat
     && (connectionAttempts s <? MAX_RETRY_ATTEMPTS)%nat
  then setTimeout serverUrl s
  else s.

(** [websocket.onerror] *)
Definition onerror (s : State) : State :=
  setServerConnected false (updateConnectionStatus false None s).

(** [sendToServer(action, data)]: the answer, and the state after it.
    The data arrived as a runtime message, so serialising it does not
    throw, and neither does sending on an open socket. *)
Definition sendToServer (action : string) (data : ElementInspector.Message)
    (s : State) : bool * State :=
  match websocket s with
  | Some id =>
      match sockets s !! id with
      | Some sock =>
          match readyState sock with
          | OPEN =>
              (true,
               mkState (websocket s) (connectionAttempts s)
                 (<[id := mkSocket (socketUrl sock) OPEN
                            (sentFrames sock ++ [mkFrame action data])]>
                    (sockets s))
                 (timers s) (statusLog s) (serverConnected s))
          | _ => (false, s)
          end
      | None => (false, s)
      end
  | None => (false, s)
  end.

(** What happens to the script: socket events, a timer that fires, the
    two runtime messages that concern the connection, and start-up with
    the stored server url. *)
Inductive Event : Type :=
| SocketOpen (id : nat)
| SocketClose (id : nat) (code : nat)
| SocketError (id : nat)
| TimerFires (index : nat)
| EstablishConnection (serverUrl : string)
| ElementSelected (elementInfo : ElementInspector.Message)
| Startup (storedUrl : option string).

Definition removeTimer (index : nat) (s : State) : State :=
  mkState (websocket s) (connectionAttempts s) (sockets s)
    (take index (timers s) ++ drop (S index) (timers s)) (statusLog s)
    (serverConnected s).

Definition step (s : State) (ev : Event) : State :=
  match ev with
  | SocketOpen id =>
      match sockets s !! id with Some _ => onopen id s | None => s end
  | SocketClose id code =>
      match sockets s !! id with
      | Some sock => onclose id (socketUrl sock) code s
      | None => s
      end
  | SocketError id =>
      match sockets s !! id with Some _ => onerror s | None => s end
  | TimerFires index =>
      match timers s !! index with
      | Some url => connectWebSocket url (removeTimer index s)
      | None => s
      end
  | EstablishConnection serverUrl =>
      connectWebSocket serverUrl (setAttempts 0 s)
  | ElementSelected elementInfo =>
      snd (sendToServer "elementSelected" elementInfo s)
  | Startup (Some serverUrl) =>
      if JsString.truthy serverUrl then connectWebSocket serverUrl s else s
  | Startup None => s
  end.

Definition run (s : State) (events : list Event) : State :=
  fold_left step events s.

(** What every reachable state satisfies: the attempt counter is within
    the limit, a retry count shown to the popup is between 1 and the
    limit, and [websocket] is one of the sockets created. *)
Definition wellFormed (s : State) : Prop :=
  (connectionAttempts s <= MAX_RETRY_ATTEMPTS)%nat
  /\ (forall st n,
        In st (statusLog s) -> retryCount st = Some n ->
        (1 <= n <= MAX_RETRY_ATTEMPTS)%nat)
  /\ (forall id, websocket s = Some id -> (id < length (sockets s))%nat).

(** An event that resets the attempt counter. *)
Definition resets (ev : Event) : bool :=
  match ev with
  | SocketOpen _ | EstablishConnection _ => true
  | _ => false
  end.

End Connection.

(** A tab as [chrome.tabs.get] returns it; the url is missing without the
    permission to read it. *)
Record Tab : Type := mkTab {
  tabId : nat;
  tabUrl : option string
}.

(** What one attempt of [sendMessageToTab] meets: the answer of
    [chrome.tabs.get], of [injectContentScripts] and of
    [chrome.tabs.sendMessage]. *)
Record Attempt : Type := mkAttempt {
  tabsGet : result (option Tab);
  inject : result unit;
  sendMessage : result unit
}.

(** What an attempt did. *)
Inductive Action : Type := GotTab | Injected | Sent | Waited.


Definition injections (log : list Action) : nat :=
  length (List.filter
            (fun a => match a with Injected => true | _ => false end) log).

(** One pass through the [try] block: [Some] answer to return, or [None]
    when an exception was caught, with what was done. *)
Definition tryAttempt (w : Attempt) : option bool * list Action :=
  match tabsGet w with
  | Throw _ => (None, [GotTab])
  | Ok None => (Some false, [GotTab])
  | Ok (Some tab) =>
      match tabUrl tab with
      | None => (None, [GotTab])
      | Some url =>
          if isRestrictedUrl url then (Some false, [GotTab])
          else
            match inject w with
            | Throw _ => (None, [GotTab; Injected])
            | Ok _ =>
                match sendMessage w with
                | Throw _ => (None, [GotTab; Injected; Sent])
                | Ok _ => (Some true, [GotTab; Injected; Sent])
                end
            end
      end
  end.

(** The loop of [sendMessageToTab]: [remaining] is [retries - i]. *)
Fixpoint sendMessageToTabLoop (remaining i : nat) (world : nat -> Attempt)
    : bool * list Action :=
  match remaining with
  | O => (false, [])
  | S remaining' =>
      match tryAttempt (world i) with
      | (Some answer, done) => (answer, done)
      | (None, done) =>
          match remaining' with
          | O => (false, done)
          | S _ =>
              let (answer, later) :=
                sendMessageToTabLoop remaining' (S i) world in
              (answer, done ++ Waited :: later)
          end
      end
  end.

Definition sendMessageToTab (retries : nat) (world : nat -> Attempt)
    : bool * list Action :=
  sendMessageToTabLoop retries 0 world.

(** [handleStartInspector]: the active tab found by [chrome.tabs.query]
    (or the exception it throws), then [sendMessageToTab] with three
    tries. *)
Definition handleStartInspector (query : result (option Tab))
    (world : nat -> Attempt) : bool * list Action :=
  match query with
  | Throw _ => (false, [])
  | Ok None => (false, [])
  | Ok (Some tab) =>
      match tabUrl tab with
      | None => (false, [])
      | Some url =>
          if isRestrictedUrl url then (false, [])
          else sendMessageToTab 3 world
      end
  end.

End Background.

(** ** popup.js: the restriction test and the status line *)

Module Popup.

Import Background.

(** [tab?.url?.startsWith(...) || ...]: false for a missing tab or url. *)
Definition isRestricted (tab : option Tab) : bool :=
  match tab with
  | Some t =>
      match tabUrl t with
      | Some url =>
          JsString.startsWith url "chrome://"
          || JsString.startsWith url "chrome-extension://"
          || JsString.startsWith url "edge://"
          || JsString.startsWith url "about:"
          || JsString.startsWith url "chrome-error://"
      | None => false
      end
  | None => false
  end.

(** The status line and the two buttons. *)
Record View : Type := mkView {
  statusText : string;
  statusClass : string;
  connectDisabled : bool;
  inspectDisabled : bool
}.

Definition updateConnectionStatus (restricted : bool) (st : Status)
    (v : View) : View :=
  let text :=
    if connected st then "Connected to server" else "Disconnected" in
  let class := if connected st then "success" else "error" in
  let inspect :=
    if negb restricted then negb (connected st) else inspectDisabled v in
  let text :=
    match retryCount st with
    | Some n =>
        if negb (connected st)
        then "Retrying connection... (Attempt " +:+ JsString.ofNat n
             +:+ "/5)"
        else text
    | None => text
    end in
  mkView text class false inspect.

End Popup.

Module BackgroundSamples.

Import Background.

(** A network on which every url is accepted, and one on which the
    constructor always throws. *)
Definition openNetwork : Network := mkNetwork (fun _ => true).
Definition refusingNetwork : Network := mkNetwork (fun _ => false).

(** Start-up with a stored url, then every retry timer firing in turn,
    and one more start-up. *)
Definition failingStartup : list Event :=
  [Startup (Some "ws://localhost:3000"); TimerFires 0; TimerFires 0;
   TimerFires 0; TimerFires 0; TimerFires 0;
   Startup (Some "ws://localhost:3000")].

(** The server accepts, the socket opens, then drops with code 1006. *)
Definition dropAfterOpen : list Event :=
  [EstablishConnection "ws://localhost:3000"; SocketOpen 0;
   SocketClose 0 1006].

End BackgroundSamples.

(** * Properties *)

(** ** The tree *)

Lemma ancestors_parent (e p : Element) :
  parentElement e = Some p -> ancestors e = p :: ancestors p.
Proof.
  unfold parentElement, ancestors.
  destruct e as [n fs]; simpl.
  destruct fs as [|f fs]; intros Hp; [discriminate|].
  injection Hp as <-. reflexivity.
Qed.

Lemma ref_parent (e p : Element) :
  parentElement e = Some p -> exists i, ref e = i :: ref p.
Proof.
  unfold parentElement, ref.
  destruct e as [n [|f fs]]; simpl; intros Hp; [discriminate|].
  injection Hp as <-. eexists. reflexivity.
Qed.

Lemma documentElement_parent (e p : Element) :
  parentElement e = Some p -> documentElement p = documentElement e.
Proof.
  unfold parentElement, documentElement.
  destruct e as [n [|f fs]]; simpl; intros Hp; [discriminate|].
  injection Hp as <-. reflexivity.
Qed.

Lemma documentBody_parent (e p : Element) :
  parentElement e = Some p -> documentBody e = documentBody p.
Proof.
  intros Hp. unfold documentBody.
  rewrite (documentElement_parent e p Hp). reflexivity.
Qed.

(** An element is never its own parent: the child of the body is not the
    body. *)
Lemma child_of_body_not_body (e p : Element) :
  parentElement e = Some p -> isDocumentBody p = true ->
  isDocumentBody e = false.
Proof.
  intros Hp Hb. unfold isDocumentBody in *.
  rewrite (documentBody_parent e p Hp).
  destruct (documentBody p) as [b|]; [|reflexivity].
  unfold sameElement in *.
  apply bool_decide_eq_true in Hb.
  apply bool_decide_eq_false.
  destruct (ref_parent e p Hp) as [i Hi].
  rewrite Hi, Hb. intros Heq.
  apply (f_equal (@length nat)) in Heq. simpl in Heq. lia.
Qed.

(** ** Structure Analyzer *)

Section StructureFacts.

Import ElementAnalyzer.

Lemma analyzeStructureLoop_keeps (current : Element)
    (parents : list Element) (s : Structure.t) :
  Structure.isRepeating (analyzeStructureLoop current parents s)
    = Structure.isRepeating s
  /\ Structure.patternGroup (analyzeStructureLoop current parents s)
    = Structure.patternGroup s
  /\ Structure.children (analyzeStructureLoop current parents s)
    = Structure.children s.
Proof.
  revert current s.
  induction parents as [|parent rest IH]; intros current s; simpl.
  - auto.
  - destruct (isDocumentBody parent); [auto|].
    destruct (IH parent
                (Structure.mk (S (Structure.depth s))
                   (length (children parent))
                   (length (similarAmong current (children parent)))
                   (Structure.children s) (Structure.isRepeating s)
                   (if isLikelyContainer parent
                    then Some (getContainerSignature parent)
                    else Structure.containerId s)
                   (Structure.patternGroup s)))
      as (H1 & H2 & H3).
    simpl in *. auto.
Qed.

(** C7. In the report of [analyzeStructure], for every element of every
    document, [isRepeating] is exactly [similarSiblings > 0], and
    [patternGroup] is [null] unless [isRepeating] is true. *)
Theorem analyzeStructure_isRepeating_invariant (element : Element) :
  Structure.isRepeating (analyzeStructure element)
    = (0 <? Structure.similarSiblings (analyzeStructure element))%nat
  /\ (Structure.isRepeating (analyzeStructure element) = true
      \/ Structure.patternGroup (analyzeStructure element) = None).
Proof.
  unfold analyzeStructure; simpl. split; [reflexivity|].
  match goal with
  | |- context [Nat.ltb 0 ?n] => destruct (Nat.ltb 0 n) eqn:Hpos
  end.
  - left; reflexivity.
  - right.
    destruct (analyzeStructureLoop_keeps element (ancestors element)
                (Structure.mk 0 0 0 (length (children element)) false
                   None None)) as (_ & H2 & _).
    exact H2.
Qed.

(** C10. For an element whose parent is the document body the loop of
    [analyzeStructure] does not run at all: depth, sibling count and
    similar-sibling count stay 0, [isRepeating] is false and
    [patternGroup] is [null], however many siblings the element has. *)
Theorem analyzeStructure_child_of_body (element body : Element) :
  parentElement element = Some body ->
  isDocumentBody body = true ->
  Structure.depth (analyzeStructure element) = 0
  /\ Structure.siblings (analyzeStructure element) = 0
  /\ Structure.similarSiblings (analyzeStructure element) = 0
  /\ Structure.isRepeating (analyzeStructure element) = false
  /\ Structure.patternGroup (analyzeStructure element) = None.
Proof.
  intros Hp Hb. unfold analyzeStructure.
  rewrite (ancestors_parent element body Hp). simpl.
  rewrite Hb. simpl. auto.
Qed.

(** The first of two classless paragraphs in the body: two siblings, and
    still all counts are 0. *)
Lemma analyzeStructure_child_of_body_witness :
  length (getContextElements Fixtures.firstPlain) = 2
  /\ Structure.depth (analyzeStructure Fixtures.firstPlain) = 0
  /\ Structure.siblings (analyzeStructure Fixtures.firstPlain) = 0
  /\ Structure.similarSiblings (analyzeStructure Fixtures.firstPlain) = 0
  /\ Structure.isRepeating (analyzeStructure Fixtures.firstPlain) = false
  /\ Structure.patternGroup (analyzeStructure Fixtures.firstPlain) = None.
Proof.
  split; [vm_compute; reflexivity|].
  apply (analyzeStructure_child_of_body Fixtures.firstPlain
           (Fixtures.orElse (parentElement Fixtures.firstPlain)
                            Fixtures.item));
    vm_compute; reflexivity.
Defined.

End StructureFacts.

(** ** Numbers *)

Section NumberFacts.

Local Open Scope Z_scope.

Lemma div_eucl_shiftl_self (m : positive) :
  Z.div_eucl (Z.shiftl (Zpos m) 53) (Zpos m) = (2 ^ 53, 0).
Proof.
  rewrite Z.shiftl_mul_pow2 by lia.
  pose proof (Z.div_mul (2 ^ 53) (Zpos m) ltac:(lia)) as Hq.
  pose proof (Z.mod_mul (2 ^ 53) (Zpos m) ltac:(lia)) as Hr.
  rewrite (Z.mul_comm (Zpos m)).
  unfold Z.div, Z.modulo in Hq, Hr.
  destruct (Z.div_eucl (2 ^ 53 * Zpos m) (Zpos m)) as [q r].
  simpl in Hq, Hr. subst. reflexivity.
Qed.

Lemma div_finite_self (s : bool) (m : positive) (e : Z) :
  JsNumber.div (S754_finite s m e) (S754_finite s m e) = JsNumber.one.
Proof.
  unfold JsNumber.div, SFdiv, SFdiv_core_binary.
  replace (Zdigits2 (Zpos m) + e - (Zdigits2 (Zpos m) + e)) with 0 by lia.
  rewrite Z.sub_diag.
  change (Z.min (fexp JsNumber.prec JsNumber.emax 0) 0) with (-53).
  change (0 - -53) with 53.
  cbv iota.
  rewrite div_eucl_shiftl_self.
  replace (xorb s s) with false by (destruct s; reflexivity).
  assert (Hloc : new_location (Zpos m) 0 = loc_Exact).
  { unfold new_location, new_location_even, new_location_odd.
    destruct (Z.even (Zpos m)); reflexivity. }
  rewrite Hloc. vm_compute. reflexivity.
Qed.

Lemma digits2_pos_iter (p d : positive) :
  digits2_pos (Pos.iter xO p d) = (digits2_pos p + d)%positive.
Proof.
  induction d as [|d IH] using Pos.peano_ind.
  - simpl. lia.
  - rewrite Pos.iter_succ. simpl. rewrite IH. lia.
Qed.

Lemma digits2_pos_lower (p : positive) :
  2 ^ (Zpos (digits2_pos p) - 1) <= Zpos p.
Proof.
  induction p as [p IH|p IH|]; simpl digits2_pos.
  - rewrite Pos2Z.inj_succ.
    replace (Z.succ (Zpos (digits2_pos p)) - 1)
      with (Z.succ (Zpos (digits2_pos p) - 1)) by lia.
    rewrite Z.pow_succ_r by lia. lia.
  - rewrite Pos2Z.inj_succ.
    replace (Z.succ (Zpos (digits2_pos p)) - 1)
      with (Z.succ (Zpos (digits2_pos p) - 1)) by lia.
    rewrite Z.pow_succ_r by lia. lia.
  - simpl. lia.
Qed.

Lemma digits2_pos_bound (p : positive) :
  Zpos p < 2 ^ 53 -> Zpos (digits2_pos p) <= 53.
Proof.
  intros Hp. pose proof (digits2_pos_lower p) as Hl.
  destruct (Z_le_gt_dec (Zpos (digits2_pos p)) 53) as [Hle|Hgt]; [exact Hle|].
  exfalso.
  assert (2 ^ 53 <= 2 ^ (Zpos (digits2_pos p) - 1))
    by (apply Z.pow_le_mono_r; lia).
  lia.
Qed.

Lemma binary_round_aux_canonical (m : positive) (e : Z) :
  Zpos (digits2_pos m) = 53 -> -1074 <= e <= 971 ->
  binary_round_aux JsNumber.prec JsNumber.emax false (Zpos m) e loc_Exact
  = S754_finite false m e.
Proof.
  intros Hd He.
  assert (Hshr :
            shr_fexp JsNumber.prec JsNumber.emax (Zpos m) e loc_Exact
            = (Build_shr_record (Zpos m) false false, e)).
  { unfold shr_fexp, Zdigits2. rewrite Hd.
    unfold fexp, emin, JsNumber.prec, JsNumber.emax.
    replace (Z.max (53 + e - 53) (3 - 1024 - 53) - e) with 0 by lia.
    reflexivity. }
  unfold binary_round_aux. rewrite Hshr.
  cbn [shr_m loc_of_shr_record round_nearest_even]. rewrite Hshr.
  cbn [shr_m].
  unfold JsNumber.prec, JsNumber.emax.
  destruct (Z.leb_spec e (1024 - 53)); [reflexivity | lia].
Qed.

Lemma ofNat_finite (n : nat) :
  (0 < n)%nat -> Z.of_nat n < 2 ^ 53 ->
  exists m e, JsNumber.ofNat n = S754_finite false m e.
Proof.
  intros Hpos Hlt. unfold JsNumber.ofNat, binary_normalize.
  destruct (Z.of_nat n) as [|p|p] eqn:Hz; try lia.
  unfold binary_round, shl_align.
  pose proof (digits2_pos_bound p Hlt) as Hdg.
  assert (Hfexp : fexp JsNumber.prec JsNumber.emax
                    (Zpos (digits2_pos p) + 0)
                  = Zpos (digits2_pos p) - 53).
  { unfold fexp, emin, JsNumber.prec, JsNumber.emax. lia. }
  rewrite Hfexp.
  destruct (Zpos (digits2_pos p) - 53 - 0) as [|d|d] eqn:Hsh; try lia.
  - rewrite binary_round_aux_canonical by lia. eauto.
  - rewrite binary_round_aux_canonical; [eauto| |lia].
    rewrite digits2_pos_iter. lia.
Qed.

Lemma div_ofNat_self (n : nat) :
  (0 < n)%nat -> Z.of_nat n < 2 ^ 53 ->
  JsNumber.div (JsNumber.ofNat n) (JsNumber.ofNat n) = JsNumber.one.
Proof.
  intros Hpos Hlt. destruct (ofNat_finite n Hpos Hlt) as (m & e & ->).
  apply div_finite_self.
Qed.

End NumberFacts.

(** ** Similarity Scorer *)

Section SimilarityFacts.

Import ElementAnalyzer.

Lemma classOverlap_no_classes (el1 el2 : Element) :
  classList el1 = [] -> classList el2 = [] ->
  classOverlap el1 el2 = JsNumber.NaN.
Proof.
  intros H1 H2. unfold classOverlap. rewrite H1, H2. reflexivity.
Qed.

Lemma add_NaN (x : JsNumber.number) : JsNumber.add x JsNumber.NaN = JsNumber.NaN.
Proof. destruct x; reflexivity. Qed.

Lemma incr_NaN : JsNumber.incr JsNumber.NaN = JsNumber.NaN.
Proof. reflexivity. Qed.

Lemma div_NaN (y : JsNumber.number) : JsNumber.div JsNumber.NaN y = JsNumber.NaN.
Proof. reflexivity. Qed.

(** Once the class term is NaN the whole score is NaN. *)
Lemma calculateSimilarity_NaN (el1 el2 : Element) :
  classOverlap el1 el2 = JsNumber.NaN ->
  calculateSimilarity el1 el2 = JsNumber.NaN.
Proof.
  intros H. unfold calculateSimilarity. rewrite H, add_NaN.
  destruct (String.eqb _ _); reflexivity.
Qed.

(** An element without classes scores NaN against itself: not 1, and
    above no threshold. *)
Lemma calculateSimilarity_self_no_classes (element : Element) :
  classList element = [] ->
  calculateSimilarity element element = JsNumber.NaN
  /\ JsNumber.eqb (calculateSimilarity element element) JsNumber.one = false
  /\ JsNumber.gt (calculateSimilarity element element) JsNumber.lit_0_8
     = false.
Proof.
  intros H.
  rewrite (calculateSimilarity_NaN element element
             (classOverlap_no_classes element element H H)).
  repeat split; reflexivity.
Qed.

(** C2 fails as stated: a paragraph without classes scores NaN against
    itself, which is not 1.0. *)
Lemma calculateSimilarity_self_counterexample :
  classList Fixtures.firstPlain = []
  /\ calculateSimilarity Fixtures.firstPlain Fixtures.firstPlain
     = JsNumber.NaN
  /\ JsNumber.eqb
       (calculateSimilarity Fixtures.firstPlain Fixtures.firstPlain)
       JsNumber.one = false.
Proof. repeat split; vm_compute; reflexivity. Qed.

(** C3, at the failing inputs. When both class sets are empty the class
    term is 0/0, which is NaN and not 0, and the total score is NaN,
    which is not a number of the interval [0,1]. *)
Theorem classOverlap_both_empty_is_NaN (el1 el2 : Element) :
  classList el1 = [] -> classList el2 = [] ->
  classOverlap el1 el2 = JsNumber.NaN
  /\ JsNumber.eqb (classOverlap el1 el2) JsNumber.zero = false
  /\ calculateSimilarity el1 el2 = JsNumber.NaN
  /\ JsNumber.inUnitInterval (calculateSimilarity el1 el2) = false.
Proof.
  intros H1 H2.
  rewrite (calculateSimilarity_NaN el1 el2
             (classOverlap_no_classes el1 el2 H1 H2)).
  rewrite (classOverlap_no_classes el1 el2 H1 H2).
  repeat split; reflexivity.
Qed.

Lemma classOverlap_both_empty_is_NaN_witness :
  classList Fixtures.firstPlain = [] /\ classList Fixtures.secondPlain = []
  /\ calculateSimilarity Fixtures.firstPlain Fixtures.secondPlain
     = JsNumber.NaN.
Proof.
  split; [vm_compute; reflexivity|].
  split; [vm_compute; reflexivity|].
  apply (classOverlap_both_empty_is_NaN Fixtures.firstPlain
           Fixtures.secondPlain); vm_compute; reflexivity.
Defined.

Lemma arrayIncludes_In (l : list string) (c : string) :
  In c l -> JsString.arrayIncludes l c = true.
Proof.
  intros Hin. unfold JsString.arrayIncludes.
  apply existsb_exists. exists c. split; [exact Hin|].
  apply String.eqb_refl.
Qed.

Lemma filter_all {A : Type} (p : A -> bool) (l : list A) :
  (forall x, In x l -> p x = true) -> List.filter p l = l.
Proof.
  induction l as [|x l IH]; simpl; intros Hall; [reflexivity|].
  rewrite (Hall x (or_introl eq_refl)).
  rewrite IH; [reflexivity|]. intros y Hy. apply Hall. right; exact Hy.
Qed.

Lemma uniqFrom_length (seen l : list string) :
  (length (JsString.uniqFrom seen l) <= length l)%nat.
Proof.
  revert seen. induction l as [|x l IH]; intros seen; simpl; [lia|].
  destruct (JsString.arrayIncludes seen x).
  - specialize (IH seen). lia.
  - simpl. specialize (IH (x :: seen)). lia.
Qed.

Lemma uniq_length_pos (l : list string) :
  l <> [] -> (0 < length (JsString.uniq l))%nat.
Proof.
  destruct l as [|x l]; [congruence|]. intros _.
  unfold JsString.uniq. simpl. lia.
Qed.

Lemma classOverlap_self (element : Element) :
  classList element <> [] ->
  (Z.of_nat (length (classList element)) < 2 ^ 53)%Z ->
  classOverlap element element = JsNumber.one.
Proof.
  intros Hne Hlt. unfold classOverlap.
  cbv zeta.
  rewrite filter_all
    by (intros c Hc; apply arrayIncludes_In; exact Hc).
  rewrite Nat.max_id.
  apply div_ofNat_self.
  - apply uniq_length_pos. exact Hne.
  - pose proof (uniqFrom_length [] (classList element)) as Hle.
    unfold JsString.uniq. lia.
Qed.

(** C2, as the code has it. For every element whose class set is not
    empty (its size being a safe integer, below 2^53),
    [calculateSimilarity(E, E)] is exactly 1.0. *)
Theorem calculateSimilarity_self (element : Element) :
  classList element <> [] ->
  (Z.of_nat (length (classList element)) < 2 ^ 53)%Z ->
  calculateSimilarity element element = JsNumber.one.
Proof.
  intros Hne Hlt. unfold calculateSimilarity.
  rewrite (classOverlap_self element Hne Hlt), !String.eqb_refl.
  vm_compute. reflexivity.
Qed.

Lemma calculateSimilarity_self_witness :
  calculateSimilarity Fixtures.thirdItem Fixtures.thirdItem = JsNumber.one.
Proof.
  apply (calculateSimilarity_self Fixtures.thirdItem).
  - vm_compute. discriminate.
  - vm_compute. reflexivity.
Defined.

End SimilarityFacts.

(** ** Container Classifier *)

Section ContainerFacts.

Import ElementAnalyzer.

Lemma filter_length_pos {A : Type} (p : A -> bool) (l : list A) (x : A) :
  In x l -> p x = true -> (0 < length (List.filter p l))%nat.
Proof.
  induction l as [|y l IH]; simpl; intros Hin Hp; [contradiction|].
  destruct Hin as [->|Hin].
  - rewrite Hp. simpl. lia.
  - destruct (p y); simpl; [lia|]. apply IH; assumption.
Qed.

Lemma hasSimilarChildren_first_child (element first c : Element)
    (rest : list Element) :
  children element = first :: rest ->
  In c rest ->
  elTagName c = elTagName first ->
  className c = className first ->
  hasSimilarChildren element = true.
Proof.
  intros Hch Hin Htag Hcls. unfold hasSimilarChildren. rewrite Hch.
  assert (Hlen : (1 <? length (first :: rest))%nat = true).
  { destruct rest as [|r rest]; [contradiction|]. reflexivity. }
  rewrite Hlen. cbn [List.filter].
  rewrite !String.eqb_refl. cbn [andb length].
  apply Nat.ltb_lt.
  pose proof (filter_length_pos
                (fun child =>
                   String.eqb (elTagName child) (elTagName first)
                   && String.eqb (className child) (className first))
                rest c Hin) as Hpos.
  cbv beta in Hpos.
  rewrite Htag, Hcls, !String.eqb_refl in Hpos.
  specialize (Hpos eq_refl). lia.
Qed.

(** C8, as the code has it. [isLikelyContainer] returns true for every
    element with at least two children of which some child other than
    the first has the first child's tag name and class string. *)
Theorem isLikelyContainer_child_like_first (element first c : Element)
    (rest : list Element) :
  children element = first :: rest ->
  In c rest ->
  elTagName c = elTagName first ->
  className c = className first ->
  isLikelyContainer element = true.
Proof.
  intros Hch Hin Htag Hcls. unfold isLikelyContainer.
  rewrite (hasSimilarChildren_first_child element first c rest
             Hch Hin Htag Hcls).
  repeat match goal with
         | |- (if ?b then true else _) = true => destruct b; [reflexivity|]
         end.
  reflexivity.
Qed.

Lemma isLikelyContainer_child_like_first_witness :
  JsString.arrayIncludes containerTags
    (JsString.toLowerCase (elTagName Fixtures.theSpan2)) = false
  /\ isLikelyContainer Fixtures.theSpan2 = true.
Proof.
  split; [vm_compute; reflexivity|].
  apply (isLikelyContainer_child_like_first Fixtures.theSpan2
           (Fixtures.orElse (nth_error (children Fixtures.theSpan2) 0)
                            Fixtures.item)
           (Fixtures.orElse (nth_error (children Fixtures.theSpan2) 2)
                            Fixtures.item)
           (tl (children Fixtures.theSpan2))).
  - vm_compute; reflexivity.
  - vm_compute. right; left; reflexivity.
  - vm_compute; reflexivity.
  - vm_compute; reflexivity.
Defined.

(** C8 fails as stated: in [<span><b></b><i></i><i></i></span>] the
    second and third child share tag and class string, the span has no
    container tag, role, class or display, and [isLikelyContainer]
    returns false. *)
Lemma isLikelyContainer_later_pair_counterexample :
  (exists c1 c2,
      nth_error (children Fixtures.theSpan) 1 = Some c1
      /\ nth_error (children Fixtures.theSpan) 2 = Some c2
      /\ elTagName c1 = elTagName c2
      /\ className c1 = className c2)
  /\ (2 <= length (children Fixtures.theSpan))%nat
  /\ isLikelyContainer Fixtures.theSpan = false.
Proof.
  split; [|split; [vm_compute; lia | vm_compute; reflexivity]].
  eexists; eexists.
  split; [vm_compute; reflexivity|].
  split; [vm_compute; reflexivity|].
  split; vm_compute; reflexivity.
Qed.

End ContainerFacts.

(** ** Selector Generator *)

Section SelectorFacts.

Context `{host : Host}.

(** C5, as the code has it. For an element with a non-empty [id] the
    walk stops at the element itself, whatever its ancestors are: the
    analyzer's [generateCssSelector] returns exactly [#id], and the
    inspector's [generateCssSelector] returns the lower-case tag name
    followed by [#id], without asking the selector engine. *)
Theorem generateCssSelector_with_id (element : Element) :
  JsString.truthy (id element) = true ->
  ElementAnalyzer.generateCssSelector element = "#" +:+ id element
  /\ (forall rest path,
        ElementAnalyzer.generateCssSelectorLoop (element :: rest) path
        = ("#" +:+ id element) :: path)
  /\ ElementInspector.generateCssSelector element
     = Ok (JsString.toLowerCase (elTagName element) +:+ "#"
           +:+ id element)
  /\ (forall rest paths,
        ElementInspector.generateCssSelectorLoop element (element :: rest)
          paths
        = Ok ((JsString.toLowerCase (elTagName element) +:+ "#"
               +:+ id element) :: paths)).
Proof.
  intros Hid.
  unfold ElementAnalyzer.generateCssSelector,
    ElementInspector.generateCssSelector.
  cbn [ElementAnalyzer.generateCssSelectorLoop
       ElementInspector.generateCssSelectorLoop].
  rewrite Hid. repeat split; reflexivity.
Qed.

End SelectorFacts.

Lemma generateCssSelector_with_id_witness :
  JsString.truthy (id Fixtures.mainDiv) = true
  /\ ElementAnalyzer.generateCssSelector Fixtures.mainDiv = "#main".
Proof.
  split; [vm_compute; reflexivity|].
  apply (generateCssSelector_with_id (host := Fixtures.fixtureHost)
           Fixtures.mainDiv).
  vm_compute; reflexivity.
Defined.

(** C5 fails as stated for the inspector's generator: on
    [<div id="main">] it returns [div#main], not [#main]. *)
Lemma inspector_generateCssSelector_counterexample :
  JsString.truthy (id Fixtures.mainDiv) = true
  /\ ElementInspector.generateCssSelector (host := Fixtures.fixtureHost)
       Fixtures.mainDiv = Ok "div#main"
  /\ ElementInspector.generateCssSelector (host := Fixtures.fixtureHost)
       Fixtures.mainDiv <> Ok ("#" +:+ id Fixtures.mainDiv).
Proof.
  split; [vm_compute; reflexivity|].
  split; [vm_compute; reflexivity|].
  vm_compute. discriminate.
Qed.

(** ** Relationship Finder *)

Section RelationshipFacts.

Context `{host : Host}.

Import ElementAnalyzer.

(** A call that returns leaves its result in the cache, under the
    identity of the element. *)
Lemma findRelationships_caches (element : Element) (a a1 : Analyzer)
    (r : list Ref) :
  findRelationships element a = (Ok r, a1) ->
  relationshipCache a1 !! ref element = Some r.
Proof.
  unfold findRelationships, bind, cacheGet, read.
  destruct (relationshipCache a !! ref element) as [cached|] eqn:Hc.
  - unfold ret. intros Heq. injection Heq as <- <-. exact Hc.
  - unfold countContainerSearch, countSimilarityCalls, update.
    destruct (findClosestStructuralContainer element) as [container|].
    + match goal with
      | |- context [findSemanticRelationships ?e ?l ?c ?s] =>
          destruct (findSemanticRelationships e l c s) as [[rels|err] a2]
      end.
      * unfold cacheSet, update, ret. intros Heq.
        injection Heq as <- <-. simpl. apply lookup_insert_eq.
      * intros Heq. discriminate.
    + unfold cacheSet, update, ret. intros Heq.
      injection Heq as <- <-. simpl. apply lookup_insert_eq.
Qed.

(** On a hit the method returns the stored sequence and touches
    nothing: neither the document, nor the selector engine, nor the
    analyzer. *)
Lemma findRelationships_hit (element : Element) (a : Analyzer)
    (r : list Ref) :
  relationshipCache a !! ref element = Some r ->
  findRelationships element a = (Ok r, a).
Proof.
  intros Hc. unfold findRelationships, bind, cacheGet, read.
  rewrite Hc. reflexivity.
Qed.

(** An element that is neither an input nor a table cell never makes
    the Relationship Finder throw. *)
Lemma findRelationships_returns (element : Element) (a : Analyzer) :
  isHTMLInputElement element = false ->
  isHTMLTableCellElement element = false ->
  exists r a1, findRelationships element a = (Ok r, a1).
Proof.
  intros Hin Hcell.
  unfold findRelationships, bind, cacheGet, read.
  destruct (relationshipCache a !! ref element) as [cached|];
    [unfold ret; eauto|].
  unfold countContainerSearch, countSimilarityCalls, update.
  destruct (findClosestStructuralContainer element) as [container|].
  - unfold findSemanticRelationships, bind.
    rewrite Hin, Hcell. cbn [andb]. unfold ret.
    destruct (isHTMLLIElement element);
      [destruct (parentElement element)|];
      unfold cacheSet, update; eauto.
  - unfold ret, cacheSet, update. eauto.
Qed.

End RelationshipFacts.

(** C6. When a call of [findRelationships] on an element has returned,
    the next call for the same element identity returns the same
    sequence, taken from the cache: the analyzer is left as it was, its
    counts of container searches and similarity computations included,
    and the answer depends neither on the document around the element nor
    on the selector engine. *)
Theorem findRelationships_memoized (host : Host) (element : Element)
    (a a1 : Analyzer) (r : list Ref) :
  ElementAnalyzer.findRelationships element a = (Ok r, a1) ->
  ElementAnalyzer.findRelationships element a1 = (Ok r, a1)
  /\ containerSearches
       (probe (snd (ElementAnalyzer.findRelationships element a1)))
     = containerSearches (probe a1)
  /\ similarityCalls
       (probe (snd (ElementAnalyzer.findRelationships element a1)))
     = similarityCalls (probe a1)
  /\ (forall (host' : Host) (element' : Element),
        ref element' = ref element ->
        ElementAnalyzer.findRelationships (host := host') element' a1
        = (Ok r, a1)).
Proof.
  intros Hfirst.
  pose proof (findRelationships_caches element a a1 r Hfirst) as Hc.
  rewrite (findRelationships_hit element a1 r Hc).
  repeat split; try reflexivity.
  intros host' element' Href.
  apply findRelationships_hit. rewrite Href. exact Hc.
Qed.

(** The third item of the list fixture: the first call scans (one
    container search, four similarity computations), the second does
    not. *)
Lemma findRelationships_memoized_witness :
  probe (snd (ElementAnalyzer.findRelationships
                (host := Fixtures.fixtureHost) Fixtures.thirdItem
                newAnalyzer))
  = mkProbe 1 4
  /\ ElementAnalyzer.findRelationships (host := Fixtures.fixtureHost)
       Fixtures.thirdItem
       (snd (ElementAnalyzer.findRelationships
               (host := Fixtures.fixtureHost) Fixtures.thirdItem
               newAnalyzer))
     = (Ok [[0; 0; 1]; [1; 0; 1]; [3; 0; 1]; [4; 0; 1];
            [0; 0; 1]; [1; 0; 1]; [3; 0; 1]; [4; 0; 1]],
        snd (ElementAnalyzer.findRelationships
               (host := Fixtures.fixtureHost) Fixtures.thirdItem
               newAnalyzer)).
Proof.
  split; [vm_compute; reflexivity|].
  refine (proj1 (findRelationships_memoized Fixtures.fixtureHost
                   Fixtures.thirdItem newAnalyzer
                   (snd (ElementAnalyzer.findRelationships
                           (host := Fixtures.fixtureHost) Fixtures.thirdItem
                           newAnalyzer))
                   [[0; 0; 1]; [1; 0; 1]; [3; 0; 1]; [4; 0; 1];
                    [0; 0; 1]; [1; 0; 1]; [3; 0; 1]; [4; 0; 1]] _)).
  vm_compute; reflexivity.
Defined.

(** C6 fails as stated, for every element: a call that throws caches
    nothing.  For a table cell outside a row both calls throw, the cache
    has no entry after the first, and the second call searches for the
    container again. *)
Lemma findRelationships_not_memoized_counterexample :
  let first :=
    ElementAnalyzer.findRelationships (host := Fixtures.fixtureHost)
      Fixtures.strayCell newAnalyzer in
  let second :=
    ElementAnalyzer.findRelationships (host := Fixtures.fixtureHost)
      Fixtures.strayCell (snd first) in
  fst first = Throw (TypeError "undefined is not iterable")
  /\ fst second = Throw (TypeError "undefined is not iterable")
  /\ relationshipCache (snd first) !! ref Fixtures.strayCell = None
  /\ containerSearches (probe (snd first)) = 1
  /\ containerSearches (probe (snd second)) = 2
  /\ ~ (exists r,
          second = (Ok r, snd first)
          /\ containerSearches (probe (snd second))
             = containerSearches (probe (snd first))).
Proof.
  cbv zeta.
  split; [vm_compute; reflexivity|].
  split; [vm_compute; reflexivity|].
  split; [vm_compute; reflexivity|].
  split; [vm_compute; reflexivity|].
  split; [vm_compute; reflexivity|].
  intros (r & _ & Hsame). vm_compute in Hsame. discriminate.
Qed.

(** ** Analysis Facade *)

Section FacadeFacts.

Context `{host : Host}.

Import ElementAnalyzer.

Lemma analyzeElement_not_element (v : JsValue) (a : Analyzer) :
  (forall e, v <> JsHTMLElement e) ->
  analyzeElement v a = (Ok Report.empty, a).
Proof.
  intros Hv. destruct v as [| | d | e]; try reflexivity.
  exfalso. exact (Hv e eq_refl).
Qed.

Lemma analyzeElement_body_throws (e : Element) (a a' : Analyzer)
    (err : JsError) :
  analysisBody e a = (Throw err, a') ->
  analyzeElement (JsHTMLElement e) a = (Ok Report.empty, a').
Proof.
  intros Hb. unfold analyzeElement, tryCatch. rewrite Hb. reflexivity.
Qed.

Lemma analysisBody_findPatterns_throws (e : Element) (a a' : Analyzer)
    (err : JsError) :
  findPatterns e a = (Throw err, a') ->
  analysisBody e a = (Throw err, a').
Proof.
  intros Hp. unfold analysisBody, bind. rewrite Hp. reflexivity.
Qed.

Lemma analysisBody_findRelationships_throws (e : Element)
    (a a1 a2 : Analyzer) (p : Patterns.t) (err : JsError) :
  findPatterns e a = (Ok p, a1) ->
  findRelationships e a1 = (Throw err, a2) ->
  analysisBody e a = (Throw err, a2).
Proof.
  intros Hp Hr. unfold analysisBody, bind. rewrite Hp, Hr. reflexivity.
Qed.

(** C1. [analyzeElement] always returns a report and never throws.  The
    report is the empty report when the input is [null], [undefined] or
    anything else that is not an HTML element, and when a sub-analysis
    of a valid element throws: the pattern search, or the relationship
    search after it (structure analysis and selector generation do not
    throw). *)
Theorem analyzeElement_error_boundary (v : JsValue) (a : Analyzer) :
  (exists rep a', analyzeElement v a = (Ok rep, a'))
  /\ ((forall e, v <> JsHTMLElement e) ->
      analyzeElement v a = (Ok Report.empty, a))
  /\ (forall e err a',
        v = JsHTMLElement e ->
        analysisBody e a = (Throw err, a') ->
        analyzeElement v a = (Ok Report.empty, a'))
  /\ (forall e err a',
        v = JsHTMLElement e ->
        findPatterns e a = (Throw err, a') ->
        analyzeElement v a = (Ok Report.empty, a'))
  /\ (forall e p a1 err a2,
        v = JsHTMLElement e ->
        findPatterns e a = (Ok p, a1) ->
        findRelationships e a1 = (Throw err, a2) ->
        analyzeElement v a = (Ok Report.empty, a2)).
Proof.
  split; [|split; [|split; [|split]]].
  - destruct v as [| | d | e]; simpl; try (eexists; eexists; reflexivity).
    unfold tryCatch.
    destruct (analysisBody e a) as [[rep|err] a'];
      eexists; eexists; reflexivity.
  - apply analyzeElement_not_element.
  - intros e err a' -> Hb. exact (analyzeElement_body_throws e a a' err Hb).
  - intros e err a' -> Hp.
    apply (analyzeElement_body_throws e a a' err).
    exact (analysisBody_findPatterns_throws e a a' err Hp).
  - intros e p a1 err a2 -> Hp Hr.
    apply (analyzeElement_body_throws e a a2 err).
    exact (analysisBody_findRelationships_throws e a a1 a2 p err Hp Hr).
Qed.

End FacadeFacts.

(** Faults that do occur: a table cell outside a row makes the
    relationship search throw a [TypeError], an input whose id contains a
    quote makes the selector engine throw a [SyntaxError]; in both cases,
    as for [null] and [undefined], the facade answers with the empty
    report. *)
Example analyzeElement_error_boundary_examples :
  fst (ElementAnalyzer.analysisBody (host := Fixtures.fixtureHost)
         Fixtures.strayCell newAnalyzer)
  = Throw (TypeError "undefined is not iterable")
  /\ fst (ElementAnalyzer.analyzeElement (host := Fixtures.fixtureHost)
            (JsHTMLElement Fixtures.strayCell) newAnalyzer)
     = Ok Report.empty
  /\ isOk (fst (ElementAnalyzer.analysisBody (host := Fixtures.fixtureHost)
                  Fixtures.quotedIdInput newAnalyzer)) = false
  /\ fst (ElementAnalyzer.analyzeElement (host := Fixtures.fixtureHost)
            (JsHTMLElement Fixtures.quotedIdInput) newAnalyzer)
     = Ok Report.empty
  /\ ElementAnalyzer.analyzeElement (host := Fixtures.fixtureHost)
       JsNull newAnalyzer = (Ok Report.empty, newAnalyzer)
  /\ ElementAnalyzer.analyzeElement (host := Fixtures.fixtureHost)
       JsUndefined newAnalyzer = (Ok Report.empty, newAnalyzer).
Proof. repeat split; vm_compute; reflexivity. Qed.

(** ** The cache across inspection sessions *)

Section CacheFacts.

Context `{host : Host}.

Import ElementAnalyzer.

Lemma findSimilarStructures_state (e : Element) (sig : string)
    (a : Analyzer) :
  snd (findSimilarStructures e sig a) = a.
Proof.
  unfold findSimilarStructures, bind, lift, ret.
  destruct (findClosestStructuralContainer e) as [c|]; [|reflexivity].
  destruct (querySelectorAll c (elTagName e)); reflexivity.
Qed.

Lemma findPatterns_state (e : Element) (a : Analyzer) :
  snd (findPatterns e a) = a.
Proof.
  unfold findPatterns, bind.
  pose proof (findSimilarStructures_state e
                (generateStructureSignature e) a) as Hs.
  destruct (findSimilarStructures e (generateStructureSignature e) a)
    as [[similar|err] a1]; simpl in *; subst; reflexivity.
Qed.

Lemma findSemanticRelationships_state (e : Element) (l : list Ref)
    (c : Element) (a : Analyzer) :
  snd (findSemanticRelationships e l c a) = a.
Proof.
  unfold findSemanticRelationships, bind, lift, ret, throw, lift.
  destruct (isHTMLInputElement e && JsString.truthy (id e)).
  - destruct (querySelector c _) as [label|err]; [|reflexivity].
    destruct (isHTMLTableCellElement e).
    + destruct (parentElement e) as [row|].
      * destruct (isHTMLTableRowElement row); [|reflexivity].
        destruct (isHTMLLIElement e); [|reflexivity].
        reflexivity.
      * destruct (isHTMLLIElement e); reflexivity.
    + destruct (isHTMLLIElement e); [|reflexivity].
      destruct (parentElement e); reflexivity.
  - destruct (isHTMLTableCellElement e).
    + destruct (parentElement e) as [row|].
      * destruct (isHTMLTableRowElement row); [|reflexivity].
        destruct (isHTMLLIElement e); reflexivity.
      * destruct (isHTMLLIElement e); reflexivity.
    + destruct (isHTMLLIElement e); [|reflexivity].
      destruct (parentElement e); reflexivity.
Qed.

(** [findRelationships] writes the cache only under a key that had no
    entry: what is cached stays cached. *)
Lemma findRelationships_keeps (e : Element) (a : Analyzer) (k : Ref)
    (v : list Ref) :
  relationshipCache a !! k = Some v ->
  relationshipCache (snd (findRelationships e a)) !! k = Some v.
Proof.
  intros Hk. unfold findRelationships, bind, cacheGet, read.
  destruct (relationshipCache a !! ref e) as [cached|] eqn:Hc;
    [exact Hk|].
  assert (Hne : ref e <> k)
    by (intros Heq; rewrite Heq in Hc; congruence).
  unfold countContainerSearch, countSimilarityCalls, update.
  destruct (findClosestStructuralContainer e) as [c|].
  - match goal with
    | |- context [findSemanticRelationships ?x ?l ?y ?s] =>
        pose proof (findSemanticRelationships_state x l y s) as Hs;
        destruct (findSemanticRelationships x l y s) as [[rels|err] a2]
    end; simpl in Hs; subst a2; simpl.
    + rewrite lookup_insert_ne by exact Hne. exact Hk.
    + exact Hk.
  - simpl. rewrite lookup_insert_ne by exact Hne. exact Hk.
Qed.

Lemma analyzeElement_keeps (x : JsValue) (a : Analyzer) (k : Ref)
    (v : list Ref) :
  relationshipCache a !! k = Some v ->
  relationshipCache (snd (analyzeElement x a)) !! k = Some v.
Proof.
  intros Hk. destruct x as [| | d | e]; try exact Hk.
  unfold analyzeElement, tryCatch, analysisBody, bind.
  pose proof (findPatterns_state e a) as Hp.
  destruct (findPatterns e a) as [[p|err] a1]; simpl in Hp; subst a1;
    [|exact Hk].
  pose proof (findRelationships_keeps e a k v Hk) as Hr.
  destruct (findRelationships e a) as [[r|err] a2]; simpl in *; exact Hr.
Qed.

End CacheFacts.

Section InspectorFacts.

Context `{host : Host}.

Import ElementInspector.

Lemma stop_analyzer (i : Inspector) : analyzer (stop i) = analyzer i.
Proof. reflexivity. Qed.

Lemma start_analyzer (i : Inspector) : analyzer (start i) = analyzer i.
Proof. reflexivity. Qed.

Lemma handleKeyPress_analyzer (key : string) (i : Inspector) :
  analyzer (handleKeyPress key i) = analyzer i.
Proof.
  unfold handleKeyPress.
  destruct (negb (active i)); [reflexivity|].
  destruct (String.eqb key "Escape"); reflexivity.
Qed.

Lemma onAnalyzer_analyzeElement_keeps (x : JsValue) (i : Inspector)
    (k : Ref) (v : list Ref) :
  relationshipCache (analyzer i) !! k = Some v ->
  relationshipCache
    (analyzer (snd (onAnalyzer (ElementAnalyzer.analyzeElement x) i)))
    !! k = Some v.
Proof.
  intros Hk. unfold onAnalyzer.
  pose proof (analyzeElement_keeps x (analyzer i) k v Hk) as Ha.
  destruct (ElementAnalyzer.analyzeElement x (analyzer i)) as [r a'].
  exact Ha.
Qed.

Lemma updateTooltip_keeps (element : Element) (i : Inspector) (k : Ref)
    (v : list Ref) :
  relationshipCache (analyzer i) !! k = Some v ->
  relationshipCache (analyzer (snd (updateTooltip element i))) !! k
  = Some v.
Proof.
  intros Hk. unfold updateTooltip, bind.
  pose proof (onAnalyzer_analyzeElement_keeps (JsHTMLElement element) i
                k v Hk) as Ha.
  destruct (onAnalyzer _ i) as [[rep|err] i1]; simpl in Ha; [|exact Ha].
  unfold lift. destruct (getElementInfo element); exact Ha.
Qed.

Lemma handleMouseOver_keeps (target : Element) (i : Inspector) (k : Ref)
    (v : list Ref) :
  relationshipCache (analyzer i) !! k = Some v ->
  relationshipCache (analyzer (handleMouseOver target i)) !! k = Some v.
Proof.
  intros Hk. unfold handleMouseOver.
  destruct (negb (active i)); [exact Hk|].
  unfold tryCatch, bind.
  pose proof (onAnalyzer_analyzeElement_keeps (JsHTMLElement target)
                (setHovered target i) k v Hk) as Ha.
  destruct (onAnalyzer _ (setHovered target i)) as [[rep|err] i1];
    simpl in Ha; [|exact Ha].
  unfold updateHighlights, update.
  match goal with
  | |- context [updateTooltip target ?s] =>
      pose proof (updateTooltip_keeps target s k v Ha) as Ht;
      destruct (updateTooltip target s) as [[u|err] i2]
  end; exact Ht.
Qed.

Lemma handleClick_keeps (target : Element) (i : Inspector) (k : Ref)
    (v : list Ref) :
  relationshipCache (analyzer i) !! k = Some v ->
  relationshipCache (analyzer (handleClick target i)) !! k = Some v.
Proof.
  intros Hk. unfold handleClick.
  destruct (negb (active i)); [exact Hk|].
  rewrite stop_analyzer.
  unfold tryCatch, bind.
  pose proof (onAnalyzer_analyzeElement_keeps (JsHTMLElement target) i
                k v Hk) as Ha.
  destruct (onAnalyzer _ i) as [[rep|err] i1]; simpl in Ha; [|exact Ha].
  unfold lift. destruct (getElementInfo target); exact Ha.
Qed.

(** C9, as the code has it. The cache belongs to the analyzer that the
    inspector creates once; [stop] (and with it the Escape key, and the
    end of a click) leaves the analyzer as it is, and starting again
    keeps it too.  So an entry cached in one session is still there in
    the next, where [findRelationships] answers with it for the element
    of that identity, and no handler of the inspector ever removes or
    replaces an entry. *)
Theorem relationshipCache_survives_stop (i : Inspector) (k : Ref)
    (v : list Ref) :
  relationshipCache (analyzer i) !! k = Some v ->
  analyzer (stop i) = analyzer i
  /\ relationshipCache (analyzer (start (stop i))) !! k = Some v
  /\ (forall element,
        ref element = k ->
        ElementAnalyzer.findRelationships element
          (analyzer (start (stop i)))
        = (Ok v, analyzer (start (stop i))))
  /\ (forall target,
        relationshipCache (analyzer (handleMouseOver target i)) !! k
        = Some v)
  /\ (forall target,
        relationshipCache (analyzer (handleClick target i)) !! k = Some v)
  /\ (forall target,
        relationshipCache (analyzer (snd (handleMouseMove target i))) !! k
        = Some v)
  /\ (forall key,
        relationshipCache (analyzer (handleKeyPress key i)) !! k = Some v).
Proof.
  intros Hk. rewrite start_analyzer, stop_analyzer.
  split; [reflexivity|]. split; [exact Hk|].
  split; [|split; [|split; [|split]]].
  - intros element Href. apply findRelationships_hit.
    rewrite Href. exact Hk.
  - intros target. apply handleMouseOver_keeps. exact Hk.
  - intros target. apply handleClick_keeps. exact Hk.
  - intros target. unfold handleMouseMove.
    destruct (negb (active i)); [exact Hk|].
    apply updateTooltip_keeps. exact Hk.
  - intros key. rewrite handleKeyPress_analyzer. exact Hk.
Qed.

End InspectorFacts.

(** One session hovers the third of five items and ends with Escape; the
    entry it cached is there after [stop]. *)
Lemma relationshipCache_survives_stop_witness :
  relationshipCache
    (ElementInspector.analyzer
       (ElementInspector.start
          (ElementInspector.stop
             (ElementInspector.handleMouseOver (host := Fixtures.fixtureHost)
                Fixtures.sessionThird
                (ElementInspector.start ElementInspector.newInspector)))))
    !! [2; 0; 1]
  = Some [[0; 0; 1]; [1; 0; 1]; [3; 0; 1]; [4; 0; 1];
          [0; 0; 1]; [1; 0; 1]; [3; 0; 1]; [4; 0; 1]].
Proof.
  refine (proj1 (proj2 (relationshipCache_survives_stop
                          (host := Fixtures.fixtureHost)
                          (ElementInspector.handleMouseOver
                             (host := Fixtures.fixtureHost)
                             Fixtures.sessionThird
                             (ElementInspector.start
                                ElementInspector.newInspector))
                          [2; 0; 1]
                          [[0; 0; 1]; [1; 0; 1]; [3; 0; 1]; [4; 0; 1];
                           [0; 0; 1]; [1; 0; 1]; [3; 0; 1]; [4; 0; 1]] _))).
  vm_compute; reflexivity.
Defined.

(** C9 fails as stated. A session hovers the third of five list items and
    is ended with Escape: the inspector is inactive and the entry is
    still cached.  The page then drops its last two items; a later
    session that hovers the same element gets the sequence of the earlier
    session, with the two items that are gone, where a new analyzer
    would report the two remaining ones. *)
Lemma relationshipCache_cleared_counterexample :
  let session1 :=
    ElementInspector.handleMouseOver (host := Fixtures.fixtureHost)
      Fixtures.sessionThird
      (ElementInspector.start ElementInspector.newInspector) in
  let ended := ElementInspector.handleKeyPress "Escape" session1 in
  let session2 := ElementInspector.start ended in
  ElementInspector.active ended = false
  /\ ElementInspector.listening ended = false
  /\ ref Fixtures.laterThird = ref Fixtures.sessionThird
  /\ relationshipCache (ElementInspector.analyzer ended)
       !! ref Fixtures.sessionThird
     = Some [[0; 0; 1]; [1; 0; 1]; [3; 0; 1]; [4; 0; 1];
             [0; 0; 1]; [1; 0; 1]; [3; 0; 1]; [4; 0; 1]]
  /\ relationshipCache (ElementInspector.analyzer ended) <> ∅
  /\ Fixtures.reportedRelationships
       (ElementAnalyzer.analyzeElement (host := Fixtures.fixtureHost)
          (JsHTMLElement Fixtures.laterThird)
          (ElementInspector.analyzer session2))
     = Some [[0; 0; 1]; [1; 0; 1]; [3; 0; 1]; [4; 0; 1];
             [0; 0; 1]; [1; 0; 1]; [3; 0; 1]; [4; 0; 1]]
  /\ Fixtures.reportedRelationships
       (ElementAnalyzer.analyzeElement (host := Fixtures.fixtureHost)
          (JsHTMLElement Fixtures.laterThird) newAnalyzer)
     = Some [[0; 0; 1]; [1; 0; 1]; [0; 0; 1]; [1; 0; 1]].
Proof.
  cbv zeta.
  split; [vm_compute; reflexivity|].
  split; [vm_compute; reflexivity|].
  split; [vm_compute; reflexivity|].
  assert (Hentry :
    relationshipCache
      (ElementInspector.analyzer
         (ElementInspector.handleKeyPress "Escape"
            (ElementInspector.handleMouseOver (host := Fixtures.fixtureHost)
               Fixtures.sessionThird
               (ElementInspector.start ElementInspector.newInspector))))
      !! ref Fixtures.sessionThird
    = Some [[0; 0; 1]; [1; 0; 1]; [3; 0; 1]; [4; 0; 1];
            [0; 0; 1]; [1; 0; 1]; [3; 0; 1]; [4; 0; 1]])
    by (vm_compute; reflexivity).
  split; [exact Hentry|].
  split.
  - intros Hempty. rewrite Hempty, lookup_empty in Hentry. discriminate.
  - split; vm_compute; reflexivity.
Qed.

(** ** End-to-end scenario: the third of five list items *)

Section ScenarioFacts.

Import ElementAnalyzer.

Lemma sameElement_siblings (n1 n2 : Node) (d1 d2 : ElementData)
    (b1 a1 b2 a2 : list Node) (fs : list Frame) :
  sameElement (mkElement n1 (mkFrame d1 b1 a1 :: fs))
              (mkElement n2 (mkFrame d2 b2 a2 :: fs))
  = Nat.eqb (length b1) (length b2).
Proof.
  unfold sameElement, ref. simpl.
  destruct (Nat.eqb_spec (length b1) (length b2)) as [Heq|Hne].
  - apply bool_decide_eq_true. rewrite Heq. reflexivity.
  - apply bool_decide_eq_false. intros H. injection H as H. contradiction.
Qed.

Lemma childrenFrom_tags (d : ElementData) (fs : list Frame)
    (before after : list Node) :
  map elTagName (childrenFrom d fs before after)
  = map (fun c => tagName (data c)) after.
Proof.
  revert before. induction after as [|c after IH]; intros before; simpl.
  - reflexivity.
  - rewrite IH. reflexivity.
Qed.

Lemma children_tags (e : Element) :
  map elTagName (children e)
  = map (fun c => tagName (data c)) (childNodes (focus e)).
Proof. apply childrenFrom_tags. Qed.

Lemma generateStructureSignature_eq (e1 e2 : Element) :
  elTagName e1 = elTagName e2 ->
  className e1 = className e2 ->
  map (fun c => tagName (data c)) (childNodes (focus e1))
  = map (fun c => tagName (data c)) (childNodes (focus e2)) ->
  generateStructureSignature e1 = generateStructureSignature e2.
Proof.
  intros Ht Hc Hk. unfold generateStructureSignature.
  rewrite Ht, Hc.
  rewrite <- !(map_map elTagName JsString.toLowerCase).
  rewrite !children_tags, Hk. reflexivity.
Qed.

Lemma calculateSimilarity_items (e1 e2 : Element) :
  elTagName e1 = elTagName e2 ->
  className e1 = "item" -> className e2 = "item" ->
  map (fun c => tagName (data c)) (childNodes (focus e1))
  = map (fun c => tagName (data c)) (childNodes (focus e2)) ->
  calculateSimilarity e1 e2 = JsNumber.one.
Proof.
  intros Ht H1 H2 Hk. unfold calculateSimilarity.
  rewrite (generateStructureSignature_eq e1 e2 Ht (eq_trans H1 (eq_sym H2)) Hk).
  rewrite Ht, !String.eqb_refl.
  unfold classOverlap, classList. rewrite H1, H2.
  vm_compute. reflexivity.
Qed.

Lemma item_element (kids : list string) (n : Node) (fs : list Frame) :
  Fixtures.isItemNode kids n ->
  elTagName (mkElement n fs) = "LI"
  /\ className (mkElement n fs) = "item"
  /\ map (fun c => tagName (data c)) (childNodes (focus (mkElement n fs)))
     = kids.
Proof.
  intros (Ht & Hc & Hk). unfold elTagName, className, reflected, getAttribute,
    elAttributes. simpl. rewrite Hc. auto.
Qed.

Lemma calculateSimilarity_item_nodes (kids : list string) (n1 n2 : Node)
    (fs1 fs2 : list Frame) :
  Fixtures.isItemNode kids n1 -> Fixtures.isItemNode kids n2 ->
  calculateSimilarity (mkElement n1 fs1) (mkElement n2 fs2) = JsNumber.one.
Proof.
  intros H1 H2.
  destruct (item_element kids n1 fs1 H1) as (Ht1 & Hc1 & Hk1).
  destruct (item_element kids n2 fs2 H2) as (Ht2 & Hc2 & Hk2).
  apply calculateSimilarity_items; congruence.
Qed.

Section ListScenario.

Context `{host : Host}.
Variables (d : ElementData) (f : Frame) (fs : list Frame).
Variables (l1 l2 l3 l4 l5 : Node) (kids : list string).
Hypothesis Hul : tagName d = "UL".
Hypothesis H1 : Fixtures.isItemNode kids l1.
Hypothesis H2 : Fixtures.isItemNode kids l2.
Hypothesis H3 : Fixtures.isItemNode kids l3.
Hypothesis H4 : Fixtures.isItemNode kids l4.
Hypothesis H5 : Fixtures.isItemNode kids l5.

Let ul : Element := mkElement (mkNode d [l1; l2; l3; l4; l5]) (f :: fs).
Let third : Element :=
  mkElement l3 (mkFrame d [l2; l1] [l4; l5] :: f :: fs).

Hypothesis Hbody :
  isDocumentBody (mkElement (plug f (mkNode d [l1; l2; l3; l4; l5])) fs)
  = true.

Lemma scenario_ul_not_body : isDocumentBody ul = false.
Proof.
  apply (child_of_body_not_body ul
           (mkElement (plug f (mkNode d [l1; l2; l3; l4; l5])) fs));
    [reflexivity | exact Hbody].
Qed.

Lemma scenario_ul_container : isLikelyContainer ul = true.
Proof.
  unfold isLikelyContainer, ul, elTagName. simpl. rewrite Hul. reflexivity.
Qed.

Lemma scenario_similarAmong :
  length (similarAmong third (children ul)) = 4.
Proof.
  unfold similarAmong, ul, third, children. simpl childrenFrom.
  cbn [List.filter].
  rewrite !sameElement_siblings.
  rewrite !(calculateSimilarity_item_nodes kids) by assumption.
  reflexivity.
Qed.

Lemma scenario_structure :
  Structure.siblings (analyzeStructure third) = 5
  /\ Structure.similarSiblings (analyzeStructure third) = 4
  /\ Structure.isRepeating (analyzeStructure third) = true.
Proof.
  unfold analyzeStructure.
  assert (Hanc : ancestors third
                 = ul :: mkElement (plug f (mkNode d [l1; l2; l3; l4; l5])) fs
                      :: ancestors (mkElement (plug f (mkNode d [l1; l2; l3; l4; l5])) fs))
    by reflexivity.
  rewrite Hanc. cbn [analyzeStructureLoop].
  rewrite scenario_ul_not_body, Hbody, scenario_similarAmong.
  cbn. auto.
Qed.

Lemma scenario_container :
  findClosestStructuralContainer third = Some ul.
Proof.
  unfold findClosestStructuralContainer.
  assert (Hanc : ancestors third = ul :: ancestors ul) by reflexivity.
  rewrite Hanc. cbn [findClosestLoop].
  rewrite scenario_ul_not_body, scenario_ul_container. reflexivity.
Qed.

Lemma scenario_third_tag : elTagName third = "LI".
Proof. exact (proj1 (item_element kids l3 _ H3)). Qed.

Lemma scenario_findPatterns (a : Analyzer) (candidates : list Element) :
  querySelectorAll ul "LI" = Ok candidates ->
  exists p, findPatterns third a = (Ok p, a).
Proof.
  intros Hq. unfold findPatterns, findSimilarStructures, bind, lift, ret.
  rewrite scenario_container, scenario_third_tag, Hq.
  eexists. reflexivity.
Qed.

Lemma scenario_findRelationships (a : Analyzer) :
  relationshipCache a !! ref third = None ->
  exists a',
    findRelationships third a
    = (Ok ((similarChildren third ul ++ others third (children ul))%list), a').
Proof.
  intros Hmiss.
  unfold findRelationships, bind, cacheGet, read. rewrite Hmiss.
  unfold countContainerSearch, countSimilarityCalls, update.
  rewrite scenario_container.
  unfold findSemanticRelationships, bind, ret.
  unfold isHTMLInputElement, isHTMLTableCellElement, isHTMLLIElement.
  rewrite scenario_third_tag. cbn [String.eqb Ascii.eqb Bool.eqb andb orb].
  assert (Hp : parentElement third = Some ul) by reflexivity.
  rewrite Hp. unfold cacheSet, update. eexists. reflexivity.
Qed.

Lemma scenario_others (i : nat) (other : Element) :
  i <> 2 ->
  nth_error (children ul) i = Some other ->
  In (ref other) (others third (children ul)).
Proof.
  intros Hi Hnth. unfold others.
  apply in_map. apply filter_In. split.
  - exact (nth_error_In _ _ Hnth).
  - unfold ul, children in Hnth. simpl childrenFrom in Hnth.
    do 5 (destruct i as [|i];
          [try (exfalso; apply Hi; reflexivity);
           injection Hnth as <-; unfold third;
           rewrite sameElement_siblings; reflexivity|]);
      simpl in Hnth.
    destruct i; discriminate.
Qed.

End ListScenario.

End ScenarioFacts.

(** C4, as the code has it. In a document whose body has, as a direct
    child, a [<ul>] with exactly five [<li class="item">] children of the
    same child structure, [analyzeElement] on the third item, with nothing
    cached for it and a selector engine that answers the type query,
    returns a report whose structure has [siblings] 5, [similarSiblings] 4
    and [isRepeating] true, and whose relationships contain each of the
    other four items. *)
Theorem analyzeElement_third_of_five_items (host : Host)
    (ul body third : Element) (kids : list string) (a : Analyzer)
    (candidates : list Element) :
  elTagName ul = "UL" ->
  length (childNodes (focus ul)) = 5 ->
  Forall (Fixtures.isItemNode kids) (childNodes (focus ul)) ->
  parentElement ul = Some body ->
  isDocumentBody body = true ->
  nth_error (children ul) 2 = Some third ->
  relationshipCache a !! ref third = None ->
  querySelectorAll ul "LI" = Ok candidates ->
  exists rep s a',
    ElementAnalyzer.analyzeElement (JsHTMLElement third) a = (Ok rep, a')
    /\ Report.structure rep = Some s
    /\ Structure.siblings s = 5
    /\ Structure.similarSiblings s = 4
    /\ Structure.isRepeating s = true
    /\ (forall i other,
          i <> 2 ->
          nth_error (children ul) i = Some other ->
          In (ref other) (Report.relationships rep)).
Proof.
  intros Hul Hlen Hitems Hparent Hbody Hthird Hmiss Hq.
  destruct ul as [[d cs] [|f fs]]; [discriminate|].
  unfold elTagName in Hul. simpl in Hul, Hlen, Hitems.
  destruct cs as [|l1 [|l2 [|l3 [|l4 [|l5 [|l6 cs]]]]]]; try discriminate.
  inversion Hitems as [|? ? H1 Hi1]; subst.
  inversion Hi1 as [|? ? H2 Hi2]; subst.
  inversion Hi2 as [|? ? H3 Hi3]; subst.
  inversion Hi3 as [|? ? H4 Hi4]; subst.
  inversion Hi4 as [|? ? H5 Hi5]; subst.
  injection Hparent as <-. injection Hthird as <-.
  destruct (scenario_findPatterns d f fs l1 l2 l3 l4 l5 kids Hul H3 Hbody
              a candidates Hq) as [p Hp].
  destruct (scenario_findRelationships d f fs l1 l2 l3 l4 l5 kids Hul H3
              Hbody a Hmiss) as [a' Hr].
  destruct (scenario_structure d f fs l1 l2 l3 l4 l5 kids H1 H2 H3 H4 H5
              Hbody) as (Hs1 & Hs2 & Hs3).
  eexists; eexists; exists a'.
  split.
  - unfold ElementAnalyzer.analyzeElement, tryCatch,
      ElementAnalyzer.analysisBody, bind.
    rewrite Hp, Hr. reflexivity.
  - split; [reflexivity|].
    split; [exact Hs1|]. split; [exact Hs2|]. split; [exact Hs3|].
    intros i other Hi Hnth. cbn [Report.relationships].
    apply in_or_app. right.
    exact (scenario_others d f fs l1 l2 l3 l4 l5 i other Hi Hnth).
Qed.

(** The list fixture: [<body><ul>] with five [<li class="item">]. *)
Lemma analyzeElement_third_of_five_items_witness :
  exists rep s a',
    ElementAnalyzer.analyzeElement (host := Fixtures.fixtureHost)
      (JsHTMLElement Fixtures.thirdItem) newAnalyzer = (Ok rep, a')
    /\ Report.structure rep = Some s
    /\ Structure.siblings s = 5
    /\ Structure.similarSiblings s = 4
    /\ Structure.isRepeating s = true
    /\ (forall i other,
          i <> 2 ->
          nth_error
            (children (Fixtures.orElse (parentElement Fixtures.thirdItem)
                                       Fixtures.item)) i = Some other ->
          In (ref other) (Report.relationships rep)).
Proof.
  apply (analyzeElement_third_of_five_items Fixtures.fixtureHost
           (Fixtures.orElse (parentElement Fixtures.thirdItem) Fixtures.item)
           (Fixtures.orElse (elementAt Fixtures.listPage [1]) Fixtures.item)
           Fixtures.thirdItem [] newAnalyzer
           (children (Fixtures.orElse (parentElement Fixtures.thirdItem)
                                      Fixtures.item))).
  - vm_compute; reflexivity.
  - vm_compute; reflexivity.
  - vm_compute.
    repeat (constructor; [repeat split; reflexivity|]). constructor.
  - vm_compute; reflexivity.
  - vm_compute; reflexivity.
  - vm_compute; reflexivity.
  - vm_compute; reflexivity.
  - vm_compute; reflexivity.
Defined.

(** C4 fails as stated. With the same list one level down, in
    [<body><div><ul>], the walk goes on to the [<ul>] inside the [<div>]
    and ends with the counts of that level: one sibling, none similar,
    not repeating. *)
Lemma analyzeElement_nested_list_counterexample :
  (exists ul,
      parentElement Fixtures.nestedThirdItem = Some ul
      /\ elTagName ul = "UL"
      /\ length (children ul) = 5
      /\ Forall (Fixtures.isItemNode []) (childNodes (focus ul))
      /\ nth_error (children ul) 2 = Some Fixtures.nestedThirdItem)
  /\ Fixtures.reportedStructure
       (ElementAnalyzer.analyzeElement (host := Fixtures.fixtureHost)
          (JsHTMLElement Fixtures.nestedThirdItem) newAnalyzer)
     = Some (Structure.mk 2 1 0 0 false (Some "div{ul}") None).
Proof.
  split; [|vm_compute; reflexivity].
  eexists. split; [vm_compute; reflexivity|].
  split; [vm_compute; reflexivity|].
  split; [vm_compute; reflexivity|].
  split; [|vm_compute; reflexivity].
  vm_compute. repeat (constructor; [repeat split; reflexivity|]). constructor.
Qed.

(** * Further properties of the analyzer *)

(** ** Class sets *)

Section ClassSetFacts.

Lemma arrayIncludes_iff (l : list string) (c : string) :
  JsString.arrayIncludes l c = true <-> In c l.
Proof.
  unfold JsString.arrayIncludes. rewrite existsb_exists. split.
  - intros (x & Hx & Heq). apply String.eqb_eq in Heq. subst. exact Hx.
  - intros Hc. exists c. split; [exact Hc | apply String.eqb_refl].
Qed.

Lemma uniqFrom_spec (seen l : list string) :
  List.NoDup (JsString.uniqFrom seen l)
  /\ (forall x, In x (JsString.uniqFrom seen l) <-> In x l /\ ~ In x seen).
Proof.
  revert seen. induction l as [|y l IH]; intros seen; simpl.
  - split; [constructor|]. intros x. tauto.
  - destruct (JsString.arrayIncludes seen y) eqn:Hy.
    + apply arrayIncludes_iff in Hy.
      destruct (IH seen) as [Hnd Hin]. split; [exact Hnd|].
      intros x. rewrite Hin. split.
      * intros [H1 H2]. auto.
      * intros [[->|H1] H2]; [contradiction|auto].
    + assert (Hy' : ~ In y seen).
      { intros Hc. apply arrayIncludes_iff in Hc. congruence. }
      destruct (IH (y :: seen)) as [Hnd Hin]. split.
      * constructor; [|exact Hnd]. rewrite Hin. simpl. tauto.
      * intros x. simpl. rewrite Hin. simpl.
        destruct (string_dec y x) as [->|Hne]; tauto.
Qed.

Lemma uniq_NoDup (l : list string) : List.NoDup (JsString.uniq l).
Proof. exact (proj1 (uniqFrom_spec [] l)). Qed.

Lemma uniq_In (l : list string) (x : string) :
  In x (JsString.uniq l) <-> In x l.
Proof.
  unfold JsString.uniq. rewrite (proj2 (uniqFrom_spec [] l)). simpl. tauto.
Qed.

Lemma NoDup_filter_bool {A : Type} (p : A -> bool) (l : list A) :
  List.NoDup l -> List.NoDup (List.filter p l).
Proof.
  induction 1 as [|x l Hx Hnd IH]; simpl; [constructor|].
  destruct (p x); [|exact IH].
  constructor; [|exact IH]. rewrite filter_In. tauto.
Qed.

(** Two duplicate-free lists have as many members of the one in the other
    as the other way round. *)
Lemma common_length_sym (l1 l2 : list string) :
  List.NoDup l1 -> List.NoDup l2 ->
  length (List.filter (fun c => JsString.arrayIncludes l2 c) l1)
  = length (List.filter (fun c => JsString.arrayIncludes l1 c) l2).
Proof.
  intros H1 H2.
  apply Permutation.Permutation_length.
  apply Permutation.NoDup_Permutation.
  - apply NoDup_filter_bool. exact H1.
  - apply NoDup_filter_bool. exact H2.
  - intros x. rewrite !filter_In, !arrayIncludes_iff. tauto.
Qed.

End ClassSetFacts.

Section SimilarityMore.

Import ElementAnalyzer.

Lemma classOverlap_sym (el1 el2 : Element) :
  classOverlap el1 el2 = classOverlap el2 el1.
Proof.
  unfold classOverlap.
  rewrite (common_length_sym _ _ (uniq_NoDup (classList el1))
             (uniq_NoDup (classList el2))).
  rewrite Nat.max_comm. reflexivity.
Qed.

(** X1. The score is symmetric, exactly: comparing [el1] with [el2] gives
    the same number (or NaN on both sides) as comparing [el2] with
    [el1]. *)
Theorem calculateSimilarity_sym (el1 el2 : Element) :
  calculateSimilarity el1 el2 = calculateSimilarity el2 el1.
Proof.
  unfold calculateSimilarity.
  rewrite (classOverlap_sym el1 el2).
  rewrite (String.eqb_sym (elTagName el1) (elTagName el2)).
  rewrite (String.eqb_sym (generateStructureSignature el1)
             (generateStructureSignature el2)).
  reflexivity.
Qed.

End SimilarityMore.

Section SimilarityThresholds.

Import ElementAnalyzer.

Lemma classOverlap_same_classes (el1 el2 : Element) :
  classList el1 = classList el2 ->
  classList el1 <> [] ->
  (Z.of_nat (length (classList el1)) < 2 ^ 53)%Z ->
  classOverlap el1 el2 = JsNumber.one.
Proof.
  intros Heq Hne Hlt. unfold classOverlap. rewrite <- Heq. cbv zeta.
  rewrite filter_all by (intros c Hc; apply arrayIncludes_In; exact Hc).
  rewrite Nat.max_id.
  apply div_ofNat_self.
  - apply uniq_length_pos. exact Hne.
  - pose proof (uniqFrom_length [] (classList el1)) as Hle.
    unfold JsString.uniq. lia.
Qed.

(** X2. Two elements with the same tag name, the same class string (with
    at least one class, and fewer than 2^53 of them) and the same sequence
    of child tags score exactly 1.0, which is above both thresholds. *)
Theorem calculateSimilarity_same_shape (el1 el2 : Element) :
  elTagName el1 = elTagName el2 ->
  className el1 = className el2 ->
  map (fun c => tagName (data c)) (childNodes (focus el1))
  = map (fun c => tagName (data c)) (childNodes (focus el2)) ->
  classList el1 <> [] ->
  (Z.of_nat (length (classList el1)) < 2 ^ 53)%Z ->
  calculateSimilarity el1 el2 = JsNumber.one
  /\ JsNumber.gt (calculateSimilarity el1 el2) JsNumber.lit_0_8 = true
  /\ JsNumber.gt (calculateSimilarity el1 el2) JsNumber.lit_0_5 = true.
Proof.
  intros Ht Hc Hk Hne Hlt.
  assert (Hone : calculateSimilarity el1 el2 = JsNumber.one).
  { unfold calculateSimilarity.
    rewrite (generateStructureSignature_eq el1 el2 Ht Hc Hk).
    rewrite Ht, !String.eqb_refl.
    rewrite (classOverlap_same_classes el1 el2); [vm_compute; reflexivity| |exact Hne|exact Hlt].
    unfold classList. rewrite Hc. reflexivity. }
  rewrite Hone. repeat split; vm_compute; reflexivity.
Qed.

Lemma calculateSimilarity_same_shape_witness :
  calculateSimilarity Fixtures.sessionThird Fixtures.thirdItem = JsNumber.one.
Proof.
  apply (calculateSimilarity_same_shape Fixtures.sessionThird
           Fixtures.thirdItem).
  - vm_compute; reflexivity.
  - vm_compute; reflexivity.
  - vm_compute; reflexivity.
  - vm_compute; discriminate.
  - vm_compute; reflexivity.
Defined.

(** With no class on one side no class is common: the class term is 0
    divided by the larger size, which is 0, or NaN when that size is 0
    too. *)
Lemma div_zero_cases (y : JsNumber.number) :
  JsNumber.div JsNumber.zero y = JsNumber.NaN
  \/ JsNumber.div JsNumber.zero y = S754_zero false
  \/ JsNumber.div JsNumber.zero y = S754_zero true.
Proof.
  destruct y as [s|s| |s m e]; try destruct s; vm_compute; auto.
Qed.

Lemma classOverlap_no_common (el1 el2 : Element) :
  classList el1 = [] \/ classList el2 = [] ->
  classOverlap el1 el2 = JsNumber.NaN
  \/ classOverlap el1 el2 = S754_zero false
  \/ classOverlap el1 el2 = S754_zero true.
Proof.
  intros Hnone. unfold classOverlap. cbv zeta.
  assert (Hcommon :
            List.filter
              (fun c => JsString.arrayIncludes (JsString.uniq (classList el2)) c)
              (JsString.uniq (classList el1)) = []).
  { destruct Hnone as [H|H]; rewrite H; [reflexivity|].
    induction (JsString.uniq (classList el1)); [reflexivity|exact IHl]. }
  rewrite Hcommon. apply div_zero_cases.
Qed.

Lemma calculateSimilarity_no_common (el1 el2 : Element) :
  classList el1 = [] \/ classList el2 = [] ->
  JsNumber.gt (calculateSimilarity el1 el2) JsNumber.lit_0_8 = false.
Proof.
  intros Hnone. unfold calculateSimilarity.
  destruct (classOverlap_no_common el1 el2 Hnone) as [H|[H|H]]; rewrite H;
    destruct (String.eqb (elTagName el1) (elTagName el2));
    destruct (String.eqb (generateStructureSignature el1)
                (generateStructureSignature el2));
    vm_compute; reflexivity.
Qed.

Lemma identifyPatternGroupLoop_none (element : Element)
    (containers : list Element) :
  (forall siblings, similarAmong element siblings = []) ->
  identifyPatternGroupLoop element containers = None.
Proof.
  intros Hnone. induction containers as [|c rest IH]; simpl; [reflexivity|].
  destruct (isDocumentBody c); [reflexivity|].
  rewrite Hnone. simpl. rewrite andb_false_r. exact IH.
Qed.

(** X3. An element without classes is never found similar: its score
    against any element stays at or below 0.8 (it is NaN, or at most 2/3),
    so [similarAmong] keeps no sibling and [identifyPatternGroup] returns
    [null]. *)
Theorem classless_element_never_similar (element : Element) :
  classList element = [] ->
  (forall other,
      JsNumber.gt (calculateSimilarity element other) JsNumber.lit_0_8 = false
      /\ JsNumber.gt (calculateSimilarity other element) JsNumber.lit_0_8
         = false)
  /\ (forall siblings, similarAmong element siblings = [])
  /\ identifyPatternGroup element = None.
Proof.
  intros Hcl.
  assert (Hsim : forall siblings, similarAmong element siblings = []).
  { intros siblings. unfold similarAmong.
    induction siblings as [|s l IH]; simpl; [reflexivity|].
    rewrite (calculateSimilarity_no_common element s (or_introl Hcl)).
    rewrite andb_false_r. exact IH. }
  split; [|split; [exact Hsim|]].
  - intros other. split.
    + apply calculateSimilarity_no_common. left; exact Hcl.
    + apply calculateSimilarity_no_common. right; exact Hcl.
  - apply identifyPatternGroupLoop_none. exact Hsim.
Qed.

Lemma classless_element_never_similar_witness :
  similarAmong Fixtures.firstPlain (getContextElements Fixtures.firstPlain)
  = []
  /\ length (getContextElements Fixtures.firstPlain) = 2.
Proof.
  split; [|vm_compute; reflexivity].
  apply (classless_element_never_similar Fixtures.firstPlain).
  vm_compute; reflexivity.
Defined.

End SimilarityThresholds.

(** ** Ancestors and the body *)

Section AncestorFacts.

Lemma ancestors_cons_inv (e a : Element) (l : list Element) :
  ancestors e = a :: l -> parentElement e = Some a /\ ancestors a = l.
Proof.
  unfold ancestors, parentElement.
  destruct e as [n [|f fs]]; simpl; intros H; [discriminate|].
  injection H as <- <-. split; reflexivity.
Qed.

(** Every ancestor lives in the same document and is strictly higher in
    the tree. *)
Lemma ancestors_above (y x : Element) :
  In x (ancestors y) ->
  documentBody y = documentBody x /\ (length (ref x) < length (ref y))%nat.
Proof.
  remember (ancestors y) as l eqn:Hl. revert y Hl.
  induction l as [|a l IH]; intros y Hl Hin; [contradiction|].
  symmetry in Hl. destruct (ancestors_cons_inv y a l Hl) as [Hp Ha].
  pose proof (documentBody_parent y a Hp) as Hdoc.
  destruct (ref_parent y a Hp) as [i Hi].
  destruct Hin as [->|Hin].
  - split; [exact Hdoc|]. rewrite Hi. simpl. lia.
  - destruct (IH a (eq_sym Ha) Hin) as [Hd Hlen].
    split; [congruence|]. rewrite Hi. simpl. lia.
Qed.

(** What lies below the body is not the body. *)
Lemma below_body_not_body (y body : Element) :
  In body (ancestors y) -> isDocumentBody body = true ->
  isDocumentBody y = false.
Proof.
  intros Hin Hb. destruct (ancestors_above y body Hin) as [Hdoc Hlen].
  unfold isDocumentBody in *. rewrite Hdoc.
  destruct (documentBody body) as [b|]; [|reflexivity].
  unfold sameElement in *. apply bool_decide_eq_true in Hb.
  apply bool_decide_eq_false. intros Heq. rewrite Heq, Hb in Hlen. lia.
Qed.

(** In the chain of an element and its ancestors, what follows an entry
    is the chain of ancestors of that entry. *)
Lemma chain_suffix (y x : Element) (pre post : list Element) :
  y :: ancestors y = pre ++ x :: post -> ancestors x = post.
Proof.
  revert y. induction pre as [|p pre IH]; intros y H; simpl in H.
  - injection H as -> <-. reflexivity.
  - injection H as -> H.
    destruct pre as [|a pre'].
    + simpl in H. exact (proj2 (ancestors_cons_inv p x post H)).
    + simpl in H.
      destruct (ancestors_cons_inv p a _ H) as [_ Ha].
      apply (IH a). simpl. rewrite Ha. reflexivity.
Qed.

Lemma chain_below_body (y body : Element) (pre post : list Element) :
  y :: ancestors y = pre ++ body :: post ->
  isDocumentBody body = true ->
  forall x, In x pre -> isDocumentBody x = false.
Proof.
  intros Hchain Hb x Hx.
  apply in_split in Hx. destruct Hx as (p1 & p2 & ->).
  rewrite <- app_assoc in Hchain. simpl in Hchain.
  pose proof (chain_suffix y x p1 _ Hchain) as Hanc.
  apply (below_body_not_body x body); [|exact Hb].
  rewrite Hanc. apply in_or_app. right. left. reflexivity.
Qed.

End AncestorFacts.

Section StructureMore.

Import ElementAnalyzer.

Lemma analyzeStructureLoop_step (current parent : Element)
    (rest : list Element) (s : Structure.t) :
  analyzeStructureLoop current (parent :: rest) s
  = if isDocumentBody parent then s
    else analyzeStructureLoop parent rest
           (Structure.mk (S (Structure.depth s)) (length (children parent))
              (length (similarAmong current (children parent)))
              (Structure.children s) (Structure.isRepeating s)
              (if isLikelyContainer parent
               then Some (getContainerSignature parent)
               else Structure.containerId s)
              (Structure.patternGroup s)).
Proof. reflexivity. Qed.

Lemma analyzeStructureLoop_outermost (cur top body : Element)
    (rest below : list Element) :
  isDocumentBody body = true ->
  forall (current : Element) (parents : list Element) (s : Structure.t),
    current :: parents = below ++ cur :: top :: body :: rest ->
    (forall x, In x (below ++ [cur; top]) -> isDocumentBody x = false) ->
    Structure.depth (analyzeStructureLoop current parents s)
    = (Structure.depth s + length below + 1)%nat
    /\ Structure.siblings (analyzeStructureLoop current parents s)
       = length (children top)
    /\ Structure.similarSiblings (analyzeStructureLoop current parents s)
       = length (similarAmong cur (children top)).
Proof.
  intros Hb. induction below as [|b below IH]; intros current parents s Hch Hnb.
  - simpl in Hch. injection Hch as -> ->.
    rewrite !analyzeStructureLoop_step.
    rewrite (Hnb top) by (simpl; auto). rewrite Hb. simpl.
    repeat split; lia.
  - simpl in Hch. injection Hch as -> Hpar.
    assert (Hhd : exists p ps, parents = p :: ps
                               /\ In p (below ++ [cur; top])).
    { destruct below as [|p below']; simpl in Hpar; subst parents;
        eexists; eexists; (split; [reflexivity|simpl; auto]). }
    destruct Hhd as (p & ps & -> & Hp).
    rewrite analyzeStructureLoop_step.
    rewrite (Hnb p) by (simpl; right; exact Hp).
    edestruct (IH p ps) as (H1 & H2 & H3);
      [exact Hpar| |rewrite H1, H2, H3; simpl; repeat split; lia].
    intros x Hx. apply Hnb. simpl. right. exact Hx.
Qed.

(** X4. The counts reported by [analyzeStructure] are those of the
    outermost level below the body.  Let [top] be the ancestor whose parent
    is the body and [cur] the child of [top] on the path from the element
    (the element itself when [below] is empty).  Then [siblings] is the
    number of children of [top], [similarSiblings] counts the children of
    [top] similar to [cur], and [depth] is the number of ancestors below
    the body. *)
Theorem analyzeStructure_outermost_level (element cur top body : Element)
    (below rest : list Element) :
  element :: ancestors element = below ++ cur :: top :: body :: rest ->
  isDocumentBody body = true ->
  Structure.depth (analyzeStructure element) = S (length below)
  /\ Structure.siblings (analyzeStructure element) = length (children top)
  /\ Structure.similarSiblings (analyzeStructure element)
     = length (similarAmong cur (children top))
  /\ Structure.isRepeating (analyzeStructure element)
     = (0 <? length (similarAmong cur (children top)))%nat.
Proof.
  intros Hch Hb.
  assert (Hnb : forall x, In x (below ++ [cur; top]) ->
                          isDocumentBody x = false).
  { apply (chain_below_body element body (below ++ [cur; top]) rest);
      [|exact Hb].
    rewrite <- app_assoc. exact Hch. }
  destruct (analyzeStructureLoop_outermost cur top body rest below Hb
              element (ancestors element)
              (Structure.mk 0 0 0 (length (children element)) false None None)
              Hch Hnb) as (H1 & H2 & H3).
  unfold analyzeStructure. cbn [Structure.depth Structure.siblings
    Structure.similarSiblings Structure.isRepeating].
  rewrite H1, H2, H3. simpl. repeat split; lia.
Qed.

Lemma analyzeStructure_outermost_level_witness :
  Structure.siblings (analyzeStructure Fixtures.nestedThirdItem) = 1
  /\ Structure.depth (analyzeStructure Fixtures.nestedThirdItem) = 2.
Proof.
  destruct (analyzeStructure_outermost_level Fixtures.nestedThirdItem
              (Fixtures.orElse (elementAt Fixtures.nestedListPage [1; 0; 0])
                 Fixtures.item)
              (Fixtures.orElse (elementAt Fixtures.nestedListPage [1; 0])
                 Fixtures.item)
              (Fixtures.orElse (elementAt Fixtures.nestedListPage [1])
                 Fixtures.item)
              [Fixtures.nestedThirdItem]
              [Fixtures.orElse (elementAt Fixtures.nestedListPage [])
                 Fixtures.item])
    as (H1 & H2 & _).
  - vm_compute; reflexivity.
  - vm_compute; reflexivity.
  - rewrite H1, H2. split; vm_compute; reflexivity.
Defined.

End StructureMore.

(** ** Container search and relationships *)

Section ContainerSearchFacts.

Import ElementAnalyzer.

Lemma findClosestLoop_some (candidates : list Element) (c : Element) :
  findClosestLoop candidates = Some c ->
  In c candidates /\ isLikelyContainer c = true /\ isDocumentBody c = false.
Proof.
  induction candidates as [|x l IH]; simpl; [discriminate|].
  destruct (isDocumentBody x) eqn:Hb; [discriminate|].
  destruct (isLikelyContainer x) eqn:Hc.
  - intros H. injection H as <-. auto.
  - intros H. destruct (IH H) as (H1 & H2 & H3). auto.
Qed.

(** X5. The container found for an element is either one of its proper
    ancestors, classified as a container and not the body, or the body of
    the document; when the parent is not the body and is classified as a
    container, it is the parent; and nothing is found only in a document
    without a body. *)
Theorem findClosestStructuralContainer_spec (element : Element) :
  (forall c,
      findClosestStructuralContainer element = Some c ->
      (In c (ancestors element) /\ isLikelyContainer c = true
       /\ isDocumentBody c = false)
      \/ documentBody element = Some c)
  /\ (forall p,
        parentElement element = Some p ->
        isDocumentBody p = false ->
        isLikelyContainer p = true ->
        findClosestStructuralContainer element = Some p)
  /\ (findClosestStructuralContainer element = None ->
      documentBody element = None).
Proof.
  unfold findClosestStructuralContainer. split; [|split].
  - intros c.
    destruct (findClosestLoop (ancestors element)) as [c'|] eqn:Hl.
    + intros H. injection H as <-. left.
      exact (findClosestLoop_some _ _ Hl).
    + intros H. right. exact H.
  - intros p Hp Hb Hc. rewrite (ancestors_parent element p Hp). simpl.
    rewrite Hb, Hc. reflexivity.
  - destruct (findClosestLoop (ancestors element)); [discriminate|].
    intros H. exact H.
Qed.

End ContainerSearchFacts.

Section RelationshipMore.

Context `{host : Host}.

Import ElementAnalyzer.

Lemma others_spec (element : Element) (l : list Element) (r : Ref) :
  In r (others element l)
  <-> exists x, In x l /\ ref x = r /\ ref x <> ref element.
Proof.
  unfold others. rewrite in_map_iff. split.
  - intros (x & Hr & Hx). apply filter_In in Hx. destruct Hx as [Hx Hs].
    exists x. repeat split; [exact Hx|exact Hr|].
    unfold sameElement in Hs. apply negb_true_iff in Hs.
    apply bool_decide_eq_false in Hs. exact Hs.
  - intros (x & Hx & Hr & Hne). exists x. split; [exact Hr|].
    apply filter_In. split; [exact Hx|].
    unfold sameElement. apply negb_true_iff.
    apply bool_decide_eq_false. exact Hne.
Qed.

Lemma similarChildren_not_self (element container : Element) (r : Ref) :
  In r (similarChildren element container) -> r <> ref element.
Proof.
  unfold similarChildren, comparedChildren. rewrite in_map_iff.
  intros (x & Hr & Hx). apply filter_In in Hx. destruct Hx as [Hx _].
  apply filter_In in Hx. destruct Hx as [_ Hs].
  unfold sameElement in Hs. apply negb_true_iff in Hs.
  apply bool_decide_eq_false in Hs. congruence.
Qed.

(** The scan of [findRelationships] on a miss, for an element that is not
    an input: what it returns and what it leaves in the analyzer. *)
Lemma findRelationships_miss_not_input (element container : Element)
    (a : Analyzer) :
  relationshipCache a !! ref element = None ->
  findClosestStructuralContainer element = Some container ->
  isHTMLInputElement element = false ->
  let counted :=
    mkAnalyzer (patterns a) (relationshipCache a)
      (mkProbe (S (containerSearches (probe a)))
         (length (comparedChildren element container)
          + similarityCalls (probe a))) in
  let finish (r : list Ref) :=
    (Ok r, mkAnalyzer (patterns a)
             (<[ref element := r]> (relationshipCache a)) (probe counted)) in
  findRelationships element a
  = if isHTMLTableCellElement element
    then match parentElement element with
         | Some row =>
             if isHTMLTableRowElement row
             then finish (similarChildren element container
                          ++ others element (cells row))
             else (Throw (TypeError "undefined is not iterable"), counted)
         | None => finish (similarChildren element container)
         end
    else if isHTMLLIElement element
         then match parentElement element with
              | Some list =>
                  finish (similarChildren element container
                          ++ others element (children list))
              | None => finish (similarChildren element container)
              end
         else finish (similarChildren element container).
Proof.
  intros Hmiss Hc Hin. cbv zeta.
  unfold findRelationships, bind, cacheGet, read. rewrite Hmiss.
  unfold countContainerSearch, countSimilarityCalls, update. rewrite Hc.
  unfold findSemanticRelationships, bind, ret, throw, lift.
  rewrite Hin. cbn [andb].
  assert (Hli : isHTMLTableCellElement element = true ->
                isHTMLLIElement element = false).
  { unfold isHTMLTableCellElement, isHTMLLIElement.
    intros H. apply orb_true_iff in H.
    destruct H as [H|H]; apply String.eqb_eq in H; rewrite H; reflexivity. }
  destruct (isHTMLTableCellElement element) eqn:Hcell.
  - rewrite (Hli eq_refl).
    destruct (parentElement element) as [row|]; [|reflexivity].
    destruct (isHTMLTableRowElement row); reflexivity.
  - destruct (isHTMLLIElement element); [|reflexivity].
    destruct (parentElement element); reflexivity.
Qed.

Lemma findRelationships_miss_no_container (element : Element)
    (a : Analyzer) :
  relationshipCache a !! ref element = None ->
  findClosestStructuralContainer element = None ->
  findRelationships element a
  = (Ok [], mkAnalyzer (patterns a)
              (<[ref element := []]> (relationshipCache a))
              (mkProbe (S (containerSearches (probe a)))
                 (similarityCalls (probe a)))).
Proof.
  intros Hmiss Hc.
  unfold findRelationships, bind, cacheGet, read. rewrite Hmiss.
  unfold countContainerSearch, update. rewrite Hc. reflexivity.
Qed.

Lemma li_not_input (element : Element) :
  isHTMLLIElement element = true -> isHTMLInputElement element = false.
Proof.
  unfold isHTMLLIElement, isHTMLInputElement. intros H.
  apply String.eqb_eq in H. rewrite H. reflexivity.
Qed.

Lemma li_not_cell (element : Element) :
  isHTMLLIElement element = true -> isHTMLTableCellElement element = false.
Proof.
  unfold isHTMLLIElement, isHTMLTableCellElement. intros H.
  apply String.eqb_eq in H. rewrite H. reflexivity.
Qed.

Lemma cell_not_input (element : Element) :
  isHTMLTableCellElement element = true ->
  isHTMLInputElement element = false.
Proof.
  unfold isHTMLTableCellElement, isHTMLInputElement. intros H.
  apply orb_true_iff in H.
  destruct H as [H|H]; apply String.eqb_eq in H; rewrite H; reflexivity.
Qed.

(** X6. On a cache miss, for an element that is not an input, the
    sequence returned by [findRelationships] never contains the element
    itself. *)
Theorem findRelationships_excludes_element (element : Element)
    (a a' : Analyzer) (r : list Ref) :
  relationshipCache a !! ref element = None ->
  isHTMLInputElement element = false ->
  findRelationships element a = (Ok r, a') ->
  ~ In (ref element) r.
Proof.
  intros Hmiss Hin Hres Hself.
  assert (Hsim : forall c, ~ In (ref element) (similarChildren element c)).
  { intros c Hc. exact (similarChildren_not_self element c _ Hc eq_refl). }
  assert (Hoth : forall l, ~ In (ref element) (others element l)).
  { intros l Hl. apply others_spec in Hl.
    destruct Hl as (x & _ & Hr & Hne). congruence. }
  destruct (findClosestStructuralContainer element) as [c|] eqn:Hc.
  - rewrite (findRelationships_miss_not_input element c a Hmiss Hc Hin)
      in Hres.
    cbv zeta in Hres.
    destruct (isHTMLTableCellElement element).
    + destruct (parentElement element) as [row|].
      * destruct (isHTMLTableRowElement row); [|discriminate].
        injection Hres as <- _. apply in_app_or in Hself.
        destruct Hself as [H|H]; [exact (Hsim _ H)|exact (Hoth _ H)].
      * injection Hres as <- _. exact (Hsim _ Hself).
    + destruct (isHTMLLIElement element).
      * destruct (parentElement element) as [list|].
        -- injection Hres as <- _. apply in_app_or in Hself.
           destruct Hself as [H|H]; [exact (Hsim _ H)|exact (Hoth _ H)].
        -- injection Hres as <- _. exact (Hsim _ Hself).
      * injection Hres as <- _. exact (Hsim _ Hself).
  - rewrite (findRelationships_miss_no_container element a Hmiss Hc) in Hres.
    injection Hres as <- _. exact Hself.
Qed.

(** X7. For a list item with a container, on a cache miss,
    [findRelationships] returns the similar children of the container
    followed by every other child of the item's parent, and caches that
    sequence; when the container is the parent itself, each similar
    sibling is therefore listed twice. *)
Theorem findRelationships_list_item (element list container : Element)
    (a : Analyzer) :
  isHTMLLIElement element = true ->
  parentElement element = Some list ->
  findClosestStructuralContainer element = Some container ->
  relationshipCache a !! ref element = None ->
  exists a',
    findRelationships element a
    = (Ok (similarChildren element container
           ++ others element (children list)), a')
    /\ relationshipCache a' !! ref element
       = Some (similarChildren element container
               ++ others element (children list))
    /\ (forall sibling,
          In sibling (children list) ->
          ref sibling <> ref element ->
          In (ref sibling)
             (similarChildren element container
              ++ others element (children list)))
    /\ (forall r,
          In r (similarChildren element list) ->
          In r (others element (children list))).
Proof.
  intros Hli Hp Hc Hmiss.
  rewrite (findRelationships_miss_not_input element container a Hmiss Hc
             (li_not_input element Hli)).
  cbv zeta. rewrite (li_not_cell element Hli), Hli, Hp.
  eexists. split; [reflexivity|]. split; [|split].
  - cbn [relationshipCache]. apply lookup_insert_eq.
  - intros sibling Hs Hne. apply in_or_app. right.
    apply others_spec. exists sibling. auto.
  - intros r Hr. unfold similarChildren, comparedChildren in Hr.
    apply in_map_iff in Hr. destruct Hr as (x & Hx & Hf).
    apply filter_In in Hf. destruct Hf as [Hf _].
    unfold others. apply in_map_iff. exists x. split; [exact Hx|exact Hf].
Qed.

(** X8. For a table cell inside a row, with a container, on a cache miss,
    [findRelationships] returns the similar children of the container
    followed by every other cell of the row, and caches that sequence. *)
Theorem findRelationships_table_cell (element row container : Element)
    (a : Analyzer) :
  isHTMLTableCellElement element = true ->
  parentElement element = Some row ->
  isHTMLTableRowElement row = true ->
  findClosestStructuralContainer element = Some container ->
  relationshipCache a !! ref element = None ->
  exists a',
    findRelationships element a
    = (Ok (similarChildren element container
           ++ others element (cells row)), a')
    /\ relationshipCache a' !! ref element
       = Some (similarChildren element container
               ++ others element (cells row))
    /\ (forall cell,
          In cell (children row) ->
          isHTMLTableCellElement cell = true ->
          ref cell <> ref element ->
          In (ref cell)
             (similarChildren element container
              ++ others element (cells row))).
Proof.
  intros Hcell Hp Hrow Hc Hmiss.
  rewrite (findRelationships_miss_not_input element container a Hmiss Hc
             (cell_not_input element Hcell)).
  cbv zeta. rewrite Hcell, Hp, Hrow.
  eexists. split; [reflexivity|]. split.
  - cbn [relationshipCache]. apply lookup_insert_eq.
  - intros cell Hin Hc' Hne. apply in_or_app. right.
    apply others_spec. exists cell. repeat split; [|exact Hne].
    unfold cells. apply filter_In. auto.
Qed.

(** X9. A table cell whose parent is not a table row, with a container, on
    a cache miss: [findRelationships] throws a [TypeError] after the
    container search, the cache is left as it was, and the facade answers
    with the empty report, the cache again left as it was. *)
Theorem findRelationships_stray_cell (element parent container : Element)
    (a : Analyzer) :
  isHTMLTableCellElement element = true ->
  parentElement element = Some parent ->
  isHTMLTableRowElement parent = false ->
  findClosestStructuralContainer element = Some container ->
  relationshipCache a !! ref element = None ->
  (exists a',
      findRelationships element a
      = (Throw (TypeError "undefined is not iterable"), a')
      /\ relationshipCache a' = relationshipCache a
      /\ containerSearches (probe a') = S (containerSearches (probe a)))
  /\ (exists a',
        analyzeElement (JsHTMLElement element) a = (Ok Report.empty, a')
        /\ relationshipCache a' = relationshipCache a).
Proof.
  intros Hcell Hp Hrow Hc Hmiss.
  pose proof (findRelationships_miss_not_input element container a Hmiss Hc
                (cell_not_input element Hcell)) as Hr.
  cbv zeta in Hr. rewrite Hcell, Hp, Hrow in Hr.
  split.
  - eexists. split; [exact Hr|]. split; reflexivity.
  - unfold analyzeElement, tryCatch, analysisBody, bind.
    pose proof (findPatterns_state element a) as Hps.
    destruct (findPatterns element a) as [[p|err] a1]; simpl in Hps; subst a1.
    + rewrite Hr. eexists. split; reflexivity.
    + eexists. split; reflexivity.
Qed.

End RelationshipMore.

Lemma findRelationships_list_item_witness :
  exists a',
    ElementAnalyzer.findRelationships (host := Fixtures.fixtureHost)
      Fixtures.thirdItem newAnalyzer
    = (Ok [[0; 0; 1]; [1; 0; 1]; [3; 0; 1]; [4; 0; 1];
           [0; 0; 1]; [1; 0; 1]; [3; 0; 1]; [4; 0; 1]], a').
Proof.
  destruct (findRelationships_list_item (host := Fixtures.fixtureHost)
              Fixtures.thirdItem
              (Fixtures.orElse (parentElement Fixtures.thirdItem)
                 Fixtures.item)
              (Fixtures.orElse (parentElement Fixtures.thirdItem)
                 Fixtures.item)
              newAnalyzer) as (a' & Heq & _).
  - vm_compute; reflexivity.
  - vm_compute; reflexivity.
  - vm_compute; reflexivity.
  - vm_compute; reflexivity.
  - exists a'. rewrite Heq. vm_compute. reflexivity.
Defined.

Lemma findRelationships_table_cell_witness :
  exists a',
    ElementAnalyzer.findRelationships (host := Fixtures.fixtureHost)
      Samples.middleCell newAnalyzer
    = (Ok [[0; 0; 0; 0; 1]; [2; 0; 0; 0; 1]], a').
Proof.
  destruct (findRelationships_table_cell (host := Fixtures.fixtureHost)
              Samples.middleCell
              (Fixtures.orElse (parentElement Samples.middleCell)
                 Fixtures.item)
              (Fixtures.orElse (parentElement Samples.middleCell)
                 Fixtures.item)
              newAnalyzer) as (a' & Heq & _).
  - vm_compute; reflexivity.
  - vm_compute; reflexivity.
  - vm_compute; reflexivity.
  - vm_compute; reflexivity.
  - vm_compute; reflexivity.
  - exists a'. rewrite Heq. vm_compute. reflexivity.
Defined.

Lemma findRelationships_stray_cell_witness :
  exists a',
    ElementAnalyzer.analyzeElement (host := Fixtures.fixtureHost)
      (JsHTMLElement Fixtures.strayCell) newAnalyzer
    = (Ok Report.empty, a')
    /\ relationshipCache a' = relationshipCache newAnalyzer.
Proof.
  apply (findRelationships_stray_cell (host := Fixtures.fixtureHost)
           Fixtures.strayCell
           (Fixtures.orElse (parentElement Fixtures.strayCell) Fixtures.item)
           (Fixtures.orElse (parentElement Fixtures.strayCell) Fixtures.item)
           newAnalyzer); vm_compute; reflexivity.
Defined.

Lemma findRelationships_excludes_element_witness :
  ~ In (ref Fixtures.thirdItem)
      [[0; 0; 1]; [1; 0; 1]; [3; 0; 1]; [4; 0; 1];
       [0; 0; 1]; [1; 0; 1]; [3; 0; 1]; [4; 0; 1]].
Proof.
  apply (findRelationships_excludes_element (host := Fixtures.fixtureHost)
           Fixtures.thirdItem newAnalyzer
           (snd (ElementAnalyzer.findRelationships
                   (host := Fixtures.fixtureHost) Fixtures.thirdItem
                   newAnalyzer))).
  - vm_compute; reflexivity.
  - vm_compute; reflexivity.
  - vm_compute; reflexivity.
Defined.

Section InputRelationships.

Context `{host : Host}.

Import ElementAnalyzer.

Lemma input_not_cell_not_li (element : Element) :
  isHTMLInputElement element = true ->
  isHTMLTableCellElement element = false /\ isHTMLLIElement element = false.
Proof.
  unfold isHTMLInputElement, isHTMLTableCellElement, isHTMLLIElement.
  intros H. apply String.eqb_eq in H. rewrite H. split; reflexivity.
Qed.

(** The selector [findSemanticRelationships] builds for an input. *)
Lemma labelSelector_unfold (element container : Element)
    (l : list Ref) (a : Analyzer) :
  isHTMLInputElement element = true ->
  JsString.truthy (id element) = true ->
  findSemanticRelationships element l container a
  = match querySelector container
            ("label[for=" +:+ JsString.quote +:+ id element
             +:+ JsString.quote +:+ "]") with
    | Ok (Some label) => (Ok (l ++ [ref label]), a)
    | Ok None => (Ok l, a)
    | Throw err => (Throw err, a)
    end.
Proof.
  intros Hin Hid. destruct (input_not_cell_not_li element Hin) as [Hc Hl].
  unfold findSemanticRelationships, bind, lift, ret.
  rewrite Hin, Hid, Hc, Hl. cbn [andb].
  destruct (querySelector container _) as [[label|]|err]; reflexivity.
Qed.

(** X10. For an input with a non-empty id, with a container, on a cache
    miss, [findRelationships] asks the selector engine for
    [label[for="id"]] inside the container: a label that is found is
    appended to the similar children, no label leaves the similar children
    alone, and when the engine throws the method throws the same error and
    caches nothing. *)
Theorem findRelationships_input_label (element container : Element)
    (a : Analyzer) :
  isHTMLInputElement element = true ->
  JsString.truthy (id element) = true ->
  findClosestStructuralContainer element = Some container ->
  relationshipCache a !! ref element = None ->
  exists a',
    relationshipCache a' !! ref element
    = (match fst (findRelationships element a) with
       | Ok r => Some r
       | Throw _ => None
       end)
    /\ findRelationships element a
       = (match querySelector container
                  ("label[for=" +:+ JsString.quote +:+ id element
                   +:+ JsString.quote +:+ "]") with
          | Ok (Some label) =>
              Ok (similarChildren element container ++ [ref label])
          | Ok None => Ok (similarChildren element container)
          | Throw err => Throw err
          end, a').
Proof.
  intros Hin Hid Hc Hmiss.
  unfold findRelationships, bind, cacheGet, read. rewrite Hmiss.
  unfold countContainerSearch, countSimilarityCalls, update. rewrite Hc.
  rewrite (labelSelector_unfold element container _ _ Hin Hid).
  destruct (querySelector container _) as [[label|]|err];
    cbn [fst]; eexists; (split; [|reflexivity]); cbn [relationshipCache].
  - apply lookup_insert_eq.
  - apply lookup_insert_eq.
  - exact Hmiss.
Qed.

End InputRelationships.

Lemma findRelationships_input_label_witness :
  fst (ElementAnalyzer.findRelationships (host := Fixtures.fixtureHost)
         Samples.nameInput newAnalyzer)
  = Ok [[0; 0; 1]]
  /\ isOk (fst (ElementAnalyzer.findRelationships
                  (host := Fixtures.fixtureHost) Fixtures.quotedIdInput
                  newAnalyzer)) = false.
Proof.
  split.
  - destruct (findRelationships_input_label (host := Fixtures.fixtureHost)
                Samples.nameInput
                (Fixtures.orElse (parentElement Samples.nameInput)
                   Fixtures.item)
                newAnalyzer) as (a' & _ & Heq);
      [vm_compute; reflexivity ..|].
    rewrite Heq. vm_compute. reflexivity.
  - destruct (findRelationships_input_label (host := Fixtures.fixtureHost)
                Fixtures.quotedIdInput
                (Fixtures.orElse (parentElement Fixtures.quotedIdInput)
                   Fixtures.item)
                newAnalyzer) as (a' & _ & Heq);
      [vm_compute; reflexivity ..|].
    rewrite Heq. vm_compute. reflexivity.
Defined.

(** ** Patterns *)

Section PatternFacts.

Context `{host : Host}.

Import ElementAnalyzer.

Lemma commonAttributes_fold (elements : list Element) (acc : list string)
    (x : string) :
  In x (fold_left
          (fun commonAttrs element =>
             List.filter (JsString.arrayIncludes (attributeNames element))
                         commonAttrs)
          elements acc)
  <-> In x acc /\ forall e, In e elements -> In x (attributeNames e).
Proof.
  revert acc. induction elements as [|e l IH]; intros acc; simpl.
  - split; [intros H; split; [exact H|intros e []]|intros [H _]; exact H].
  - rewrite IH, filter_In, arrayIncludes_iff. split.
    + intros [[H1 H2] H3]. split; [exact H1|].
      intros e' [<-|He']; [exact H2|exact (H3 e' He')].
    + intros [H1 H2]. split; [split; [exact H1|]|].
      * apply H2. left; reflexivity.
      * intros e' He'. apply H2. right; exact He'.
Qed.

(** X11. [findCommonAttributes] returns exactly the attribute names that
    every one of the given elements carries (none for an empty array),
    each once. *)
Theorem findCommonAttributes_spec (elements : list Element) :
  (forall x,
      In x (findCommonAttributes elements)
      <-> elements <> []
          /\ forall e, In e elements -> In x (map fst (elAttributes e)))
  /\ List.NoDup (findCommonAttributes elements).
Proof.
  destruct elements as [|e0 l]; simpl.
  - split; [|constructor]. intros x. split; [intros []|intros [H _]; congruence].
  - split.
    + intros x. rewrite commonAttributes_fold. unfold attributeNames.
      rewrite uniq_In. split.
      * intros [H1 H2]. split; [discriminate|].
        intros e [<-|He]; [exact H1|].
        specialize (H2 e He). rewrite uniq_In in H2. exact H2.
      * intros [_ H]. split; [apply H; left; reflexivity|].
        intros e He. rewrite uniq_In. apply H. right; exact He.
    + assert (Hnd : forall (els : list Element) acc,
                 List.NoDup acc ->
                 List.NoDup
                   (fold_left
                      (fun commonAttrs element =>
                         List.filter
                           (JsString.arrayIncludes (attributeNames element))
                           commonAttrs) els acc)).
      { induction els as [|e els IH]; intros acc Hacc; simpl; [exact Hacc|].
        apply IH. apply NoDup_filter_bool. exact Hacc. }
      apply Hnd. apply uniq_NoDup.
Qed.

(** X12. [findSimilarStructures] returns exactly the candidates of the
    selector engine, queried in the closest container for the element's
    tag name, that are not the element and have the given signature; when
    the engine throws, so does the method.  The analyzer is left as it
    is. *)
Theorem findSimilarStructures_sound (element container : Element)
    (signature : string) (a : Analyzer) :
  findClosestStructuralContainer element = Some container ->
  match querySelectorAll container (elTagName element) with
  | Ok candidates =>
      exists similar,
        findSimilarStructures element signature a = (Ok similar, a)
        /\ (forall c,
              In c similar
              <-> In c candidates
                  /\ ref c <> ref element
                  /\ generateStructureSignature c = signature)
  | Throw err => findSimilarStructures element signature a = (Throw err, a)
  end.
Proof.
  intros Hc. unfold findSimilarStructures, bind, lift, ret. rewrite Hc.
  destruct (querySelectorAll container (elTagName element))
    as [candidates|err]; [|reflexivity].
  eexists. split; [reflexivity|].
  intros c. rewrite filter_In, andb_true_iff, negb_true_iff, String.eqb_eq.
  unfold sameElement. rewrite bool_decide_eq_false. tauto.
Qed.

End PatternFacts.

Lemma findSimilarStructures_sound_witness :
  exists similar,
    ElementAnalyzer.findSimilarStructures (host := Fixtures.fixtureHost)
      Fixtures.thirdItem "li[item]{}" newAnalyzer = (Ok similar, newAnalyzer)
    /\ length similar = 4.
Proof.
  pose proof (findSimilarStructures_sound (host := Fixtures.fixtureHost)
                Fixtures.thirdItem
                (Fixtures.orElse (parentElement Fixtures.thirdItem)
                   Fixtures.item)
                "li[item]{}" newAnalyzer) as H.
  assert (Hc : ElementAnalyzer.findClosestStructuralContainer
                 Fixtures.thirdItem
               = Some (Fixtures.orElse (parentElement Fixtures.thirdItem)
                         Fixtures.item)) by (vm_compute; reflexivity).
  specialize (H Hc).
  destruct (querySelectorAll _ _) as [candidates|err] eqn:Hq.
  - destruct H as (similar & Heq & _). exists similar. split; [exact Heq|].
    assert (Hs : Ok similar
                 = fst (ElementAnalyzer.findSimilarStructures
                          (host := Fixtures.fixtureHost) Fixtures.thirdItem
                          "li[item]{}" newAnalyzer))
      by (rewrite Heq; reflexivity).
    vm_compute in Hs. injection Hs as ->. reflexivity.
  - vm_compute in Hq. discriminate.
Defined.

Section RelationshipKinds.

Import ElementAnalyzer.

Lemma suffix_longer_false (l1 l2 : list nat) :
  (length l2 < length l1)%nat -> ~ l1 `suffix_of` l2.
Proof.
  intros Hlen [k Hk]. apply (f_equal (@length nat)) in Hk.
  rewrite length_app in Hk. lia.
Qed.

(** X13. [determineRelationship] names two children of one element
    [sibling]; for an element and one of its children it answers [parent]
    in one direction and [child] in the other. *)
Theorem determineRelationship_kinds (e : Element) :
  (forall c1 c2,
      In c1 (children e) -> In c2 (children e) ->
      determineRelationship c1 c2 = Patterns.sibling)
  /\ (forall c,
        In c (children e) ->
        determineRelationship e c = Patterns.parent
        /\ determineRelationship c e = Patterns.child).
Proof.
  assert (Hchild : forall c, In c (children e) ->
                             parentElement c = Some e /\ exists i, ref c = i :: ref e).
  { intros c Hc. unfold children in Hc.
    assert (Hgen : forall before after,
               focus e = mkNode (data (focus e)) (rev before ++ after) ->
               In c (childrenFrom (data (focus e)) (ctx e) before after) ->
               parentElement c = Some e /\ exists i, ref c = i :: ref e).
    { intros before after. revert before.
      induction after as [|x after IH]; intros before Hf Hin; [contradiction|].
      simpl in Hin. destruct Hin as [<-|Hin].
      - split.
        + unfold parentElement, plug. simpl. rewrite <- Hf.
          destruct e; reflexivity.
        + eexists. reflexivity.
      - apply (IH (x :: before)); [|exact Hin].
        simpl. rewrite <- app_assoc. exact Hf. }
    apply (Hgen [] (childNodes (focus e))); [|exact Hc].
    simpl. destruct (focus e); reflexivity. }
  split.
  - intros c1 c2 H1 H2. unfold determineRelationship.
    rewrite (proj1 (Hchild c1 H1)), (proj1 (Hchild c2 H2)).
    rewrite bool_decide_eq_true_2; reflexivity.
  - intros c Hc. destruct (Hchild c Hc) as [Hp [i Hi]].
    assert (Hne : ref <$> parentElement e <> ref <$> parentElement c).
    { rewrite Hp. simpl. destruct (parentElement e) as [p|] eqn:Hpe;
        simpl; [|discriminate].
      destruct (ref_parent e p Hpe) as [j Hj]. intros Heq.
      injection Heq as Heq. rewrite Hj in Heq.
      apply (f_equal (@length nat)) in Heq. simpl in Heq. lia. }
    assert (Hcont : contains e c = true).
    { unfold contains. apply bool_decide_eq_true. rewrite Hi.
      exists [i]. reflexivity. }
    assert (Hncont : contains c e = false).
    { unfold contains. apply bool_decide_eq_false.
      apply suffix_longer_false. rewrite Hi. simpl. lia. }
    unfold determineRelationship. split.
    + rewrite bool_decide_eq_false_2 by exact Hne. rewrite Hcont. reflexivity.
    + rewrite bool_decide_eq_false_2 by (intros H; apply Hne; symmetry; exact H).
      rewrite Hncont, Hcont. reflexivity.
Qed.

End RelationshipKinds.

(** ** Selector paths *)

Section SelectorPaths.

Import ElementAnalyzer.

Lemma generateCssSelectorLoop_no_id (chain : list Element)
    (path : list string) :
  (forall x, In x chain -> JsString.truthy (id x) = false) ->
  generateCssSelectorLoop chain path = rev (map cssSegment chain) ++ path.
Proof.
  revert path. induction chain as [|c chain IH]; intros path Hno; simpl.
  - reflexivity.
  - rewrite (Hno c) by (left; reflexivity).
    rewrite IH by (intros x Hx; apply Hno; right; exact Hx).
    rewrite <- app_assoc. reflexivity.
Qed.

Lemma generateCssSelectorLoop_first_id (below : list Element)
    (anchor : Element) (rest : list Element) (path : list string) :
  (forall x, In x below -> JsString.truthy (id x) = false) ->
  JsString.truthy (id anchor) = true ->
  generateCssSelectorLoop (below ++ anchor :: rest) path
  = ("#" +:+ id anchor) :: rev (map cssSegment below) ++ path.
Proof.
  revert path. induction below as [|c below IH]; intros path Hno Hid; simpl.
  - rewrite Hid. reflexivity.
  - rewrite (Hno c) by (left; reflexivity).
    rewrite IH by (try exact Hid; intros x Hx; apply Hno; right; exact Hx).
    rewrite <- app_assoc. reflexivity.
Qed.

(** X14. The analyzer's CSS selector starts at the nearest element with
    an id on the way up, the element itself included, with [#id], and
    continues with one [tag.classes] segment for every element below it,
    outermost first; when no element on the way has an id it has one
    segment for every element up to the document element. *)
Theorem generateCssSelector_path (element : Element) :
  (forall below anchor rest,
      element :: ancestors element = below ++ anchor :: rest ->
      (forall x, In x below -> JsString.truthy (id x) = false) ->
      JsString.truthy (id anchor) = true ->
      generateCssSelector element
      = JsString.join " > "
          (("#" +:+ id anchor) :: rev (map cssSegment below)))
  /\ ((forall x, In x (element :: ancestors element) ->
                 JsString.truthy (id x) = false) ->
      generateCssSelector element
      = JsString.join " > "
          (rev (map cssSegment (element :: ancestors element)))).
Proof.
  unfold generateCssSelector. split.
  - intros below anchor rest Hch Hno Hid. rewrite Hch.
    rewrite (generateCssSelectorLoop_first_id below anchor rest [] Hno Hid).
    rewrite app_nil_r. reflexivity.
  - intros Hno.
    rewrite (generateCssSelectorLoop_no_id _ [] Hno).
    rewrite app_nil_r. reflexivity.
Qed.

Lemma generateXPathLoop_no_id (chain : list Element) (paths : list string) :
  (forall x, In x chain -> JsString.truthy (id x) = false) ->
  generateXPathLoop chain paths
  = rev (map (fun current =>
                JsString.toLowerCase (elTagName current) +:+ "["
                +:+ JsString.ofNat (xpathIndex current) +:+ "]") chain)
    ++ paths.
Proof.
  revert paths. induction chain as [|c chain IH]; intros paths Hno; simpl.
  - reflexivity.
  - rewrite (Hno c) by (left; reflexivity).
    rewrite IH by (intros x Hx; apply Hno; right; exact Hx).
    rewrite <- app_assoc. reflexivity.
Qed.

(** X15. When no element from the element up to the document element has
    an id, the XPath of the inspector is the XPath of the analyzer with a
    leading slash: both list [tag[index]] for every level, outermost
    first. *)
Theorem generateXPath_agree_without_ids (element : Element) :
  (forall x, In x (element :: ancestors element) ->
             JsString.truthy (id x) = false) ->
  ElementInspector.generateXPath element = "/" +:+ generateXPath element.
Proof.
  intros Hno. unfold ElementInspector.generateXPath, generateXPath.
  rewrite (generateXPathLoop_no_id _ [] Hno), app_nil_r. reflexivity.
Qed.

Lemma generateXPath_agree_without_ids_witness :
  ElementInspector.generateXPath Fixtures.thirdItem
  = "/html[1]/body[1]/ul[1]/li[3]"
  /\ generateXPath Fixtures.thirdItem = "html[1]/body[1]/ul[1]/li[3]".
Proof.
  assert (H : ElementInspector.generateXPath Fixtures.thirdItem
              = "/" +:+ generateXPath Fixtures.thirdItem).
  { apply (generateXPath_agree_without_ids Fixtures.thirdItem).
    intros x Hx. vm_compute in Hx.
    repeat (destruct Hx as [<-|Hx]; [vm_compute; reflexivity|]).
    contradiction. }
  split; [rewrite H|]; vm_compute; reflexivity.
Defined.

(** X16. With an id on the element, or on an ancestor, the analyzer's
    XPath starts at the nearest such element with [//*[@id="..."]]
    and lists [tag[index]] only for the levels below it, while the
    inspector's XPath ignores ids and always has one segment per level. *)
Theorem generateXPath_anchored (element : Element) (below : list Element)
    (anchor : Element) (rest : list Element) :
  element :: ancestors element = below ++ anchor :: rest ->
  (forall x, In x below -> JsString.truthy (id x) = false) ->
  JsString.truthy (id anchor) = true ->
  generateXPath element
  = JsString.join "/"
      (("//*[@id=" +:+ JsString.quote +:+ id anchor +:+ JsString.quote
        +:+ "]")
       :: rev (map (fun current =>
                      JsString.toLowerCase (elTagName current) +:+ "["
                      +:+ JsString.ofNat (xpathIndex current) +:+ "]")
                   below))
  /\ ElementInspector.generateXPath element
     = "/" +:+ JsString.join "/"
                 (rev (map (fun current =>
                              JsString.toLowerCase (elTagName current)
                              +:+ "["
                              +:+ JsString.ofNat
                                    (ElementInspector.xpathIndex current)
                              +:+ "]")
                           (below ++ anchor :: rest))).
Proof.
  intros Hch Hno Hid. split.
  - unfold generateXPath. rewrite Hch.
    assert (Hloop : forall l paths,
               (forall x, In x l -> JsString.truthy (id x) = false) ->
               generateXPathLoop (l ++ anchor :: rest) paths
               = ("//*[@id=" +:+ JsString.quote +:+ id anchor
                  +:+ JsString.quote +:+ "]")
                 :: rev (map (fun current =>
                                JsString.toLowerCase (elTagName current)
                                +:+ "["
                                +:+ JsString.ofNat (xpathIndex current)
                                +:+ "]") l) ++ paths).
    { induction l as [|c l IH]; intros paths Hl; simpl.
      - rewrite Hid. reflexivity.
      - rewrite (Hl c) by (left; reflexivity).
        rewrite IH by (intros x Hx; apply Hl; right; exact Hx).
        rewrite <- app_assoc. reflexivity. }
    rewrite (Hloop below [] Hno), app_nil_r. reflexivity.
  - unfold ElementInspector.generateXPath. rewrite Hch. reflexivity.
Qed.

End SelectorPaths.

Lemma generateXPath_anchored_witness :
  ElementAnalyzer.generateXPath Samples.nameInput
  = "//*[@id=" +:+ JsString.quote +:+ "name" +:+ JsString.quote +:+ "]".
Proof.
  destruct (generateXPath_anchored Samples.nameInput [] Samples.nameInput
              (ancestors Samples.nameInput)) as [H _].
  - reflexivity.
  - intros x [].
  - vm_compute; reflexivity.
  - rewrite H. vm_compute. reflexivity.
Defined.

Lemma generateCssSelector_path_witness :
  ElementAnalyzer.generateCssSelector Fixtures.thirdItem
  = "html > body > ul > li.item".
Proof.
  rewrite (proj2 (generateCssSelector_path Fixtures.thirdItem)).
  - vm_compute; reflexivity.
  - intros x Hx. vm_compute in Hx.
    repeat (destruct Hx as [<-|Hx]; [vm_compute; reflexivity|]).
    contradiction.
Defined.

(** ** Repeated analysis *)

Section RepeatedAnalysis.

Context `{host : Host}.

Import ElementAnalyzer.

Lemma findSimilarStructures_any_state (e : Element) (sig : string)
    (a a' : Analyzer) :
  fst (findSimilarStructures e sig a) = fst (findSimilarStructures e sig a').
Proof.
  unfold findSimilarStructures, bind, lift, ret.
  destruct (findClosestStructuralContainer e) as [c|]; [|reflexivity].
  destruct (querySelectorAll c (elTagName e)); reflexivity.
Qed.

(** The pattern search neither reads nor writes the analyzer. *)
Lemma findPatterns_any_state (e : Element) (a a' : Analyzer) :
  fst (findPatterns e a) = fst (findPatterns e a').
Proof.
  unfold findPatterns, bind.
  pose proof (findSimilarStructures_any_state e
                (generateStructureSignature e) a a') as Hs.
  destruct (findSimilarStructures e (generateStructureSignature e) a)
    as [[s|err] a1];
    destruct (findSimilarStructures e (generateStructureSignature e) a')
      as [[s'|err'] a1']; simpl in Hs; try discriminate;
    injection Hs as ->; reflexivity.
Qed.

(** X17. Once the analysis of an element has succeeded, analysing the same
    element again, on the same document, returns the same report and
    leaves the analyzer as it is: the relationships come from the cache,
    and no container search or similarity computation of the Relationship
    Finder is repeated. *)
Theorem analyzeElement_repeat (element : Element) (a a1 : Analyzer)
    (rep : Report.t) :
  analysisBody element a = (Ok rep, a1) ->
  analyzeElement (JsHTMLElement element) a = (Ok rep, a1)
  /\ analyzeElement (JsHTMLElement element) a1 = (Ok rep, a1).
Proof.
  intros Hbody. split.
  - unfold analyzeElement, tryCatch. rewrite Hbody. reflexivity.
  - unfold analyzeElement, tryCatch.
    assert (Hagain : analysisBody element a1 = (Ok rep, a1));
      [|rewrite Hagain; reflexivity].
    unfold analysisBody, bind in *.
    pose proof (findPatterns_state element a) as Hst.
    pose proof (findPatterns_state element a1) as Hst1.
    pose proof (findPatterns_any_state element a a1) as Hany.
    destruct (findPatterns element a) as [[p|err] a2]; [|discriminate].
    simpl in Hst. subst a2.
    destruct (findPatterns element a1) as [[p1|err1] a3];
      simpl in Hany; [|discriminate].
    injection Hany as <-. simpl in Hst1. subst a3.
    destruct (findRelationships element a) as [[r|err] a4] eqn:Hr;
      [|discriminate].
    unfold ret in Hbody. injection Hbody as <- <-.
    rewrite (findRelationships_hit element a4 r
               (findRelationships_caches element a a4 r Hr)).
    reflexivity.
Qed.

End RepeatedAnalysis.

Lemma analyzeElement_repeat_witness :
  ElementAnalyzer.analyzeElement (host := Fixtures.fixtureHost)
    (JsHTMLElement Fixtures.thirdItem)
    (snd (ElementAnalyzer.analysisBody (host := Fixtures.fixtureHost)
            Fixtures.thirdItem newAnalyzer))
  = ElementAnalyzer.analysisBody (host := Fixtures.fixtureHost)
      Fixtures.thirdItem newAnalyzer.
Proof.
  destruct (ElementAnalyzer.analysisBody (host := Fixtures.fixtureHost)
              Fixtures.thirdItem newAnalyzer) as [[rep|err] a1] eqn:Hb.
  - exact (proj2 (analyzeElement_repeat (host := Fixtures.fixtureHost)
                    Fixtures.thirdItem newAnalyzer a1 rep Hb)).
  - vm_compute in Hb. discriminate.
Defined.

(** ** Inspector *)

Section InspectorMore.

Context `{host : Host}.

Import ElementInspector.

(** X18. An inspector that is not active ignores every event: hovering,
    moving, clicking and key presses leave it, and its analyzer, exactly as
    they are.  This is the state [stop] leaves behind. *)
Theorem inactive_inspector_ignores_events (i : Inspector)
    (target : Element) (key : string) :
  active i = false ->
  handleMouseOver target i = i
  /\ handleMouseMove target i = (Ok tt, i)
  /\ handleClick target i = i
  /\ handleKeyPress key i = i
  /\ handleMouseOver target (stop i) = stop i
  /\ handleClick target (stop i) = stop i.
Proof.
  intros Hin.
  unfold handleMouseOver, handleMouseMove, handleClick, handleKeyPress.
  rewrite Hin. simpl. repeat split; reflexivity.
Qed.

(** X19. A click on an active inspector always ends the session: the
    inspector is stopped, with at most one message handed to the runtime.
    The message is sent exactly when the element info can be built, and
    then carries the report of [analyzeElement] for the clicked element;
    when the selector engine throws while the info is built, nothing is
    sent. *)
Theorem handleClick_ends_session (target : Element) (i : Inspector) :
  active i = true ->
  active (handleClick target i) = false
  /\ listening (handleClick target i) = false
  /\ analyzer (handleClick target i)
     = snd (ElementAnalyzer.analyzeElement (JsHTMLElement target)
              (analyzer i))
  /\ sent (handleClick target i)
     = match fst (ElementAnalyzer.analyzeElement (JsHTMLElement target)
                    (analyzer i)),
             getElementInfo target with
       | Ok rep, Ok info => sent i ++ [mkMessage info rep]
       | _, _ => sent i
       end.
Proof.
  intros Hact. unfold handleClick. rewrite Hact. cbn [negb].
  unfold tryCatch, bind, onAnalyzer, lift, update, ret.
  destruct (ElementAnalyzer.analyzeElement (JsHTMLElement target)
              (analyzer i)) as [[rep|err] a'];
    [destruct (getElementInfo target) as [info|err]|];
    repeat split; reflexivity.
Qed.

End InspectorMore.

Lemma inactive_inspector_ignores_events_witness :
  ElementInspector.handleClick (host := Fixtures.fixtureHost)
    Fixtures.thirdItem ElementInspector.newInspector
  = ElementInspector.newInspector.
Proof.
  apply (inactive_inspector_ignores_events (host := Fixtures.fixtureHost)
           ElementInspector.newInspector Fixtures.thirdItem "Escape").
  reflexivity.
Defined.

Lemma handleClick_ends_session_witness :
  length
    (ElementInspector.sent
       (ElementInspector.handleClick (host := Fixtures.fixtureHost)
          Fixtures.sessionThird
          (ElementInspector.start ElementInspector.newInspector))) = 1.
Proof.
  rewrite (proj2 (proj2 (proj2
             (handleClick_ends_session (host := Fixtures.fixtureHost)
                Fixtures.sessionThird
                (ElementInspector.start ElementInspector.newInspector)
                eq_refl)))).
  vm_compute. reflexivity.
Defined.

Section InspectorSelectors.

Context `{host : Host}.

Import ElementInspector.

(** X20. [stop] does not forget the hovered element: it is idempotent,
    it hides both overlays and detaches the listeners, and after a
    restart a mouse move (before any new hover) updates the tooltip for
    the element hovered in the earlier session, not for the one under the
    pointer. *)
Theorem restart_keeps_hovered_element (i : Inspector) (h target : Element) :
  hoveredElement i = Some h ->
  stop (stop i) = stop i
  /\ highlightDisplay (stop i) = "none"
  /\ tooltipDisplay (stop i) = "none"
  /\ listening (stop i) = false
  /\ hoveredElement (start (stop i)) = Some h
  /\ handleMouseMove target (start (stop i))
     = updateTooltip h (start (stop i)).
Proof.
  intros Hh. unfold handleMouseMove. cbn [start stop active negb
    hoveredElement clearRelatedOverlays].
  rewrite Hh. repeat split; reflexivity.
Qed.

Lemma generateCssSelectorLoop_walk (element : Element) :
  forall (used done : list Element) (last : Element) (rest : list Element),
    (forall x, In x (used ++ [last]) -> JsString.truthy (id x) = false) ->
    (forall pre x post,
        used = pre ++ x :: post ->
        exists found,
          documentQuerySelectorAll element
            (JsString.join " > " (rev (map cssSegment (done ++ pre ++ [x]))))
          = Ok found
          /\ length found <> 1) ->
    generateCssSelectorLoop element (used ++ last :: rest)
      (rev (map cssSegment done))
    = match documentQuerySelectorAll element
              (JsString.join " > "
                 (rev (map cssSegment (done ++ used ++ [last])))) with
      | Throw e => Throw e
      | Ok found =>
          if (length found =? 1)%nat
          then Ok (rev (map cssSegment (done ++ used ++ [last])))
          else generateCssSelectorLoop element rest
                 (rev (map cssSegment (done ++ used ++ [last])))
      end.
Proof.
  assert (Hsnoc : forall (l : list Element) (x : Element),
             cssSegment x :: rev (map cssSegment l)
             = rev (map cssSegment (l ++ [x])))
    by (intros l x; rewrite map_app, rev_app_distr; reflexivity).
  induction used as [|u used IH]; intros done last rest Hid Hq.
  - cbn [app generateCssSelectorLoop].
    rewrite (Hid last) by (left; reflexivity).
    cbv zeta. rewrite Hsnoc. reflexivity.
  - cbn [app generateCssSelectorLoop].
    rewrite (Hid u) by (left; reflexivity).
    cbv zeta. rewrite Hsnoc.
    destruct (Hq [] u used eq_refl) as (found & Hf & Hlen).
    cbn [app] in Hf. rewrite Hf.
    apply Nat.eqb_neq in Hlen. rewrite Hlen.
    rewrite (IH (done ++ [u]) last rest).
    + rewrite <- !app_assoc. reflexivity.
    + intros x Hx. apply Hid. right. exact Hx.
    + intros pre x post Heq.
      destruct (Hq (u :: pre) x post) as (found' & Hf' & Hlen');
        [rewrite Heq; reflexivity|].
      exists found'. split; [|exact Hlen'].
      rewrite <- app_assoc. exact Hf'.
Qed.

(** X21. The inspector's selector for an element is the path that ends
    at the first level whose query has exactly one match: when no element
    from the element up to [last] has an id and the query made at every
    level below [last] returned without exactly one match, then a query
    at [last] that throws makes the generator throw the same error, and a
    query that has exactly one match, or is made at the document element,
    makes the selector the segments from [last] down to the element. *)
Theorem inspector_generateCssSelector_walk (element last : Element)
    (used rest : list Element) :
  element :: ancestors element = used ++ last :: rest ->
  (forall x, In x (used ++ [last]) -> JsString.truthy (id x) = false) ->
  (forall pre x post,
      used = pre ++ x :: post ->
      exists found,
        documentQuerySelectorAll element
          (JsString.join " > " (rev (map cssSegment (pre ++ [x]))))
        = Ok found
        /\ length found <> 1) ->
  match documentQuerySelectorAll element
          (JsString.join " > " (rev (map cssSegment (used ++ [last])))) with
  | Throw err => generateCssSelector element = Throw err
  | Ok found =>
      length found = 1 \/ rest = [] ->
      generateCssSelector element
      = Ok (JsString.join " > " (rev (map cssSegment (used ++ [last]))))
  end.
Proof.
  intros Hchain Hid Hq.
  unfold generateCssSelector. rewrite Hchain.
  pose proof (generateCssSelectorLoop_walk element used [] last rest Hid Hq)
    as Hloop.
  cbn [app map rev] in Hloop. rewrite Hloop.
  destruct (documentQuerySelectorAll element
              (JsString.join " > " (rev (map cssSegment (used ++ [last])))))
    as [found|err]; [|reflexivity].
  intros [Hone| ->].
  - rewrite Hone. reflexivity.
  - destruct (length found =? 1)%nat; reflexivity.
Qed.

(** X22. [getRelevantAttributes] keeps exactly the attributes whose
    lower-cased name is none of [id], [class], [style] and starts with none
    of [aria-], [data-v-], [data-react], [ng-]; the attributes the
    inspector puts into a selector segment are among those and have one of
    the five identifying names. *)
Theorem getRelevantAttributes_spec (element : Element)
    (attr : string * string) :
  (In attr (getRelevantAttributes element)
   <-> In attr (elAttributes element)
       /\ ~ In (JsString.toLowerCase (fst attr)) ["id"; "class"; "style"]
       /\ forall p, In p ["aria-"; "data-v-"; "data-react"; "ng-"] ->
                    JsString.startsWith (JsString.toLowerCase (fst attr)) p
                    = false)
  /\ (In attr (List.filter (fun attr => isIdentifyingAttribute (fst attr))
                 (getRelevantAttributes element)) ->
      In (fst attr) ["name"; "type"; "role"; "data-testid"; "data-id"]).
Proof.
  split.
  - unfold getRelevantAttributes. rewrite filter_In.
    rewrite !andb_true_iff, !negb_true_iff.
    rewrite <- (not_true_iff_false (JsString.arrayIncludes _ _)).
    rewrite arrayIncludes_iff. split.
    + intros (Hin & (((H1 & H2) & H3) & H4) & H5).
      split; [exact Hin|]. split; [exact H1|].
      intros p Hp. simpl in Hp.
      destruct Hp as [<-|[<-|[<-|[<-|[]]]]]; assumption.
    + intros (Hin & H1 & Hp).
      split; [exact Hin|].
      repeat split; try exact H1; apply Hp; simpl; auto.
  - intros Hin. apply filter_In in Hin. destruct Hin as [_ Hid].
    unfold isIdentifyingAttribute in Hid. apply arrayIncludes_iff in Hid.
    exact Hid.
Qed.

End InspectorSelectors.

Lemma restart_keeps_hovered_element_witness :
  ElementInspector.hoveredElement
    (ElementInspector.start
       (ElementInspector.stop
          (ElementInspector.handleMouseOver (host := Fixtures.fixtureHost)
             Fixtures.sessionThird
             (ElementInspector.start ElementInspector.newInspector))))
  = Some Fixtures.sessionThird.
Proof.
  apply (restart_keeps_hovered_element (host := Fixtures.fixtureHost)
           (ElementInspector.handleMouseOver (host := Fixtures.fixtureHost)
              Fixtures.sessionThird
              (ElementInspector.start ElementInspector.newInspector))
           Fixtures.sessionThird Fixtures.laterThird).
  vm_compute; reflexivity.
Defined.

Lemma inspector_generateCssSelector_walk_witness :
  ElementInspector.generateCssSelector (host := Samples.pathHost)
    Samples.orderedItem = Ok "ol > li.item"
  /\ ElementInspector.generateCssSelector (host := Samples.pathHost)
       Samples.menuItem = Ok "html > body > ul.menu > li.item".
Proof.
  split.
  - assert (Hq : documentQuerySelectorAll (Host := Samples.pathHost)
                   Samples.orderedItem
                   (JsString.join " > "
                      (rev (map ElementInspector.cssSegment
                              ([Samples.orderedItem]
                               ++ [Samples.orderedList]))))
                 = Ok [Samples.orderedItem])
      by (vm_compute; reflexivity).
    generalize (inspector_generateCssSelector_walk
                  (host := Samples.pathHost)
                  Samples.orderedItem Samples.orderedList
                  [Samples.orderedItem]
                  [Samples.menuBody; Samples.menuHtml]).
    rewrite Hq. intros H. rewrite H.
    + vm_compute; reflexivity.
    + vm_compute; reflexivity.
    + intros x [<-|[<-|[]]]; vm_compute; reflexivity.
    + intros [|p pre] x post Heq.
      * injection Heq as <- _.
        eexists. split; [vm_compute; reflexivity|vm_compute; discriminate].
      * injection Heq as _ Heq. destruct pre; discriminate.
    + left. reflexivity.
  - assert (Hq : exists found,
               documentQuerySelectorAll (Host := Samples.pathHost)
                 Samples.menuItem
                 (JsString.join " > "
                    (rev (map ElementInspector.cssSegment
                            ([Samples.menuItem; Samples.menuList;
                              Samples.menuBody]
                             ++ [Samples.menuHtml]))))
               = Ok found)
      by (eexists; vm_compute; reflexivity).
    destruct Hq as [found Hq].
    generalize (inspector_generateCssSelector_walk
                  (host := Samples.pathHost)
                  Samples.menuItem Samples.menuHtml
                  [Samples.menuItem; Samples.menuList; Samples.menuBody]
                  []).
    rewrite Hq. intros H. rewrite H.
    + vm_compute; reflexivity.
    + vm_compute; reflexivity.
    + intros x [<-|[<-|[<-|[<-|[]]]]]; vm_compute; reflexivity.
    + intros [|p1 [|p2 [|p3 pre]]] x post Heq.
      * injection Heq as <- _.
        eexists. split; [vm_compute; reflexivity|vm_compute; discriminate].
      * injection Heq as <- <- _.
        eexists. split; [vm_compute; reflexivity|vm_compute; discriminate].
      * injection Heq as <- <- <- _.
        eexists. split; [vm_compute; reflexivity|vm_compute; discriminate].
      * injection Heq as _ _ _ Heq. destruct pre; discriminate.
    + right. reflexivity.
Defined.

(** * Properties of background.js and popup.js *)

Section ConnectionFacts.

Context `{net : Background.Network}.

Import Background.

Lemma length_setSocketState (id : nat) (r : ReadyState) (s : State) :
  length (sockets (setSocketState id r s)) = length (sockets s).
Proof.
  unfold setSocketState. destruct (sockets s !! id); [|reflexivity].
  simpl. apply length_insert.
Qed.

Lemma setSocketState_fields (id : nat) (r : ReadyState) (s : State) :
  websocket (setSocketState id r s) = websocket s
  /\ connectionAttempts (setSocketState id r s) = connectionAttempts s
  /\ statusLog (setSocketState id r s) = statusLog s
  /\ timers (setSocketState id r s) = timers s.
Proof.
  unfold setSocketState. destruct (sockets s !! id); repeat split.
Qed.

Lemma closeSocket_fields (id : nat) (s : State) :
  websocket (closeSocket id s) = websocket s
  /\ connectionAttempts (closeSocket id s) = connectionAttempts s
  /\ statusLog (closeSocket id s) = statusLog s
  /\ timers (closeSocket id s) = timers s
  /\ length (sockets (closeSocket id s)) = length (sockets s).
Proof.
  unfold closeSocket. destruct (sockets s !! id) as [sock|];
    [|repeat split].
  destruct (readyState sock); try (repeat split; fail);
    destruct (setSocketState_fields id CLOSING s) as (H1 & H2 & H3 & H4);
    rewrite H1, H2, H3, H4, length_setSocketState; repeat split.
Qed.

Lemma wellFormed_status (c : bool) (retry : option nat) (s : State) :
  wellFormed s ->
  (forall n, retry = Some n -> (1 <= n <= MAX_RETRY_ATTEMPTS)%nat) ->
  wellFormed (updateConnectionStatus c retry s).
Proof.
  intros (H1 & H2 & H3) Hr. unfold wellFormed. simpl.
  split; [exact H1|]. split; [|exact H3].
  intros st n Hin Hn. apply in_app_or in Hin.
  destruct Hin as [Hin|[<-|[]]]; [exact (H2 st n Hin Hn)|].
  simpl in Hn. exact (Hr n Hn).
Qed.

Lemma wellFormed_connect (url : string) (s : State) :
  wellFormed s -> wellFormed (connectWebSocket url s).
Proof.
  intros Hwf. unfold connectWebSocket.
  destruct (Nat.leb_spec MAX_RETRY_ATTEMPTS (connectionAttempts s))
    as [Hmax|Hless].
  - apply wellFormed_status; [exact Hwf|discriminate].
  - set (s1 := match websocket s with
               | Some id => closeSocket id s
               | None => s
               end).
    assert (Hs1 : websocket s1 = websocket s
                  /\ connectionAttempts s1 = connectionAttempts s
                  /\ statusLog s1 = statusLog s
                  /\ length (sockets s1) = length (sockets s)).
    { unfold s1. destruct (websocket s) as [id|] eqn:Hws;
        [|repeat split; congruence].
      destruct (closeSocket_fields id s) as (H1 & H2 & H3 & _ & H5).
      repeat split; congruence. }
    destruct Hs1 as (Hw & Ha & Hl & Hn).
    destruct Hwf as (H1 & H2 & H3).
    assert (Hwf2 : wellFormed
                     (updateConnectionStatus false
                        (Some (connectionAttempts
                                 (setAttempts (S (connectionAttempts s1)) s1)))
                        (setAttempts (S (connectionAttempts s1)) s1))).
    { apply wellFormed_status.
      - unfold wellFormed. simpl. rewrite Ha, Hl, Hw, Hn.
        split; [lia|]. split; [exact H2|exact H3].
      - simpl. intros n Hn'. injection Hn' as <-. rewrite Ha. lia. }
    destruct (webSocketAccepts url).
    + destruct Hwf2 as (G1 & G2 & G3). unfold wellFormed. simpl in *.
      split; [exact G1|]. split; [exact G2|].
      intros id Hid. injection Hid as <-. rewrite length_app. simpl. lia.
    + assert (Hwf3 := wellFormed_status false None _ Hwf2
                        ltac:(discriminate)).
      match goal with
      | |- wellFormed (if ?b then _ else _) => destruct b
      end; [|exact Hwf3].
      destruct Hwf3 as (G1 & G2 & G3). unfold wellFormed. simpl in *.
      auto.
Qed.

Lemma wellFormed_step (s : State) (ev : Event) :
  wellFormed s -> wellFormed (step s ev).
Proof.
  intros Hwf. destruct ev as [id|id code|id|index|url|info|[url|]]; simpl.
  - destruct (sockets s !! id); [|exact Hwf].
    unfold onopen. destruct Hwf as (H1 & H2 & H3).
    destruct (setSocketState_fields id OPEN s) as (F1 & F2 & F3 & F4).
    unfold wellFormed. simpl. rewrite F1, F3, length_setSocketState.
    split; [unfold MAX_RETRY_ATTEMPTS; lia|]. split; [|exact H3].
    intros st n Hin Hn. apply in_app_or in Hin.
    destruct Hin as [Hin|[<-|[]]]; [exact (H2 st n Hin Hn)|discriminate].
  - destruct (sockets s !! id) as [sock|]; [|exact Hwf].
    unfold onclose. destruct Hwf as (H1 & H2 & H3).
    destruct (setSocketState_fields id CLOSED s) as (F1 & F2 & F3 & F4).
    assert (Hbase : wellFormed
                      (setServerConnected false
                         (updateConnectionStatus false None
                            (setSocketState id CLOSED s)))).
    { unfold wellFormed. simpl. rewrite F1, F2, F3, length_setSocketState.
      split; [exact H1|]. split; [|exact H3].
      intros st n Hin Hn. apply in_app_or in Hin.
      destruct Hin as [Hin|[<-|[]]]; [exact (H2 st n Hin Hn)|discriminate]. }
    match goal with
    | |- wellFormed (if ?b then _ else _) => destruct b
    end; [|exact Hbase].
    destruct Hbase as (G1 & G2 & G3). unfold wellFormed. simpl in *. auto.
  - destruct (sockets s !! id); [|exact Hwf].
    unfold onerror. destruct Hwf as (H1 & H2 & H3).
    unfold wellFormed. simpl. split; [exact H1|]. split; [|exact H3].
    intros st n Hin Hn. apply in_app_or in Hin.
    destruct Hin as [Hin|[<-|[]]]; [exact (H2 st n Hin Hn)|discriminate].
  - destruct (timers s !! index); [|exact Hwf].
    apply wellFormed_connect. exact Hwf.
  - apply wellFormed_connect. destruct Hwf as (H1 & H2 & H3).
    unfold wellFormed. simpl. split; [lia|]. auto.
  - unfold sendToServer. destruct (websocket s) as [id|] eqn:Hw; [|exact Hwf].
    destruct (sockets s !! id) as [sock|]; [|exact Hwf].
    destruct (readyState sock); try exact Hwf.
    destruct Hwf as (H1 & H2 & H3). unfold wellFormed. simpl.
    rewrite length_insert.
    split; [exact H1|]. split; [exact H2|].
    intros id' Hid. apply H3. rewrite Hw. exact Hid.
  - destruct (JsString.truthy url); [|exact Hwf].
    apply wellFormed_connect. exact Hwf.
  - exact Hwf.
Qed.

Lemma wellFormed_run (events : list Event) (s : State) :
  wellFormed s -> wellFormed (run s events).
Proof.
  unfold run. revert s.
  induction events as [|ev events IH]; intros s Hwf; simpl.
  - exact Hwf.
  - apply IH. apply wellFormed_step. exact Hwf.
Qed.

(** X23. Whatever happens to the background script, the attempt counter
    never exceeds the limit of five, every retry count it reports to the
    popup lies between 1 and 5, and [websocket] is one of the sockets it
    created. *)
Theorem connection_invariant (events : list Event) :
  (connectionAttempts (run initial events) <= 5)%nat
  /\ (forall st n,
        In st (statusLog (run initial events)) ->
        retryCount st = Some n -> (1 <= n <= 5)%nat)
  /\ (forall id,
        websocket (run initial events) = Some id ->
        (id < length (sockets (run initial events)))%nat).
Proof.
  apply (wellFormed_run events initial).
  unfold wellFormed, initial, MAX_RETRY_ATTEMPTS. simpl.
  split; [lia|]. split; [intros st n []|discriminate].
Qed.

End ConnectionFacts.

Section RetryFacts.

Context `{net : Background.Network}.

Import Background.

Lemma connect_budget (url : string) (s : State) :
  (length (sockets (connectWebSocket url s)) + connectionAttempts s
   <= length (sockets s) + connectionAttempts (connectWebSocket url s))%nat
  /\ (connectionAttempts s <= connectionAttempts (connectWebSocket url s))%nat.
Proof.
  unfold connectWebSocket.
  destruct (MAX_RETRY_ATTEMPTS <=? connectionAttempts s)%nat;
    [simpl; lia|].
  set (s1 := match websocket s with
             | Some id => closeSocket id s
             | None => s
             end).
  assert (Hs1 : connectionAttempts s1 = connectionAttempts s
                /\ length (sockets s1) = length (sockets s)).
  { unfold s1. destruct (websocket s) as [id|]; [|split; reflexivity].
    destruct (closeSocket_fields id s) as (_ & H2 & _ & _ & H5).
    split; assumption. }
  destruct Hs1 as [Ha Hn].
  destruct (webSocketAccepts url).
  - simpl. rewrite length_app, Ha, Hn. simpl. lia.
  - match goal with
    | |- context [if ?b then _ else _] => destruct b
    end; simpl; rewrite Ha, Hn; lia.
Qed.

Lemma step_budget (s : State) (ev : Event) :
  resets ev = false ->
  (length (sockets (step s ev)) + connectionAttempts s
   <= length (sockets s) + connectionAttempts (step s ev))%nat
  /\ (connectionAttempts s <= connectionAttempts (step s ev))%nat.
Proof.
  intros Hev.
  destruct ev as [id|id code|id|index|url|info|[url|]]; simpl in *;
    try discriminate.
  - destruct (sockets s !! id) as [sock|]; [|lia].
    unfold onclose.
    destruct (setSocketState_fields id CLOSED s) as (_ & F2 & _ & _).
    pose proof (length_setSocketState id CLOSED s) as Hl.
    match goal with
    | |- context [if ?b then _ else _] => destruct b
    end; simpl; rewrite F2, Hl; lia.
  - destruct (sockets s !! id); simpl; lia.
  - destruct (timers s !! index); [|lia].
    exact (connect_budget _ (removeTimer index s)).
  - unfold sendToServer. destruct (websocket s) as [id|]; [|simpl; lia].
    destruct (sockets s !! id) as [sock|]; [|simpl; lia].
    destruct (readyState sock); simpl; try lia.
    rewrite length_insert. lia.
  - destruct (JsString.truthy url); [|lia]. apply connect_budget.
  - lia.
Qed.

(** X24. Between two resets of the counter (a socket that opens, or the
    user asking to connect) the script creates at most five sockets: over
    any run of other events, closes, errors, timers, start-ups and
    element messages, the number of sockets grows by no more than the
    attempts that were left. *)
Theorem reconnects_are_bounded (s : State) (events : list Event) :
  wellFormed s ->
  forallb (fun ev => negb (resets ev)) events = true ->
  (length (sockets (run s events)) + connectionAttempts s
   <= length (sockets s) + MAX_RETRY_ATTEMPTS)%nat
  /\ (connectionAttempts s <= connectionAttempts (run s events))%nat.
Proof.
  intros Hwf Hev.
  assert (Hrun : forall s0,
             (length (sockets (run s0 events)) + connectionAttempts s0
              <= length (sockets s0) + connectionAttempts (run s0 events))%nat
             /\ (connectionAttempts s0
                 <= connectionAttempts (run s0 events))%nat).
  { unfold run. induction events as [|ev events IH]; intros s0; simpl;
      [lia|].
    simpl in Hev. apply andb_true_iff in Hev. destruct Hev as [He Hev].
    apply negb_true_iff in He.
    destruct (step_budget s0 ev He) as [B1 B2].
    destruct (IH Hev (step s0 ev)) as [I1 I2]. lia. }
  destruct (Hrun s) as [R1 R2].
  destruct (wellFormed_run events s Hwf) as (Hmax & _).
  split; [lia|exact R2].
Qed.

End RetryFacts.

Lemma reconnects_are_bounded_witness :
  length
    (Background.sockets
       (Background.run (net := BackgroundSamples.refusingNetwork)
          Background.initial BackgroundSamples.failingStartup)) = 0
  /\ Background.connectionAttempts
       (Background.run (net := BackgroundSamples.refusingNetwork)
          Background.initial BackgroundSamples.failingStartup) = 5.
Proof.
  split; [|vm_compute; reflexivity].
  pose proof (reconnects_are_bounded
                (net := BackgroundSamples.refusingNetwork)
                Background.initial BackgroundSamples.failingStartup) as H.
  destruct H as [H _].
  - unfold Background.wellFormed, Background.initial,
      Background.MAX_RETRY_ATTEMPTS. simpl.
    split; [lia|]. split; [intros st n []|discriminate].
  - vm_compute; reflexivity.
  - vm_compute; reflexivity.
Defined.

Section SendFacts.

Import Background.

(** X25. [sendToServer] answers true exactly when the current socket is
    open; then it appends exactly one frame, carrying the action and the
    data, to that socket and changes nothing else: every other socket, the
    attempt counter, [websocket], the pending timers, the status messages
    and the stored flag are as before; when it answers false the state is
    untouched and nothing is sent. *)
Theorem sendToServer_spec (action : string)
    (data : ElementInspector.Message) (s : State) :
  (fst (sendToServer action data s) = true
   <-> exists id sock,
         websocket s = Some id /\ sockets s !! id = Some sock
         /\ readyState sock = OPEN)
  /\ (fst (sendToServer action data s) = false ->
      snd (sendToServer action data s) = s)
  /\ (forall id sock,
        websocket s = Some id -> sockets s !! id = Some sock ->
        readyState sock = OPEN ->
        sockets (snd (sendToServer action data s)) !! id
        = Some (mkSocket (socketUrl sock) OPEN
                  (sentFrames sock ++ [mkFrame action data]))
        /\ (forall other,
              other <> id ->
              sockets (snd (sendToServer action data s)) !! other
              = sockets s !! other)
        /\ connectionAttempts (snd (sendToServer action data s))
           = connectionAttempts s
        /\ websocket (snd (sendToServer action data s)) = websocket s
        /\ timers (snd (sendToServer action data s)) = timers s
        /\ statusLog (snd (sendToServer action data s)) = statusLog s
        /\ serverConnected (snd (sendToServer action data s))
           = serverConnected s).
Proof.
  unfold sendToServer. split; [|split].
  - destruct (websocket s) as [id|]; simpl.
    + destruct (sockets s !! id) as [sock|] eqn:Hs; simpl.
      * destruct (readyState sock) eqn:Hr; simpl; split;
          try discriminate;
          try (intros (id' & sock' & Hid & Hs' & Hr');
               injection Hid as <-; rewrite Hs in Hs';
               injection Hs' as <-; congruence).
        intros _. exists id, sock. auto.
      * split; [discriminate|].
        intros (id' & sock' & Hid & Hs' & _). injection Hid as <-.
        congruence.
    + split; [discriminate|]. intros (id' & sock' & Hid & _). discriminate.
  - destruct (websocket s) as [id|]; [|reflexivity].
    destruct (sockets s !! id) as [sock|]; [|reflexivity].
    destruct (readyState sock); simpl; try reflexivity. discriminate.
  - intros id sock Hw Hs Hr. rewrite Hw, Hs, Hr. simpl.
    split; [|split; [|repeat split; reflexivity]].
    + apply list_lookup_insert_eq. apply lookup_lt_Some in Hs. exact Hs.
    + intros other Hne. apply list_lookup_insert_ne. congruence.
Qed.





(** X27. The popup and the background script test the same five
    prefixes: when the popup holds a page to be restricted,
    [handleStartInspector] answers false without touching the tab; for a
    tab whose url cannot be read the popup does not hold the page
    restricted, and the background script still answers false without
    touching the tab. *)
Theorem restricted_pages_agree (tab : Tab) (world : nat -> Attempt) :
  (forall url, tabUrl tab = Some url ->
               Popup.isRestricted (Some tab) = isRestrictedUrl url)
  /\ (Popup.isRestricted (Some tab) = true ->
      handleStartInspector (Ok (Some tab)) world = (false, []))
  /\ (tabUrl tab = None ->
      Popup.isRestricted (Some tab) = false
      /\ handleStartInspector (Ok (Some tab)) world = (false, []))
  /\ Popup.isRestricted None = false.
Proof.
  unfold Popup.isRestricted, handleStartInspector, isRestrictedUrl.
  split; [|split; [|split]].
  - intros url ->. reflexivity.
  - destruct (tabUrl tab) as [url|]; [|reflexivity].
    intros ->. reflexivity.
  - intros ->. split; reflexivity.
  - reflexivity.
Qed.

End SendFacts.

Section PopupFacts.

Context `{net : Background.Network}.

Import Background.

(** X28. Every status the background script reports, in any run, shows in
    the popup as [Connected to server], as [Disconnected], or as
    [Retrying connection... (Attempt k/5)] with k between 1 and 5; the
    connect button is enabled again, and the inspect button is disabled
    exactly when the status is not connected, unless the page is
    restricted, in which case it is left as it was. *)
Theorem popup_status_line (events : list Event) (st : Status)
    (restricted : bool) (v : Popup.View) :
  In st (statusLog (run initial events)) ->
  (Popup.statusText (Popup.updateConnectionStatus restricted st v)
   = "Connected to server" /\ connected st = true
   \/ Popup.statusText (Popup.updateConnectionStatus restricted st v)
      = "Disconnected" /\ connected st = false
   \/ exists k,
        (1 <= k <= 5)%nat /\ connected st = false
        /\ Popup.statusText (Popup.updateConnectionStatus restricted st v)
           = "Retrying connection... (Attempt " +:+ JsString.ofNat k
             +:+ "/5)")
  /\ Popup.connectDisabled (Popup.updateConnectionStatus restricted st v)
     = false
  /\ Popup.inspectDisabled (Popup.updateConnectionStatus restricted st v)
     = (if restricted then Popup.inspectDisabled v
        else negb (connected st)).
Proof.
  intros Hin.
  assert (Hwf : wellFormed initial).
  { unfold wellFormed, initial, MAX_RETRY_ATTEMPTS. simpl.
    split; [lia|]. split; [intros s n []|discriminate]. }
  destruct (wellFormed_run events initial Hwf) as (_ & Hretry & _).
  unfold Popup.updateConnectionStatus. cbn [Popup.statusText
    Popup.connectDisabled Popup.inspectDisabled].
  split; [|split; [reflexivity|destruct restricted; reflexivity]].
  destruct (connected st) eqn:Hc.
  - left. destruct (retryCount st); simpl; auto.
  - destruct (retryCount st) as [n|] eqn:Hn; simpl.
    + right. right. exists n. split; [|auto].
      exact (Hretry st n Hin Hn).
    + right. left. auto.
Qed.

End PopupFacts.

Lemma popup_status_line_witness :
  Popup.statusText
    (Popup.updateConnectionStatus false (Background.mkStatus false (Some 1))
       (Popup.mkView "" "" true true))
  = "Retrying connection... (Attempt 1/5)".
Proof.
  destruct (popup_status_line (net := BackgroundSamples.openNetwork)
              BackgroundSamples.dropAfterOpen
              (Background.mkStatus false (Some 1)) false
              (Popup.mkView "" "" true true)) as [_ _].
  - vm_compute. left. reflexivity.
  - vm_compute. reflexivity.
Defined.

(** ** Container signatures *)

Section ContainerIdFacts.

Import ElementAnalyzer.

Lemma find_app_last {A : Type} (f : A -> bool) (l : list A) (x : A) :
  List.find f (l ++ [x])
  = match List.find f l with
    | Some y => Some y
    | None => if f x then Some x else None
    end.
Proof.
  induction l as [|y l IH]; simpl; [reflexivity|].
  destruct (f y); [reflexivity|exact IH].
Qed.

Lemma analyzeStructureLoop_containerId (body : Element)
    (rest visited : list Element) :
  isDocumentBody body = true ->
  forall (current : Element) (s : Structure.t),
    (forall x, In x visited -> isDocumentBody x = false) ->
    Structure.containerId
      (analyzeStructureLoop current (visited ++ body :: rest) s)
    = match List.find isLikelyContainer (rev visited) with
      | Some c => Some (getContainerSignature c)
      | None => Structure.containerId s
      end.
Proof.
  intros Hb. induction visited as [|p visited IH]; intros current s Hnb.
  - simpl. rewrite Hb. reflexivity.
  - simpl app. rewrite analyzeStructureLoop_step.
    rewrite (Hnb p) by (left; reflexivity).
    rewrite IH by (intros x Hx; apply Hnb; right; exact Hx).
    simpl rev. rewrite find_app_last.
    destruct (List.find isLikelyContainer (rev visited)); [reflexivity|].
    simpl. destruct (isLikelyContainer p); reflexivity.
Qed.

(** X29. [containerId] is the signature of the outermost ancestor below
    the body that is classified as a container, not of the nearest one:
    every container met on the way up overwrites the one before; it is
    [null] when no ancestor below the body is a container. *)
Theorem analyzeStructure_containerId_outermost (element body : Element)
    (visited rest : list Element) :
  ancestors element = visited ++ body :: rest ->
  isDocumentBody body = true ->
  Structure.containerId (analyzeStructure element)
  = match List.find isLikelyContainer (rev visited) with
    | Some c => Some (getContainerSignature c)
    | None => None
    end.
Proof.
  intros Hch Hb.
  assert (Hnb : forall x, In x visited -> isDocumentBody x = false).
  { assert (Hchain : element :: ancestors element
                     = (element :: visited) ++ body :: rest)
      by (simpl; rewrite Hch; reflexivity).
    pose proof (chain_below_body element body (element :: visited) rest
                  Hchain Hb) as Hbelow.
    intros x Hx. apply Hbelow. right. exact Hx. }
  unfold analyzeStructure. cbn [Structure.containerId]. rewrite Hch.
  rewrite (analyzeStructureLoop_containerId body rest visited Hb _ _ Hnb).
  reflexivity.
Qed.

Lemma analyzeStructure_containerId_outermost_witness :
  Structure.containerId (analyzeStructure Fixtures.nestedThirdItem)
  = Some "div{ul}"
  /\ isLikelyContainer
       (Fixtures.orElse (parentElement Fixtures.nestedThirdItem)
          Fixtures.item) = true.
Proof.
  split; [|vm_compute; reflexivity].
  rewrite (analyzeStructure_containerId_outermost Fixtures.nestedThirdItem
             (Fixtures.orElse (elementAt Fixtures.nestedListPage [1])
                Fixtures.item)
             [Fixtures.orElse (elementAt Fixtures.nestedListPage [1; 0; 0])
                Fixtures.item;
              Fixtures.orElse (elementAt Fixtures.nestedListPage [1; 0])
                Fixtures.item]
             [Fixtures.orElse (elementAt Fixtures.nestedListPage [])
                Fixtures.item]).
  - vm_compute; reflexivity.
  - vm_compute; reflexivity.
  - vm_compute; reflexivity.
Defined.

End ContainerIdFacts.

Section SortFacts.

Lemma string_leb_trans (s1 s2 s3 : string) :
  String.leb s1 s2 = true -> String.leb s2 s3 = true ->
  String.leb s1 s3 = true.
Proof.
  unfold String.leb.
  revert s2 s3. induction s1 as [|a s1 IH]; intros s2 s3.
  - destruct s3; simpl; auto.
  - destruct s2 as [|b s2]; [simpl; discriminate|].
    destruct s3 as [|c s3].
    + simpl. intros _ H; discriminate.
    + simpl.
      pose proof (N.compare_spec (N_of_ascii a) (N_of_ascii b)) as Sab.
      pose proof (N.compare_spec (N_of_ascii b) (N_of_ascii c)) as Sbc.
      pose proof (N.compare_spec (N_of_ascii a) (N_of_ascii c)) as Sac.
      unfold Ascii.compare.
      destruct (N.compare (N_of_ascii a) (N_of_ascii b));
        destruct (N.compare (N_of_ascii b) (N_of_ascii c));
        destruct (N.compare (N_of_ascii a) (N_of_ascii c));
        intros H12 H23; try discriminate; try reflexivity;
        try (exact (IH s2 s3 H12 H23));
        exfalso; inversion Sab; inversion Sbc; inversion Sac; lia.
Qed.

Lemma insertSorted_comm (x y : string) (l : list string) :
  JsString.insertSorted x (JsString.insertSorted y l)
  = JsString.insertSorted y (JsString.insertSorted x l).
Proof.
  induction l as [|z l IH]; simpl.
  - destruct (String.leb x y) eqn:Hxy; destruct (String.leb y x) eqn:Hyx;
      try reflexivity.
    + rewrite (String.leb_antisym x y Hxy Hyx). reflexivity.
    + destruct (String.leb_total x y); congruence.
  - destruct (String.leb y z) eqn:Hyz; destruct (String.leb x z) eqn:Hxz;
      simpl.
    + destruct (String.leb x y) eqn:Hxy; destruct (String.leb y x) eqn:Hyx;
        rewrite ?Hyz, ?Hxz; try reflexivity.
      * rewrite (String.leb_antisym x y Hxy Hyx). reflexivity.
      * destruct (String.leb_total x y); congruence.
    + destruct (String.leb x y) eqn:Hxy.
      * rewrite (string_leb_trans x y z Hxy Hyz) in Hxz. discriminate.
      * rewrite Hxz, Hyz. reflexivity.
    + destruct (String.leb y x) eqn:Hyx.
      * rewrite (string_leb_trans y x z Hyx Hxz) in Hyz. discriminate.
      * rewrite Hyz, Hxz. reflexivity.
    + rewrite Hxz, Hyz, IH. reflexivity.
Qed.

Lemma sort_permutation (l1 l2 : list string) :
  Permutation.Permutation l1 l2 -> JsString.sort l1 = JsString.sort l2.
Proof.
  induction 1 as [|x l1 l2 _ IH|x y l|l1 l2 l3 _ IH1 _ IH2]; simpl.
  - reflexivity.
  - rewrite IH. reflexivity.
  - apply insertSorted_comm.
  - congruence.
Qed.

End SortFacts.

Section SignatureFacts.

Import ElementAnalyzer.

(** X30. The container signature does not see transient state classes
    nor the order of the children: two elements with the same lower-cased
    tag, id and role, the same classes once those starting with [js-],
    [is-], [has-], [active], [visible] or [hidden] are dropped, and the
    same child tags in any order have the same signature. *)
Theorem getContainerSignature_invariant (e1 e2 : Element) :
  JsString.toLowerCase (elTagName e1) = JsString.toLowerCase (elTagName e2) ->
  id e1 = id e2 ->
  getAttribute e1 "role" = getAttribute e2 "role" ->
  List.filter
    (fun cls => negb (existsb (JsString.startsWith cls)
                              transientClassPrefixes)) (classList e1)
  = List.filter
      (fun cls => negb (existsb (JsString.startsWith cls)
                                transientClassPrefixes)) (classList e2) ->
  Permutation.Permutation
    (map (fun child => JsString.toLowerCase (elTagName child)) (children e1))
    (map (fun child => JsString.toLowerCase (elTagName child)) (children e2)) ->
  getContainerSignature e1 = getContainerSignature e2.
Proof.
  intros Ht Hi Hr Hc Hk. unfold getContainerSignature.
  rewrite Ht, Hi, Hr, Hc, (sort_permutation _ _ Hk). reflexivity.
Qed.

Lemma getContainerSignature_invariant_witness :
  getContainerSignature Samples.firstCard = "div.card{a,p}"
  /\ getContainerSignature Samples.secondCard = "div.card{a,p}".
Proof.
  assert (H : getContainerSignature Samples.firstCard
              = getContainerSignature Samples.secondCard).
  { apply (getContainerSignature_invariant Samples.firstCard
             Samples.secondCard); try (vm_compute; reflexivity).
    vm_compute. apply Permutation.perm_swap. }
  split; [rewrite H|]; vm_compute; reflexivity.
Defined.

End SignatureFacts.
